(** * Deduction UI: stream decoder, chat transcript assembler, session controller

    A shallow embedding of the TypeScript front end of the Deduction game
    (App.tsx, components/GameScreen.tsx, components/GameScreen/ChatInputArea.tsx
    and types.ts), with the properties its specification states about them.

    Conventions of the embedding.
    - A JavaScript string that is scanned character by character (the stream
      buffer) is a list of UTF-16 code units; strings that are only compared
      and concatenated (ids, message contents) are Rocq strings.
    - React state is an explicit record; a handler is a function from the
      state (and the outcome of the network call it awaits) to the next
      state.  A setter given a value takes effect in call order.  A setter
      given an updater function queues it; React runs the queue at the next
      render, and an updater that reads a mutable local of its handler
      reads the value the local has then: GameScreen's updaters are kept in
      a queue with the renders as events.  An updater that reads the
      previous state only (App's stage increment) is applied in place.
    - [JSON.parse], [fetch] and [Date.now] belong to the platform: the first is
      a section variable, the other two are inputs of the handlers. *)

From Stdlib Require Import List String Ascii Bool ZArith NArith Lia.
From Stdlib Require Import DecimalString.
Import ListNotations.

Set Implicit Arguments.

(* ------------------------------------------------------------------------- *)
(** ** JavaScript strings as code-unit lists *)

Module JS.

Definition code_unit := N.
Definition js_string := list code_unit.

(** ECMAScript WhiteSpace and LineTerminator code points, the ones
    [String.prototype.trim] strips. *)
Definition is_white_space (c : code_unit) : bool :=
  ((9 <=? c) && (c <=? 13) ||
   (c =? 32) || (c =? 160) || (c =? 5760) ||
   (8192 <=? c) && (c <=? 8202) ||
   (c =? 8232) || (c =? 8233) || (c =? 8239) || (c =? 8287) ||
   (c =? 12288) || (c =? 65279))%N.

Fixpoint trimStart (s : js_string) : js_string :=
  match s with
  | [] => []
  | c :: s' => if is_white_space c then trimStart s' else s
  end.

Definition trimEnd (s : js_string) : js_string := rev (trimStart (rev s)).

Definition trim (s : js_string) : js_string := trimEnd (trimStart s).

(** Truthiness of a string: the empty string is the only falsy one. *)
Definition truthy (s : js_string) : bool :=
  match s with [] => false | _ :: _ => true end.

(** [cons_head c parts] puts [c] in front of the first part. *)
Definition cons_head (c : code_unit) (parts : list js_string) : list js_string :=
  match parts with
  | [] => [[c]]
  | p :: ps => (c :: p) :: ps
  end.

(** [String.prototype.split] with a one-code-unit separator: the result is
    never empty, and the empty string gives one empty part. *)
Fixpoint split (sep : code_unit) (s : js_string) : list js_string :=
  match s with
  | [] => [[]]
  | c :: s' =>
      if (c =? sep)%N then [] :: split sep s'
      else cons_head c (split sep s')
  end.

(** [Array.prototype.pop] followed by [|| ""]: the last element, the empty
    string when there is none (or when it is empty). *)
Definition pop_or_empty (parts : list js_string) : js_string := last parts [].

End JS.

(* ------------------------------------------------------------------------- *)
(** ** StreamDecoder: the generator returned by [handleModelRun] *)

Module StreamDecoder.
Import JS.

Definition STREAM_CHUNK_DELIMITER : code_unit := 30%N.

(** How a run of the generator ends: it returns, or [JSON.parse] throws on a
    segment and the exception reaches the consumer. *)
Inductive completion : Type :=
| Returned
| Threw (segment : js_string).

Section Decoder.

(** The parsed record type and [JSON.parse]; [None] is a thrown SyntaxError. *)
Variable Rec : Type.
Variable JSON_parse : js_string -> option Rec.

(** The [for (const part of parts)] loop: the records yielded, and the
    segment on which [JSON.parse] threw, if any. *)
Fixpoint for_parts (parts : list js_string) : list Rec * option js_string :=
  match parts with
  | [] => ([], None)
  | part :: rest =>
      if truthy (trim part) then
        match JSON_parse (trim part) with
        | Some r => let (ys, e) := for_parts rest in (r :: ys, e)
        | None => ([], Some (trim part))
        end
      else for_parts rest
  end.

(** The [while (true)] loop, by recursion on the fragments that
    [reader.read()] still delivers; the empty list is [done]. *)
Fixpoint read_loop (buffer : js_string) (reads : list js_string)
  : list Rec * completion :=
  match reads with
  | [] =>
      if truthy (trim buffer) then
        match JSON_parse (trim buffer) with
        | Some r => ([r], Returned)
        | None => ([], Threw (trim buffer))
        end
      else ([], Returned)
  | value :: reads' =>
      let buffer1 := buffer ++ value in
      let parts := split STREAM_CHUNK_DELIMITER buffer1 in
      let buffer2 := pop_or_empty parts in
      match for_parts (removelast parts) with
      | (ys, Some seg) => (ys, Threw seg)
      | (ys, None) =>
          let (ys', c) := read_loop buffer2 reads' in (ys ++ ys', c)
      end
  end.

(** The generator starts with [let buffer = ""]. *)
Definition decode (reads : list js_string) : list Rec * completion :=
  read_loop [] reads.

(** *** The specification's view: segments of the whole text *)

Definition segments (text : js_string) : list js_string :=
  split STREAM_CHUNK_DELIMITER text.

Definition non_blank (seg : js_string) : bool := truthy (trim seg).

(** Parse every non-blank segment, in order, stopping at the first failure. *)
Definition decode_segments (segs : list js_string) : list Rec * completion :=
  match for_parts segs with
  | (ys, Some seg) => (ys, Threw seg)
  | (ys, None) => (ys, Returned)
  end.

(** [segs] are well formed and parse to [records]: every non-blank segment
    parses, and [records] are the results in order. *)
Definition parses_to (segs : list js_string) (records : list Rec) : Prop :=
  map (fun seg => JSON_parse (trim seg)) (filter non_blank segs)
  = map Some records.

End Decoder.
End StreamDecoder.

(* ------------------------------------------------------------------------- *)
(** ** Values shared by the components *)

Module Text.
Import JS.
Open Scope string_scope.

(** The code units of a string. *)
Definition code_units (s : string) : js_string :=
  map N_of_ascii (list_ascii_of_string s).

(** [s.trim()] as a string again. *)
Definition trim_string (s : string) : string :=
  string_of_list_ascii (map ascii_of_N (trim (code_units s))).

(** [!s.trim()]: nothing but white space. *)
Definition blank (s : string) : bool := negb (truthy (trim (code_units s))).

(** Truthiness of a string value. *)
Definition truthy_string (s : string) : bool := negb (s =? "").

(** Number to string, for the integers the code prints (clock readings and
    HTTP status codes). *)
Definition Number_toString (z : Z) : string :=
  NilZero.string_of_int (Z.to_int z).

(** [v || fallback] on an optional string: absent and empty are falsy. *)
Definition or_string (v : option string) (fallback : string) : string :=
  match v with
  | Some s => if truthy_string s then s else fallback
  | None => fallback
  end.

End Text.

(* ------------------------------------------------------------------------- *)
(** ** types.ts *)

Module Types.
Open Scope string_scope.

Module User.
Record t : Type := { id : string; name : string; current_stage : Z }.
End User.

Module Question.
Record t : Type := { id : string; prompt : string }.
End Question.

Module ModelOptionDetail.
Record t : Type := { name : string; display_name : string; thinking : bool }.
End ModelOptionDetail.

Module ModelInfo.
Record t : Type := { default : string; options : list ModelOptionDetail.t }.
End ModelInfo.

Module Role.
Inductive t : Type := user | assistant | thinking.

Definition eqb (a b : t) : bool :=
  match a, b with
  | user, user | assistant, assistant | thinking, thinking => true
  | _, _ => false
  end.
End Role.

(** [id] is declared a string; the thinking branch can store an entry
    whose id is [null]. *)
Module ChatMessage.
Record t : Type :=
  { id : option string; role : Role.t; content : string;
    isThinking : option bool }.
End ChatMessage.

Module JoinResponse.
Record t : Type := { user : User.t; question : option Question.t }.
End JoinResponse.

Module AttemptResponse.
Record t : Type :=
  { correct : bool; victory : bool;
    question : option Question.t; message : option string }.
End AttemptResponse.

Module GameView.
Inductive t : Type :=
  loading | joining | playing | victory | error | attemptingAutoJoin.
End GameView.

Definition MAX_STAGES : Z := 3.

End Types.

(* ------------------------------------------------------------------------- *)
(** ** ChatTranscriptAssembler: [handleSendMessageToModel] in GameScreen.tsx *)

Module GameScreen.
Import Types Text.
Open Scope string_scope.

(** The [error] field of a stream object, as the code reads it: the object
    [{ message }] of the wire format or a plain string. *)
Inductive ErrorField : Type :=
| ErrorObject (message : string)
| ErrorText (text : string).

(** A parsed stream object: the three fields the loop reads.  [delta] is a
    string when present (the code casts it [as string]). *)
Record StreamObject : Type :=
  { type : option string; delta : option string; error : option ErrorField }.

(** What the stream yields: an object, or something that fails
    [typeof chunk === "object" && chunk !== null]. *)
Inductive Chunk : Type :=
| ObjectChunk (o : StreamObject)
| NonObjectChunk.

(** What happens while the loop runs: the next record arrives and the loop
    body runs on it, or React renders.  Each comes with the clock reading
    at that moment.  The body of the loop awaits nothing, so a render falls
    between two records, never inside the processing of one. *)
Inductive Event : Type :=
| Arrives (now : Z) (chunk : Chunk)
| Renders (now : Z).

(** How the iteration ends. *)
Inductive StreamEnd : Type :=
| EndOfStream
| StreamThrows (message : string).

Record Stream : Type := { events : list Event; ending : StreamEnd }.

Record ApiMessage : Type := { api_role : Role.t; api_content : string }.

(** The handler's two mutable locals. *)
Record Locals : Type :=
  { currentAssistantMessage : string; thinkingMessageId : option string }.

(** What an updater finds when React runs it: the locals as they are then,
    and the clock then. *)
Record Env : Type := { locals : Locals; clock : Z }.

(** An updater given to [setChatMessages]: a closure over the locals, run
    at the next render on the state of that moment. *)
Definition Updater : Type := Env -> list ChatMessage.t -> list ChatMessage.t.

(** The component state touched by the handler: the transcript as last
    rendered, the updaters queued since, the streaming flag, and the
    handler's locals.  [setIsModelStreaming] is only given constants, so the
    flag is kept as the value last set. *)
Record Turn : Type :=
  { chatMessages : list ChatMessage.t;
    pending : list Updater;
    isModelStreaming : bool;
    vars : Locals }.

(** [setChatMessages(updater)]: the updater is queued. *)
Definition setChatMessages (f : Updater) (st : Turn) : Turn :=
  {| chatMessages := chatMessages st;
     pending := pending st ++ [f];
     isModelStreaming := isModelStreaming st;
     vars := vars st |}.

(** The queued updaters run in order, each on the result of the one before,
    all reading the same locals and clock. *)
Definition run_pending (env : Env) (queue : list Updater)
  (prev : list ChatMessage.t) : list ChatMessage.t :=
  fold_left (fun l f => f env l) queue prev.

(** A render: the queue is run on the transcript and emptied. *)
Definition render (now : Z) (st : Turn) : Turn :=
  {| chatMessages :=
       run_pending {| locals := vars st; clock := now |}
         (pending st) (chatMessages st);
     pending := [];
     isModelStreaming := isModelStreaming st;
     vars := vars st |}.

Definition setIsModelStreaming (b : bool) (st : Turn) : Turn :=
  {| chatMessages := chatMessages st;
     pending := pending st;
     isModelStreaming := b;
     vars := vars st |}.

Definition set_currentAssistantMessage (s : string) (st : Turn) : Turn :=
  {| chatMessages := chatMessages st;
     pending := pending st;
     isModelStreaming := isModelStreaming st;
     vars := {| currentAssistantMessage := s;
                thinkingMessageId := thinkingMessageId (vars st) |} |}.

Definition set_thinkingMessageId (i : option string) (st : Turn) : Turn :=
  {| chatMessages := chatMessages st;
     pending := pending st;
     isModelStreaming := isModelStreaming st;
     vars := {| currentAssistantMessage := currentAssistantMessage (vars st);
                thinkingMessageId := i |} |}.

(** Truthiness of [thinkingMessageId : string | null]. *)
Definition id_truthy (i : option string) : bool :=
  match i with Some s => truthy_string s | None => false end.

(** [a === b] on two values of type [string | null]. *)
Definition same_id (a b : option string) : bool :=
  match a, b with
  | Some x, Some y => (x =? y)
  | None, None => true
  | _, _ => false
  end.

(** The updater [prev => prev.map(m => m.id === thinkingMessageId ?
    { ...m, isThinking: false } : m)]. *)
Definition seal : Updater :=
  fun env prev =>
    map (fun m =>
           if same_id (ChatMessage.id m) (thinkingMessageId (locals env)) then
             {| ChatMessage.id := ChatMessage.id m;
                ChatMessage.role := ChatMessage.role m;
                ChatMessage.content := ChatMessage.content m;
                ChatMessage.isThinking := Some false |}
           else m) prev.

(** [if (thinkingMessageId) { setChatMessages(seal); thinkingMessageId =
    null }]: the seal is queued, then the local is cleared. *)
Definition seal_open_thinking (st : Turn) : Turn :=
  if id_truthy (thinkingMessageId (vars st)) then
    set_thinkingMessageId None (setChatMessages seal st)
  else st.

(** The two updaters of the "thinking" branch; [thinkingContent] is a
    constant of the iteration. *)
Definition append_thinking (thinkingContent : string) : Updater :=
  fun env prev =>
    (prev ++ [ {| ChatMessage.id := thinkingMessageId (locals env);
                  ChatMessage.role := Role.thinking;
                  ChatMessage.content := thinkingContent;
                  ChatMessage.isThinking := Some true |} ])%list.

Definition extend_thinking (thinkingContent : string) : Updater :=
  fun env prev =>
    map (fun m =>
           if same_id (ChatMessage.id m) (thinkingMessageId (locals env)) then
             {| ChatMessage.id := ChatMessage.id m;
                ChatMessage.role := ChatMessage.role m;
                ChatMessage.content := ChatMessage.content m ++ thinkingContent;
                ChatMessage.isThinking := Some true |}
           else m) prev.

(** [typedChunk.type === "thinking"]. *)
Definition on_thinking (now : Z) (o : StreamObject) (st : Turn) : Turn :=
  let thinkingContent := or_string (delta o) "" in
  if negb (id_truthy (thinkingMessageId (vars st))) then
    setChatMessages (append_thinking thinkingContent)
      (set_thinkingMessageId (Some ("thinking-" ++ Number_toString now)) st)
  else
    setChatMessages (extend_thinking thinkingContent) st.

(** The second updater of the "text" branch; [assistantResponseId] is a
    constant of the handler. *)
Definition put_assistant_text (assistantResponseId : string) : Updater :=
  fun env prev =>
    let extend :=
      match last (map Some prev) None with
      | Some lastMsg =>
          same_id (ChatMessage.id lastMsg) (Some assistantResponseId)
          && Role.eqb (ChatMessage.role lastMsg) Role.assistant
      | None => false
      end in
    if extend then
      map (fun m =>
             if same_id (ChatMessage.id m) (Some assistantResponseId) then
               {| ChatMessage.id := ChatMessage.id m;
                  ChatMessage.role := ChatMessage.role m;
                  ChatMessage.content := currentAssistantMessage (locals env);
                  ChatMessage.isThinking := ChatMessage.isThinking m |}
             else m) prev
    else
      let messagesWithoutThinking :=
        filter (fun m => negb (same_id (ChatMessage.id m)
                                 (thinkingMessageId (locals env)))) prev in
      (messagesWithoutThinking
         ++ [ {| ChatMessage.id := Some assistantResponseId;
                 ChatMessage.role := Role.assistant;
                 ChatMessage.content := currentAssistantMessage (locals env);
                 ChatMessage.isThinking := None |} ])%list.

(** [typedChunk.type === "text"]. *)
Definition on_text (assistantResponseId : string) (o : StreamObject)
  (st : Turn) : Turn :=
  let contentPart := or_string (delta o) "" in
  let st1 :=
    set_currentAssistantMessage
      (currentAssistantMessage (vars st) ++ contentPart) st in
  let st2 := seal_open_thinking st1 in
  setChatMessages (put_assistant_text assistantResponseId) st2.

(** The template literal [${typedChunk.error || typedChunk.delta}]. *)
Definition error_text (o : StreamObject) : string :=
  match error o with
  | Some (ErrorObject _) => "[object Object]"
  | Some (ErrorText s) =>
      if truthy_string s then s
      else match delta o with Some d => d | None => "undefined" end
  | None => match delta o with Some d => d | None => "undefined" end
  end.

(** The updater of the "error" branch; its id takes the clock when it
    runs. *)
Definition append_error (o : StreamObject) : Updater :=
  fun env prev =>
    (prev ++ [ {| ChatMessage.id :=
                    Some ("error-" ++ Number_toString (clock env))%string;
                  ChatMessage.role := Role.assistant;
                  ChatMessage.content := "Error from AI: " ++ error_text o;
                  ChatMessage.isThinking := None |} ])%list.

(** [typedChunk.type === "error"]; the loop breaks after it. *)
Definition on_error (o : StreamObject) (st : Turn) : Turn :=
  seal_open_thinking (setChatMessages (append_error o) st).

Definition type_is (o : StreamObject) (tag : string) : bool :=
  match type o with Some t => (t =? tag) | None => false end.

(** One iteration of the [for await] body: the next state, and whether the
    loop breaks. *)
Definition on_chunk (assistantResponseId : string) (now : Z) (chunk : Chunk)
  (st : Turn) : Turn * bool :=
  match chunk with
  | ObjectChunk o =>
      if type_is o "thinking" then (on_thinking now o st, false)
      else if type_is o "text" then (on_text assistantResponseId o st, false)
      else if type_is o "error" then (on_error o st, true)
      else (st, false)
  | NonObjectChunk => (st, false)
  end.

(** The [for await] loop with the renders that fall between its
    iterations: the state when it is left, and whether it was left by
    [break] (then the rest of the stream is never pulled). *)
Fixpoint for_await (assistantResponseId : string) (es : list Event)
  (st : Turn) : Turn * bool :=
  match es with
  | [] => (st, false)
  | Renders now :: rest => for_await assistantResponseId rest (render now st)
  | Arrives now chunk :: rest =>
      match on_chunk assistantResponseId now chunk st with
      | (st', true) => (st', true)
      | (st', false) => for_await assistantResponseId rest st'
      end
  end.

(** The updater of the [catch] block. *)
Definition append_chat_error (message : string) : Updater :=
  fun env prev =>
    (prev ++ [ {| ChatMessage.id :=
                    Some ("error-" ++ Number_toString (clock env))%string;
                  ChatMessage.role := Role.assistant;
                  ChatMessage.content := "Chat Error: " ++ message;
                  ChatMessage.isThinking := None |} ])%list.

Definition on_catch (message : string) (st : Turn) : Turn :=
  setChatMessages (append_chat_error message) st.

(** The [finally] block: its seal is queued and the local is left as it
    is. *)
Definition on_finally (st : Turn) : Turn :=
  let st1 := setIsModelStreaming false st in
  if id_truthy (thinkingMessageId (vars st1)) then setChatMessages seal st1
  else st1.

(** [try { for await ... } catch ... finally ...] on a given stream. *)
Definition consume (assistantResponseId : string) (stream : Stream)
  (st : Turn) : Turn :=
  match for_await assistantResponseId (events stream) st with
  | (st', true) => on_finally st'
  | (st', false) =>
      match ending stream with
      | EndOfStream => on_finally st'
      | StreamThrows message => on_finally (on_catch message st')
      end
  end.

Definition newUserMessage (t_user : Z) (userInput : string) : ChatMessage.t :=
  {| ChatMessage.id := Some ("user-" ++ Number_toString t_user);
     ChatMessage.role := Role.user;
     ChatMessage.content := userInput;
     ChatMessage.isThinking := None |}.

(** The request body's [messages]. *)
Definition messagesForApi (chatMessages : list ChatMessage.t)
  (newUserMessage : ChatMessage.t) : list ApiMessage :=
  map (fun m => {| api_role := ChatMessage.role m;
                   api_content := ChatMessage.content m |})
    (filter (fun msg => Role.eqb (ChatMessage.role msg) Role.user
                        || Role.eqb (ChatMessage.role msg) Role.assistant)
       (chatMessages ++ [newUserMessage])%list).

(** The handler.  [chatMessages0] and [isModelStreaming0] are the component
    state when it is called, [t_user] and [t_assistant] the two clock
    readings taken before the call, [onModelRun] the prop (it never rejects:
    [handleModelRun] turns its failures into a one-record error stream), and
    [t_settled] the clock at the render that follows the turn.  The result
    is the component state after that render, and the call made, if any. *)
Definition handleSendMessageToModel
  (onModelRun : string -> list ApiMessage -> Stream)
  (selectedModel : string) (chatMessages0 : list ChatMessage.t)
  (isModelStreaming0 : bool)
  (t_user t_assistant t_settled : Z) (userInput : string)
  : list ChatMessage.t * bool * option (string * list ApiMessage) :=
  if blank userInput then (chatMessages0, isModelStreaming0, None)
  else
    let newUserMessage := newUserMessage t_user userInput in
    let messagesForApi := messagesForApi chatMessages0 newUserMessage in
    let st0 :=
      {| chatMessages := chatMessages0;
         pending := [ fun _ prev => (prev ++ [newUserMessage])%list ];
         isModelStreaming := true;
         vars := {| currentAssistantMessage := "";
                    thinkingMessageId := None |} |} in
    let assistantResponseId := "assistant-" ++ Number_toString t_assistant in
    let st := render t_settled
                (consume assistantResponseId
                   (onModelRun selectedModel messagesForApi) st0) in
    (chatMessages st, isModelStreaming st,
     Some (selectedModel, messagesForApi)).

(** *** The stream records of the specification, in wire form *)

Definition thinking_record (fragment : string) : Chunk :=
  ObjectChunk {| type := Some "thinking"; delta := Some fragment;
                 error := None |}.

Definition text_record (fragment : string) : Chunk :=
  ObjectChunk {| type := Some "text"; delta := Some fragment; error := None |}.

(** An error record, as [handleModelRun] builds it and as the wire format
    has it. *)
Definition error_record (message : string) : Chunk :=
  ObjectChunk {| type := Some "error"; delta := None;
                 error := Some (ErrorObject message) |}.

(** The legacy shape: only a [delta], under the tag "delta" or no tag. *)
Definition delta_record (fragment : string) : Chunk :=
  ObjectChunk {| type := Some "delta"; delta := Some fragment; error := None |}.

Definition untagged_record (fragment : string) : Chunk :=
  ObjectChunk {| type := None; delta := Some fragment; error := None |}.


(** A render, if [happens], as a list of events. *)
Definition maybe_renders (happens : bool) (now : Z) : list Event :=
  if happens then [Renders now] else [].

(** The transcript after a turn that starts from an empty transcript. *)
Definition transcript_after (stream : Stream) (t_user t_assistant t_settled : Z)
  (userInput : string) : list ChatMessage.t :=
  fst (fst (handleSendMessageToModel (fun _ _ => stream) "" [] false
              t_user t_assistant t_settled userInput)).

End GameScreen.

(* ------------------------------------------------------------------------- *)
(** ** SessionController: App.tsx *)

Module App.
Import Types Text.
Open Scope string_scope.

(** The component's state, and the one entry of [localStorage] it uses
    (under [LOCAL_STORAGE_USER_NAME_KEY]). *)
Record State : Type :=
  { currentUser : option User.t;
    currentQuestion : option Question.t;
    models : option ModelInfo.t;
    currentView : GameView.t;
    isLoading : bool;
    isAttemptingAutoJoin : bool;
    error : option string;
    isJoinDialogOpen : bool;
    actionLoading : bool;
    snackbarOpen : bool;
    snackbarMessage : string;
    persistedUserName : option string;
    isNewGameMode : bool;
    localStorage_userName : option string }.

Definition setCurrentUser (v : option User.t) (s : State) : State :=
  {| currentUser := v;
     currentQuestion := currentQuestion s;
     models := models s;
     currentView := currentView s;
     isLoading := isLoading s;
     isAttemptingAutoJoin := isAttemptingAutoJoin s;
     error := error s;
     isJoinDialogOpen := isJoinDialogOpen s;
     actionLoading := actionLoading s;
     snackbarOpen := snackbarOpen s;
     snackbarMessage := snackbarMessage s;
     persistedUserName := persistedUserName s;
     isNewGameMode := isNewGameMode s;
     localStorage_userName := localStorage_userName s |}.

Definition setCurrentQuestion (v : option Question.t) (s : State) : State :=
  {| currentUser := currentUser s;
     currentQuestion := v;
     models := models s;
     currentView := currentView s;
     isLoading := isLoading s;
     isAttemptingAutoJoin := isAttemptingAutoJoin s;
     error := error s;
     isJoinDialogOpen := isJoinDialogOpen s;
     actionLoading := actionLoading s;
     snackbarOpen := snackbarOpen s;
     snackbarMessage := snackbarMessage s;
     persistedUserName := persistedUserName s;
     isNewGameMode := isNewGameMode s;
     localStorage_userName := localStorage_userName s |}.

Definition setModels (v : option ModelInfo.t) (s : State) : State :=
  {| currentUser := currentUser s;
     currentQuestion := currentQuestion s;
     models := v;
     currentView := currentView s;
     isLoading := isLoading s;
     isAttemptingAutoJoin := isAttemptingAutoJoin s;
     error := error s;
     isJoinDialogOpen := isJoinDialogOpen s;
     actionLoading := actionLoading s;
     snackbarOpen := snackbarOpen s;
     snackbarMessage := snackbarMessage s;
     persistedUserName := persistedUserName s;
     isNewGameMode := isNewGameMode s;
     localStorage_userName := localStorage_userName s |}.

Definition setCurrentView (v : GameView.t) (s : State) : State :=
  {| currentUser := currentUser s;
     currentQuestion := currentQuestion s;
     models := models s;
     currentView := v;
     isLoading := isLoading s;
     isAttemptingAutoJoin := isAttemptingAutoJoin s;
     error := error s;
     isJoinDialogOpen := isJoinDialogOpen s;
     actionLoading := actionLoading s;
     snackbarOpen := snackbarOpen s;
     snackbarMessage := snackbarMessage s;
     persistedUserName := persistedUserName s;
     isNewGameMode := isNewGameMode s;
     localStorage_userName := localStorage_userName s |}.

Definition setIsLoading (v : bool) (s : State) : State :=
  {| currentUser := currentUser s;
     currentQuestion := currentQuestion s;
     models := models s;
     currentView := currentView s;
     isLoading := v;
     isAttemptingAutoJoin := isAttemptingAutoJoin s;
     error := error s;
     isJoinDialogOpen := isJoinDialogOpen s;
     actionLoading := actionLoading s;
     snackbarOpen := snackbarOpen s;
     snackbarMessage := snackbarMessage s;
     persistedUserName := persistedUserName s;
     isNewGameMode := isNewGameMode s;
     localStorage_userName := localStorage_userName s |}.

Definition setIsAttemptingAutoJoin (v : bool) (s : State) : State :=
  {| currentUser := currentUser s;
     currentQuestion := currentQuestion s;
     models := models s;
     currentView := currentView s;
     isLoading := isLoading s;
     isAttemptingAutoJoin := v;
     error := error s;
     isJoinDialogOpen := isJoinDialogOpen s;
     actionLoading := actionLoading s;
     snackbarOpen := snackbarOpen s;
     snackbarMessage := snackbarMessage s;
     persistedUserName := persistedUserName s;
     isNewGameMode := isNewGameMode s;
     localStorage_userName := localStorage_userName s |}.

Definition setError (v : option string) (s : State) : State :=
  {| currentUser := currentUser s;
     currentQuestion := currentQuestion s;
     models := models s;
     currentView := currentView s;
     isLoading := isLoading s;
     isAttemptingAutoJoin := isAttemptingAutoJoin s;
     error := v;
     isJoinDialogOpen := isJoinDialogOpen s;
     actionLoading := actionLoading s;
     snackbarOpen := snackbarOpen s;
     snackbarMessage := snackbarMessage s;
     persistedUserName := persistedUserName s;
     isNewGameMode := isNewGameMode s;
     localStorage_userName := localStorage_userName s |}.

Definition setIsJoinDialogOpen (v : bool) (s : State) : State :=
  {| currentUser := currentUser s;
     currentQuestion := currentQuestion s;
     models := models s;
     currentView := currentView s;
     isLoading := isLoading s;
     isAttemptingAutoJoin := isAttemptingAutoJoin s;
     error := error s;
     isJoinDialogOpen := v;
     actionLoading := actionLoading s;
     snackbarOpen := snackbarOpen s;
     snackbarMessage := snackbarMessage s;
     persistedUserName := persistedUserName s;
     isNewGameMode := isNewGameMode s;
     localStorage_userName := localStorage_userName s |}.

Definition setActionLoading (v : bool) (s : State) : State :=
  {| currentUser := currentUser s;
     currentQuestion := currentQuestion s;
     models := models s;
     currentView := currentView s;
     isLoading := isLoading s;
     isAttemptingAutoJoin := isAttemptingAutoJoin s;
     error := error s;
     isJoinDialogOpen := isJoinDialogOpen s;
     actionLoading := v;
     snackbarOpen := snackbarOpen s;
     snackbarMessage := snackbarMessage s;
     persistedUserName := persistedUserName s;
     isNewGameMode := isNewGameMode s;
     localStorage_userName := localStorage_userName s |}.

Definition setSnackbarOpen (v : bool) (s : State) : State :=
  {| currentUser := currentUser s;
     currentQuestion := currentQuestion s;
     models := models s;
     currentView := currentView s;
     isLoading := isLoading s;
     isAttemptingAutoJoin := isAttemptingAutoJoin s;
     error := error s;
     isJoinDialogOpen := isJoinDialogOpen s;
     actionLoading := actionLoading s;
     snackbarOpen := v;
     snackbarMessage := snackbarMessage s;
     persistedUserName := persistedUserName s;
     isNewGameMode := isNewGameMode s;
     localStorage_userName := localStorage_userName s |}.

Definition setSnackbarMessage (v : string) (s : State) : State :=
  {| currentUser := currentUser s;
     currentQuestion := currentQuestion s;
     models := models s;
     currentView := currentView s;
     isLoading := isLoading s;
     isAttemptingAutoJoin := isAttemptingAutoJoin s;
     error := error s;
     isJoinDialogOpen := isJoinDialogOpen s;
     actionLoading := actionLoading s;
     snackbarOpen := snackbarOpen s;
     snackbarMessage := v;
     persistedUserName := persistedUserName s;
     isNewGameMode := isNewGameMode s;
     localStorage_userName := localStorage_userName s |}.

Definition setPersistedUserName (v : option string) (s : State) : State :=
  {| currentUser := currentUser s;
     currentQuestion := currentQuestion s;
     models := models s;
     currentView := currentView s;
     isLoading := isLoading s;
     isAttemptingAutoJoin := isAttemptingAutoJoin s;
     error := error s;
     isJoinDialogOpen := isJoinDialogOpen s;
     actionLoading := actionLoading s;
     snackbarOpen := snackbarOpen s;
     snackbarMessage := snackbarMessage s;
     persistedUserName := v;
     isNewGameMode := isNewGameMode s;
     localStorage_userName := localStorage_userName s |}.

Definition setIsNewGameMode (v : bool) (s : State) : State :=
  {| currentUser := currentUser s;
     currentQuestion := currentQuestion s;
     models := models s;
     currentView := currentView s;
     isLoading := isLoading s;
     isAttemptingAutoJoin := isAttemptingAutoJoin s;
     error := error s;
     isJoinDialogOpen := isJoinDialogOpen s;
     actionLoading := actionLoading s;
     snackbarOpen := snackbarOpen s;
     snackbarMessage := snackbarMessage s;
     persistedUserName := persistedUserName s;
     isNewGameMode := v;
     localStorage_userName := localStorage_userName s |}.

Definition localStorage_write (v : option string) (s : State) : State :=
  {| currentUser := currentUser s;
     currentQuestion := currentQuestion s;
     models := models s;
     currentView := currentView s;
     isLoading := isLoading s;
     isAttemptingAutoJoin := isAttemptingAutoJoin s;
     error := error s;
     isJoinDialogOpen := isJoinDialogOpen s;
     actionLoading := actionLoading s;
     snackbarOpen := snackbarOpen s;
     snackbarMessage := snackbarMessage s;
     persistedUserName := persistedUserName s;
     isNewGameMode := isNewGameMode s;
     localStorage_userName := v |}.

(** What an awaited [fetch] exchange comes to.  [NetworkFailure] is a
    rejection of [fetch] or of [response.json()] with the given message;
    [HttpError] is a response with [ok] false, its body when it parses as
    JSON reduced to its optional [detail]; [HttpOk] carries the parsed body. *)
Inductive Response (A : Type) : Type :=
| NetworkFailure (message : string)
| HttpError (status : Z) (body : option (option string))
| HttpOk (data : A).
Arguments NetworkFailure {A} message.
Arguments HttpError {A} status body.

(** [response.json().catch(() => ({ detail: fallback }))], then [.detail]. *)
Definition errorData_detail (body : option (option string))
  (fallback : string) : option string :=
  match body with
  | Some detail => detail
  | None => Some fallback
  end.

(** The exchange did not produce a body: the handler's [try] block throws. *)
Definition failed {A : Type} (r : Response A) : bool :=
  match r with
  | HttpOk _ => false
  | _ => true
  end.

Definition handleShowErrorSnackbar (message : string) (s : State) : State :=
  setSnackbarOpen true (setSnackbarMessage message s).

Definition handleCloseSnackbar (s : State) : State :=
  setSnackbarMessage "" (setSnackbarOpen false s).

Record JoinOptions : Type :=
  { startNew : option bool; isAutoAttempt : option bool }.

(** [options?.flag] read as a condition. *)
Definition option_flag (options : option JoinOptions)
  (flag : JoinOptions -> option bool) : bool :=
  match options with
  | Some o => match flag o with Some b => b | None => false end
  | None => false
  end.

(** The [finally] block of [handleJoinGame]. *)
Definition join_finally (auto : bool) (s : State) : State :=
  if negb auto then setActionLoading false s else s.

(** The [catch] block of [handleJoinGame]. *)
Definition join_catch (auto : bool) (errorMessage : string) (s : State) : State :=
  let s1 := setError (Some errorMessage) s in
  if auto then setPersistedUserName None (localStorage_write None s1)
  else handleShowErrorSnackbar ("Failed to join: " ++ errorMessage) s1.

(** [handleJoinGame]: [fetch_join name start_new] is the outcome of the POST
    to [/join] with that body.  The result is the next state and the
    boolean the promise resolves to. *)
Definition handleJoinGame
  (fetch_join : string -> bool -> Response JoinResponse.t)
  (name : string) (options : option JoinOptions) (s : State) : State * bool :=
  let auto := option_flag options isAutoAttempt in
  if blank name then
    ((if negb auto then setError (Some "Please enter a name.") s else s), false)
  else
    let s1 := if negb auto then setActionLoading true s else s in
    let s2 := setError None s1 in
    let startNewSession := option_flag options startNew || isNewGameMode s in
    match fetch_join (trim_string name) startNewSession with
    | NetworkFailure errorMessage =>
        (join_finally auto (join_catch auto errorMessage s2), false)
    | HttpError status body =>
        let errorMessage :=
          or_string (errorData_detail body "Failed to join. Please try again.")
            ("HTTP error! status: " ++ Number_toString status) in
        (join_finally auto (join_catch auto errorMessage s2), false)
    | HttpOk data =>
        let user := JoinResponse.user data in
        let s3 := setCurrentUser (Some user) s2 in
        let s4 := setCurrentQuestion (JoinResponse.question data) s3 in
        let s5 := localStorage_write (Some (User.name user)) s4 in
        let s6 := setPersistedUserName (Some (User.name user)) s5 in
        let s7 :=
          if (User.current_stage user >? MAX_STAGES)%Z
          then setCurrentView GameView.victory s6
          else match JoinResponse.question data with
               | Some _ => setCurrentView GameView.playing s6
               | None => setCurrentView GameView.victory s6
               end in
        let s8 := setIsNewGameMode false (setIsJoinDialogOpen false s7) in
        (join_finally auto s8, true)
    end.

(** The [catch] and [finally] blocks of [initializeApp]. *)
Definition init_catch (errorMessage : string) (s : State) : State :=
  handleShowErrorSnackbar ("App Error: " ++ errorMessage)
    (setCurrentView GameView.error (setError (Some errorMessage) s)).

Definition init_finally (s : State) : State :=
  setIsAttemptingAutoJoin false (setIsLoading false s).

(** [initializeApp], run by the mount effect. *)
Definition initializeApp
  (fetch_models : Response ModelInfo.t)
  (fetch_join : string -> bool -> Response JoinResponse.t)
  (s : State) : State :=
  let s0 :=
    setCurrentView GameView.loading
      (setModels None
         (setCurrentUser None
            (setError None
               (setIsAttemptingAutoJoin false (setIsLoading true s))))) in
  match fetch_models with
  | NetworkFailure errorMessage => init_finally (init_catch errorMessage s0)
  | HttpError _ body =>
      let errorMessage :=
        or_string
          (errorData_detail body "Failed to load game configuration.")
          "Network error loading models." in
      init_finally (init_catch errorMessage s0)
  | HttpOk modelsData =>
      let s1 := setModels (Some modelsData) s0 in
      match localStorage_userName s1 with
      | Some savedName =>
          if truthy_string savedName then
            let s2 :=
              setCurrentView GameView.attemptingAutoJoin
                (setIsAttemptingAutoJoin true
                   (setPersistedUserName (Some savedName) s1)) in
            let (s3, autoJoinSuccess) :=
              handleJoinGame fetch_join savedName
                (Some {| startNew := Some false; isAutoAttempt := Some true |})
                s2 in
            if negb autoJoinSuccess then
              init_finally
                (setIsJoinDialogOpen true (setCurrentView GameView.joining s3))
            else init_finally s3
          else
            init_finally
              (setIsJoinDialogOpen true (setCurrentView GameView.joining s1))
      | None =>
          init_finally
            (setIsJoinDialogOpen true (setCurrentView GameView.joining s1))
      end
  end.

(** What the promise of [handleSubmitAttempt] settles to. *)
Inductive Settled (A : Type) : Type :=
| Resolves (value : A)
| Rejects (message : string).
Arguments Rejects {A} message.

(** The updater [prevUser => prevUser ? { ...prevUser, current_stage:
    prevUser.current_stage + 1 } : null]. *)
Definition next_stage (prevUser : option User.t) : option User.t :=
  match prevUser with
  | Some u =>
      Some {| User.id := User.id u; User.name := User.name u;
              User.current_stage := (User.current_stage u + 1)%Z |}
  | None => None
  end.

(** The state changes after [const data = await response.json()]. *)
Definition apply_attempt (data : AttemptResponse.t) (s : State) : State :=
  if AttemptResponse.correct data then
    let s1 := setCurrentUser (next_stage (currentUser s)) s in
    if AttemptResponse.victory data then
      setCurrentQuestion None (setCurrentView GameView.victory s1)
    else
      setCurrentView GameView.playing
        (setCurrentQuestion (AttemptResponse.question data) s1)
  else
    match AttemptResponse.question data with
    | Some q => setCurrentQuestion (Some q) s
    | None => s
    end.

Definition attempt_catch (errorMessage : string) (s : State) : State :=
  handleShowErrorSnackbar ("Error submitting answer: " ++ errorMessage)
    (setError (Some errorMessage) s).

(** [handleSubmitAttempt]: [fetch_attempt user_id answer] is the outcome of
    the POST to [/attempt]. *)
Definition handleSubmitAttempt
  (fetch_attempt : string -> string -> Response AttemptResponse.t)
  (answer : string) (s : State) : State * Settled AttemptResponse.t :=
  match currentUser s, currentQuestion s with
  | Some user, Some _ =>
      let s1 := setError None (setActionLoading true s) in
      match fetch_attempt (User.id user) answer with
      | NetworkFailure errorMessage =>
          (setActionLoading false (attempt_catch errorMessage s1),
           Rejects errorMessage)
      | HttpError status body =>
          let errorMessage :=
            or_string (errorData_detail body "Submission failed.")
              ("HTTP error! status: " ++ Number_toString status) in
          (setActionLoading false (attempt_catch errorMessage s1),
           Rejects errorMessage)
      | HttpOk data =>
          (setActionLoading false (apply_attempt data s1), Resolves data)
      end
  | _, _ =>
      let errorMsg := "User or question not available for submission." in
      (handleShowErrorSnackbar ("Error: " ++ errorMsg)
         (setError (Some errorMsg) s),
       Rejects errorMsg)
  end.

Definition handlePlayAgain (s : State) : State :=
  localStorage_write None
    (setIsJoinDialogOpen true
       (setCurrentView GameView.joining
          (setIsNewGameMode true
             (setError None
                (setCurrentQuestion None (setCurrentUser None s)))))).

(** What the component renders first: the result of
    [renderInitialLoadOrError], or the main tree with the join dialog
    mounted or not.  The snackbar is rendered in both. *)
Inductive Screen : Type :=
| ResumingSpinner
| LoadingSpinner
| ErrorAlert (message : string)
| MainTree (joinDialog : bool).

Definition is_view (a b : GameView.t) : bool :=
  match a, b with
  | GameView.loading, GameView.loading
  | GameView.joining, GameView.joining
  | GameView.playing, GameView.playing
  | GameView.victory, GameView.victory
  | GameView.error, GameView.error
  | GameView.attemptingAutoJoin, GameView.attemptingAutoJoin => true
  | _, _ => false
  end.

Definition render (s : State) : Screen :=
  if is_view (currentView s) GameView.attemptingAutoJoin
     || (isLoading s && isAttemptingAutoJoin s)
  then ResumingSpinner
  else if isLoading s && is_view (currentView s) GameView.loading
  then LoadingSpinner
  else
    match error s with
    | Some e =>
        if is_view (currentView s) GameView.error && truthy_string e
        then ErrorAlert e
        else MainTree (isJoinDialogOpen s
                       && is_view (currentView s) GameView.joining
                       && match models s with Some _ => true | None => false end)
    | None =>
        MainTree (isJoinDialogOpen s
                  && is_view (currentView s) GameView.joining
                  && match models s with Some _ => true | None => false end)
    end.

(** The snackbar: the message on screen, if it is open. *)
Definition snackbar (s : State) : option string :=
  if snackbarOpen s then Some (snackbarMessage s) else None.

(** The state before the mount effect runs: the [useState] initial values. *)
Definition initial (stored : option string) : State :=
  {| currentUser := None;
     currentQuestion := None;
     models := None;
     currentView := GameView.loading;
     isLoading := true;
     isAttemptingAutoJoin := false;
     error := None;
     isJoinDialogOpen := false;
     actionLoading := false;
     snackbarOpen := false;
     snackbarMessage := "";
     persistedUserName := None;
     isNewGameMode := false;
     localStorage_userName := stored |}.

End App.

(* ------------------------------------------------------------------------- *)
(** ** ChatInputArea.tsx and the turns it starts *)

Module ChatInputArea.
Import Text.
Open Scope string_scope.

(** The DOM events the component listens to: [onChange] and [onKeyDown] of
    the text field, and the form's [onSubmit], which the submit button
    fires (the field is multiline, so Enter in it does not submit). *)
Inductive Event : Type :=
| Change (value : string)
| KeyDown (key : string) (shiftKey : bool)
| Submit.

(** The [disabled] attributes as rendered. *)
Definition input_disabled (isSending : bool) : bool := isSending.

Definition button_disabled (isSending : bool) (userInput : string) : bool :=
  isSending || blank userInput.

(** A disabled control dispatches no event. *)
Definition deliverable (isSending : bool) (userInput : string) (e : Event)
  : bool :=
  match e with
  | Change _ | KeyDown _ _ => negb (input_disabled isSending)
  | Submit => negb (button_disabled isSending userInput)
  end.

(** [handleSend] up to its [await]: the argument of the [onSendMessage]
    call, if it makes one. *)
Definition handleSend (userInput : string) : option string :=
  if blank userInput then None else Some userInput.

(** The handlers: the next [userInput] and the [onSendMessage] call made. *)
Definition dispatch (isSending : bool) (userInput : string) (e : Event)
  : string * option string :=
  match e with
  | Change value => (value, None)
  | KeyDown key shiftKey =>
      if (key =? "Enter") && negb shiftKey && negb isSending
      then (userInput, handleSend userInput)
      else (userInput, None)
  | Submit => (userInput, handleSend userInput)
  end.

(** The chat surface between renders: GameScreen's streaming flag (passed
    down as [isSending]), the text field, and the number of
    [handleSendMessageToModel] calls that have passed their guard and not
    yet reached their [finally]. *)
Record Chat : Type :=
  { isModelStreaming : bool; userInput : string; outstanding : nat }.

Definition initial : Chat :=
  {| isModelStreaming := false; userInput := ""; outstanding := 0 |}.

(** [onSendMessage] is [handleSendMessageToModel]: past the blank guard it
    sets the flag and calls [onModelRun]. *)
Definition onSendMessage (message : string) (c : Chat) : Chat :=
  if blank message then c
  else {| isModelStreaming := true;
          userInput := userInput c;
          outstanding := S (outstanding c) |}.

Inductive Action : Type :=
| UserEvent (e : Event)
| TurnCompletes.

(** One action.  A user event needs an enabled control; a turn can complete
    only if one is outstanding, and then its [finally] clears the flag and
    [handleSend] resumes and empties the field. *)
Definition step (a : Action) (c : Chat) : option Chat :=
  match a with
  | UserEvent e =>
      if deliverable (isModelStreaming c) (userInput c) e then
        let (input', call) := dispatch (isModelStreaming c) (userInput c) e in
        let c' := {| isModelStreaming := isModelStreaming c;
                     userInput := input';
                     outstanding := outstanding c |} in
        match call with
        | Some message => Some (onSendMessage message c')
        | None => Some c'
        end
      else None
  | TurnCompletes =>
      match outstanding c with
      | O => None
      | S n => Some {| isModelStreaming := false;
                       userInput := "";
                       outstanding := n |}
      end
  end.

Fixpoint run (actions : list Action) (c : Chat) : option Chat :=
  match actions with
  | [] => Some c
  | a :: rest =>
      match step a c with
      | Some c' => run rest c'
      | None => None
      end
  end.

(** The invariant of the chat surface: the flag tells whether a call is
    outstanding. *)
Definition flag_counts (c : Chat) : Prop :=
  outstanding c = if isModelStreaming c then 1 else 0.

End ChatInputArea.

(* ------------------------------------------------------------------------- *)
(** ** Reading a trimmed string *)

Module Trimmed.
Import JS.

(** Empty, or starting with a code unit that is not white space. *)
Definition clean_start (s : js_string) : bool :=
  match s with
  | [] => true
  | c :: _ => negb (is_white_space c)
  end.

(** No white space at either end. *)
Definition clean (s : js_string) : bool :=
  clean_start s && clean_start (rev s).

End Trimmed.

(* ------------------------------------------------------------------------- *)
(** ** Reading a transcript *)

Module Transcript.
Import Types Text GameScreen.
Open Scope string_scope.

(** All fragments of a list, joined without separator. *)
Definition joined (fragments : list string) : string :=
  fold_right append "" fragments.

(** The records among the events, in order. *)
Fixpoint arrivals (es : list Event) : list (Z * Chunk) :=
  match es with
  | [] => []
  | Arrives now chunk :: rest => (now, chunk) :: arrivals rest
  | Renders _ :: rest => arrivals rest
  end.

(** The records of a run of thinking fragments and of a run of text
    fragments, each with the clock reading at its arrival. *)
Definition thinking_run (fragments : list (Z * string)) : list (Z * Chunk) :=
  map (fun tf => (fst tf, thinking_record (snd tf))) fragments.

Definition text_run (fragments : list (Z * string)) : list (Z * Chunk) :=
  map (fun tf => (fst tf, text_record (snd tf))) fragments.

(** The thinking entry of a turn whose first thinking fragment arrived at
    [t1]. *)
Definition thinking_entry (t1 : Z) (text : string) (isThinking : bool)
  : ChatMessage.t :=
  {| ChatMessage.id := Some ("thinking-" ++ Number_toString t1);
     ChatMessage.role := Role.thinking;
     ChatMessage.content := text;
     ChatMessage.isThinking := Some isThinking |}.

(** The assistant entry of a turn. *)
Definition assistant_entry (t_assistant : Z) (text : string)
  : ChatMessage.t :=
  {| ChatMessage.id := Some ("assistant-" ++ Number_toString t_assistant);
     ChatMessage.role := Role.assistant;
     ChatMessage.content := text;
     ChatMessage.isThinking := None |}.

(** The entry a throwing iteration leaves, named after the clock at the
    render that shows it. *)
Definition thrown_entry (t_rendered : Z) (ending : StreamEnd)
  : list ChatMessage.t :=
  match ending with
  | EndOfStream => []
  | StreamThrows message =>
      [ {| ChatMessage.id := Some ("error-" ++ Number_toString t_rendered);
           ChatMessage.role := Role.assistant;
           ChatMessage.content := "Chat Error: " ++ message;
           ChatMessage.isThinking := None |} ]
  end.

(** No entry of [transcript] carries the id [i]. *)
Definition fresh (i : string) (transcript : list ChatMessage.t) : Prop :=
  Forall (fun m => same_id (ChatMessage.id m) (Some i) = false) transcript.

(** The entries that have an id. *)
Definition with_id (transcript : list ChatMessage.t) : list ChatMessage.t :=
  filter (fun m => negb (same_id (ChatMessage.id m) None)) transcript.

(** No record of the list is tagged "error". *)
Definition no_error_record (cs : list (Z * Chunk)) : Prop :=
  Forall (fun tc => match snd tc with
                    | ObjectChunk o => type_is o "error" = false
                    | NonObjectChunk => True
                    end) cs.

(** What the transcript becomes if React renders at [now] with the
    handler's locals holding [l]. *)
Definition would_show (l : Locals) (now : Z) (st : Turn)
  : list ChatMessage.t :=
  run_pending {| locals := l; clock := now |} (pending st) (chatMessages st).

(** Whatever the locals hold at the next render, it shows [base]. *)
Definition settled_on (base : list ChatMessage.t) (st : Turn) : Prop :=
  forall l now, would_show l now st = base.

(** A thinking entry opened at [t1] is the open one; the next render shows
    it after [base], provisional and holding [text]. *)
Definition thinking_open (t1 : Z) (base : list ChatMessage.t) (text : string)
  (st : Turn) : Prop :=
  vars st = {| currentAssistantMessage := "";
               thinkingMessageId :=
                 Some ("thinking-" ++ Number_toString t1) |}
  /\ forall now,
       would_show (vars st) now st
       = (base ++ [thinking_entry t1 text true])%list.

(** No thinking entry is open and the assistant entry has been started:
    the next render shows it after [base], holding the assistant text
    gathered by then. *)
Definition answering (t_assistant : Z) (base : list ChatMessage.t)
  (st : Turn) : Prop :=
  thinkingMessageId (vars st) = None
  /\ ((pending st = []
       /\ chatMessages st
          = (base ++ [assistant_entry t_assistant
                        (currentAssistantMessage (vars st))])%list)
      \/ forall now text,
           would_show {| currentAssistantMessage := text;
                         thinkingMessageId := None |} now st
           = (base ++ [assistant_entry t_assistant text])%list).

(** How a turn is left when the loop was not left by [break]. *)
Definition finish (ending : StreamEnd) (st : Turn) : Turn :=
  match ending with
  | EndOfStream => on_finally st
  | StreamThrows message => on_finally (on_catch message st)
  end.

(** No entry of [transcript] has the id [o], a string or null. *)
Definition unnamed_by (o : option string) (transcript : list ChatMessage.t)
  : Prop :=
  Forall (fun m => same_id (ChatMessage.id m) o = false) transcript.

(** An updater that leaves the entries of [base] as they are, in front,
    when the open thinking id it reads names none of them. *)
Definition keeps (base : list ChatMessage.t) (f : Updater) : Prop :=
  forall env tail,
    unnamed_by (thinkingMessageId (locals env)) base ->
    exists tail', f env (base ++ tail)%list = (base ++ tail')%list.

(** The next render shows [base] in front, whichever id is open by then,
    as long as it names no entry of [base]. *)
Definition appending (base : list ChatMessage.t) (st : Turn) : Prop :=
  unnamed_by (thinkingMessageId (vars st)) base
  /\ forall l now,
       unnamed_by (thinkingMessageId l) base ->
       exists tail, would_show l now st = (base ++ tail)%list.

(** The thinking ids a stream can open are not in [transcript]. *)
Definition thinking_ids_fresh (es : list Event)
  (transcript : list ChatMessage.t) : Prop :=
  Forall (fun tc => fresh ("thinking-" ++ Number_toString (fst tc)) transcript)
    (arrivals es).

End Transcript.

(* ------------------------------------------------------------------------- *)
(** ** [handleModelRun] in App.tsx, around the generator *)

Module ModelRun.
Import JS Types Text App.
Open Scope string_scope.

(** What the POST to [/model-run] comes to: [fetch] rejects, the response
    is not ok and has the given text, it has no body, or it has a body that
    the reader delivers in the given fragments. *)
Inductive Fetched : Type :=
| FetchRejects (message : string)
| NotOk (status : Z) (errorText : string)
| NullBody
| Body (reads : list js_string).

Definition has_body (r : Fetched) : bool :=
  match r with
  | Body _ => true
  | _ => false
  end.

Section HandleModelRun.

(** [JSON.parse] on a segment of the stream; [JSON.parse(errorText)?.detail]
    on the text of a refused request, a rejection standing for the thrown
    SyntaxError with its message and the detail being a string when there
    is one. *)
Variable JSON_parse : js_string -> option GameScreen.Chunk.
Variable JSON_parse_detail : string -> Settled (option string).

(** The one-record stream [yield { type: "error", error: { message } }]. *)
Definition error_stream (message : string)
  : list GameScreen.Chunk * StreamDecoder.completion :=
  ([GameScreen.error_record message], StreamDecoder.Returned).

(** The [catch] block. *)
Definition model_run_catch (errorMessage : string) (s : State)
  : State * (list GameScreen.Chunk * StreamDecoder.completion) :=
  (handleShowErrorSnackbar ("AI Chat Error: " ++ errorMessage)
     (setError (Some errorMessage) s),
   error_stream errorMessage).

(** [handleModelRun]: [fetch_model_run model messages user_id] is the outcome
    of the POST with that body.  The result is the next state and what the
    returned iterable yields, with how its iteration ends. *)
Definition handleModelRun
  (fetch_model_run :
     string -> list GameScreen.ApiMessage -> string -> Fetched)
  (model : string) (messages : list GameScreen.ApiMessage) (s : State)
  : State * (list GameScreen.Chunk * StreamDecoder.completion) :=
  let s1 := setError None s in
  match currentUser s with
  | None =>
      let msg := "User not available for model run." in
      (handleShowErrorSnackbar ("Error: " ++ msg) (setError (Some msg) s1),
       error_stream msg)
  | Some user =>
      match fetch_model_run model messages (User.id user) with
      | FetchRejects errorMessage => model_run_catch errorMessage s1
      | NotOk status errorText =>
          match JSON_parse_detail errorText with
          | Rejects errorMessage => model_run_catch errorMessage s1
          | Resolves detail =>
              let errorDetail :=
                or_string detail
                  (or_string (Some errorText)
                     ("HTTP error! status: " ++ Number_toString status)) in
              model_run_catch errorDetail s1
          end
      | NullBody => model_run_catch "Response body is null" s1
      | Body reads => (s1, StreamDecoder.decode JSON_parse reads)
      end
  end.

(** The iterable as the chat loop meets it: the [n]-th record is processed
    at [arrival n]; React renders after it at [rendered n], when that is
    not [None]; a SyntaxError thrown on a segment carries
    [SyntaxError_message] of it. *)
Variable arrival : nat -> Z.
Variable rendered : nat -> option Z.
Variable SyntaxError_message : js_string -> string.

Fixpoint timed (n : nat) (records : list GameScreen.Chunk)
  : list GameScreen.Event :=
  match records with
  | [] => []
  | record :: rest =>
      GameScreen.Arrives (arrival n) record
      :: match rendered n with
         | Some now => GameScreen.Renders now :: timed (S n) rest
         | None => timed (S n) rest
         end
  end.

Definition as_stream
  (run : list GameScreen.Chunk * StreamDecoder.completion)
  : GameScreen.Stream :=
  {| GameScreen.events := timed 0 (fst run);
     GameScreen.ending :=
       match snd run with
       | StreamDecoder.Returned => GameScreen.EndOfStream
       | StreamDecoder.Threw segment =>
           GameScreen.StreamThrows (SyntaxError_message segment)
       end |}.

(** A chat turn end to end: GameScreen's handler with App's [handleModelRun]
    as its [onModelRun] prop.  The result is the transcript and streaming
    flag of GameScreen and the state of App after the turn. *)
Definition chat_turn
  (fetch_model_run :
     string -> list GameScreen.ApiMessage -> string -> Fetched)
  (selectedModel : string) (chatMessages0 : list ChatMessage.t)
  (t_user t_assistant t_settled : Z) (userInput : string) (s : State)
  : list ChatMessage.t * bool * State :=
  match
    GameScreen.handleSendMessageToModel
      (fun model messages =>
         as_stream (snd (handleModelRun fetch_model_run model messages s)))
      selectedModel chatMessages0 false t_user t_assistant t_settled
      userInput
  with
  | (chatMessages, isModelStreaming, Some (model, messages)) =>
      (chatMessages, isModelStreaming,
       fst (handleModelRun fetch_model_run model messages s))
  | (chatMessages, isModelStreaming, None) =>
      (chatMessages, isModelStreaming, s)
  end.

End HandleModelRun.
End ModelRun.

(* ------------------------------------------------------------------------- *)
(** ** JoinDialog.tsx *)

Module JoinDialog.
Import Types Text.
Open Scope string_scope.

Record State : Type := { name : string; inputError : option string }.

(** The effect on [open]: the field takes [initialName || ""]. *)
Definition on_open (initialName : option string) : State :=
  {| name := or_string initialName ""; inputError := None |}.

(** [onChange] of the text field. *)
Definition onChange (value : string) (st : State) : State :=
  {| name := value;
     inputError :=
       match inputError st with
       | Some e => if truthy_string e then None else Some e
       | None => None
       end |}.

(** [handleSubmit]: the next dialog state and the argument of the [onJoin]
    call, if it makes one. *)
Definition handleSubmit (st : State) : State * option string :=
  if blank (name st) then
    ({| name := name st;
        inputError := Some "Please enter your name to join." |}, None)
  else if (30 <? String.length (name st))%nat then
    ({| name := name st;
        inputError := Some "Name cannot exceed 30 characters." |}, None)
  else
    ({| name := name st; inputError := None |}, Some (trim_string (name st))).

(** The submit button's [disabled]. *)
Definition button_disabled (loading : bool) (st : State) : bool :=
  loading || blank (name st).

End JoinDialog.

(* ------------------------------------------------------------------------- *)
(** ** The props App.tsx passes down *)

Module AppProps.
Import Types Text App.
Open Scope string_scope.

(** The body of the POST that [handleJoinGame] makes, if it makes one. *)
Definition join_request (name : string) (options : option JoinOptions)
  (s : State) : option (string * bool) :=
  if blank name then None
  else Some (trim_string name, option_flag options startNew || isNewGameMode s).

(** [onJoin] of the JoinDialog element:
    [handleJoinGame(nameFromDialog, { startNew: isNewGameMode })]. *)
Definition onJoin
  (fetch_join : string -> bool -> Response JoinResponse.t)
  (nameFromDialog : string) (s : State) : State * bool :=
  handleJoinGame fetch_join nameFromDialog
    (Some {| startNew := Some (isNewGameMode s); isAutoAttempt := None |}) s.

(** The view a successful join response leads to. *)
Definition view_after_join (data : JoinResponse.t) : GameView.t :=
  if (User.current_stage (JoinResponse.user data) >? MAX_STAGES)%Z
  then GameView.victory
  else match JoinResponse.question data with
       | Some _ => GameView.playing
       | None => GameView.victory
       end.

End AppProps.

(* ------------------------------------------------------------------------- *)
(** ** AnswerSubmissionDialog.tsx *)

Module AnswerSubmissionDialog.
Import Types Text App.
Open Scope string_scope.

Record State : Type :=
  { answer : string;
    submissionResult : option AttemptResponse.t;
    fieldError : option string;
    isSubmitting : bool }.

(** The effect on [open]. *)
Definition on_open : State :=
  {| answer := ""; submissionResult := None; fieldError := None;
     isSubmitting := false |}.

(** The result put in place of a rejected submission. *)
Definition rejected_result (message : string) : AttemptResponse.t :=
  {| AttemptResponse.correct := false;
     AttemptResponse.victory := false;
     AttemptResponse.question := None;
     AttemptResponse.message := Some message |}.

(** [handleSubmit], with [onSubmitAttempt] giving what its promise settles
    to (a rejection is an Error with the given message): the next dialog
    state and the argument of the call, if it makes one. *)
Definition handleSubmit
  (onSubmitAttempt : string -> Settled AttemptResponse.t) (st : State)
  : State * option string :=
  if blank (answer st) then
    ({| answer := answer st; submissionResult := None;
        fieldError := Some "Please enter your answer.";
        isSubmitting := isSubmitting st |}, None)
  else
    let result :=
      match onSubmitAttempt (answer st) with
      | Resolves result => result
      | Rejects message => rejected_result message
      end in
    ({| answer := answer st; submissionResult := Some result;
        fieldError := None; isSubmitting := false |}, Some (answer st)).

(** What the dialog shows under its title: the red alert with its bold
    line, the green alert, or neither. *)
Inductive Alert : Type :=
| NoAlert
| ErrorAlert (bold : string)
| SuccessAlert.

Definition alert (st : State) : Alert :=
  match submissionResult st with
  | Some r =>
      if isSubmitting st then NoAlert
      else if AttemptResponse.correct r then SuccessAlert
      else ErrorAlert (or_string (AttemptResponse.message r) "Incorrect Answer")
  | None => NoAlert
  end.

(** The dialog in GameScreen with App's handler as [onSubmitAttempt]: the
    dialog state and App's state after [handleSubmit]. *)
Definition submit
  (fetch_attempt : string -> string -> Response AttemptResponse.t)
  (st : State) (s : App.State) : State * App.State :=
  match handleSubmit
          (fun answer => snd (handleSubmitAttempt fetch_attempt answer s)) st
  with
  | (st', Some answer) =>
      (st', fst (handleSubmitAttempt fetch_attempt answer s))
  | (st', None) => (st', s)
  end.

End AnswerSubmissionDialog.

(* ------------------------------------------------------------------------- *)
(** ** MainLayout.tsx *)

Module MainLayout.
Import Types Text.
Open Scope string_scope.

(** What [renderCurrentView] returns. *)
Inductive Content : Type :=
| LoadingNextChallenge
| Game (question : Question.t)
| Victory (userName : string)
| LoadingGame
| ErrorFallback
| UnexpectedView.

Definition renderCurrentView (currentView : GameView.t)
  (currentQuestion : option Question.t) (user : User.t) : Content :=
  match currentView with
  | GameView.playing =>
      match currentQuestion with
      | None => LoadingNextChallenge
      | Some q => Game q
      end
  | GameView.victory => Victory (User.name user)
  | GameView.loading => LoadingGame
  | GameView.error => ErrorFallback
  | _ => UnexpectedView
  end.

(** The level printed in the header. *)
Definition level_shown (user : User.t) (maxStages : Z) : Z :=
  if (User.current_stage user >? maxStages)%Z then maxStages
  else User.current_stage user.

(** The MainLayout element of App.tsx: mounted when the initial screens do
    not apply, the join dialog is closed, a user and the models are held and
    the view is neither loading nor attemptingAutoJoin. *)
Definition mounted (s : App.State) : option Content :=
  match App.render s, App.currentUser s, App.models s with
  | App.MainTree _, Some user, Some _ =>
      if negb (App.isJoinDialogOpen s)
         && negb (App.is_view (App.currentView s) GameView.loading)
         && negb (App.is_view (App.currentView s) GameView.attemptingAutoJoin)
      then Some (renderCurrentView (App.currentView s)
                   (App.currentQuestion s) user)
      else None
  | _, _, _ => None
  end.

End MainLayout.

(* ------------------------------------------------------------------------- *)
(** ** Sample data used to instantiate the statements *)

Module Samples.
Import JS.
Open Scope string_scope.

(** A stand-in for [JSON.parse] that accepts exactly the texts that start
    with an opening brace and returns them unchanged. *)
Definition brace_parse (s : js_string) : option js_string :=
  match s with
  | c :: _ => if (c =? 123)%N then Some s else None
  | [] => None
  end.

Definition units (s : string) : js_string := Text.code_units s.

Definition RS : js_string := [StreamDecoder.STREAM_CHUNK_DELIMITER].

(** Two records, the first cut in the middle, and a blank tail after the
    last delimiter. *)
Definition reads_blank_tail : list js_string :=
  [ units "{a"; units "} " ++ RS ++ units " {b}" ++ RS ++ units "  " ]%list.

(** The same text cut elsewhere. *)
Definition reads_blank_tail' : list js_string :=
  [ units "{a} " ++ RS ++ units " "; units "{b"; units "}" ++ RS;
    units " "; units " " ]%list.

(** Two records, no delimiter after the second. *)
Definition reads_open_tail : list js_string :=
  [ units "{a}" ++ RS ++ units "{b"; units "}" ]%list.

(** A record, a segment that is no record, and a record after it. *)
Definition reads_malformed : list js_string :=
  [ units "{a}" ++ RS ++ units "oo"; units "ps" ++ RS ++ units "{c}" ]%list.

(** A transcript with one finished turn. *)
Definition one_turn : list Types.ChatMessage.t :=
  [ {| Types.ChatMessage.id := Some "user-1"; Types.ChatMessage.role := Types.Role.user;
       Types.ChatMessage.content := "hint?";
       Types.ChatMessage.isThinking := None |};
    {| Types.ChatMessage.id := Some "thinking-3";
       Types.ChatMessage.role := Types.Role.thinking;
       Types.ChatMessage.content := "hm";
       Types.ChatMessage.isThinking := Some false |};
    {| Types.ChatMessage.id := Some "assistant-2";
       Types.ChatMessage.role := Types.Role.assistant;
       Types.ChatMessage.content := "Think of primes.";
       Types.ChatMessage.isThinking := None |} ]%list.

Definition ada : Types.User.t :=
  {| Types.User.id := "u1"; Types.User.name := "Ada";
     Types.User.current_stage := 1 |}.

Definition q1 : Types.Question.t :=
  {| Types.Question.id := "q1"; Types.Question.prompt := "..." |}.

Definition q2 : Types.Question.t :=
  {| Types.Question.id := "q2"; Types.Question.prompt := "..." |}.

Definition some_models : Types.ModelInfo.t :=
  {| Types.ModelInfo.default := "m1";
     Types.ModelInfo.options :=
       [ {| Types.ModelOptionDetail.name := "m1";
            Types.ModelOptionDetail.display_name := "Model One";
            Types.ModelOptionDetail.thinking := true |} ]%list |}.

(** Ada at stage 1 with puzzle q1, playing. *)
Definition playing_q1 : App.State :=
  App.setCurrentView Types.GameView.playing
    (App.setIsLoading false
       (App.setModels (Some some_models)
          (App.setCurrentQuestion (Some q1)
             (App.setCurrentUser (Some ada) (App.initial (Some "Ada")))))).

Definition correct_next : Types.AttemptResponse.t :=
  {| Types.AttemptResponse.correct := true;
     Types.AttemptResponse.victory := false;
     Types.AttemptResponse.question := Some q2;
     Types.AttemptResponse.message := None |}.

Definition correct_victory : Types.AttemptResponse.t :=
  {| Types.AttemptResponse.correct := true;
     Types.AttemptResponse.victory := true;
     Types.AttemptResponse.question := None;
     Types.AttemptResponse.message := None |}.

Definition incorrect_retry : Types.AttemptResponse.t :=
  {| Types.AttemptResponse.correct := false;
     Types.AttemptResponse.victory := false;
     Types.AttemptResponse.question := Some q2;
     Types.AttemptResponse.message := Some "Try again." |}.

(** A backend that refuses every join. *)
Definition join_refused (name : string) (start_new : bool)
  : App.Response Types.JoinResponse.t :=
  App.HttpError 404 (Some (Some "User not found.")).

(** A backend that accepts every join and answers with Ada and q1. *)
Definition join_accepted (name : string) (start_new : bool)
  : App.Response Types.JoinResponse.t :=
  App.HttpOk {| Types.JoinResponse.user := ada;
                Types.JoinResponse.question := Some q1 |}.

(** A backend that cannot be reached. *)
Definition attempt_unreachable (user_id answer : string)
  : App.Response Types.AttemptResponse.t :=
  App.NetworkFailure "Failed to fetch".

(** A stand-in for [JSON.parse] on stream segments: a text that starts with
    "t" is a thinking record and one that starts with "x" a text record,
    each carrying the rest of the text; nothing else parses. *)
Definition tagged_parse (s : js_string) : option GameScreen.Chunk :=
  match s with
  | c :: rest =>
      let fragment := string_of_list_ascii (map ascii_of_N rest) in
      if (c =? 116)%N then Some (GameScreen.thinking_record fragment)
      else if (c =? 120)%N then Some (GameScreen.text_record fragment)
      else None
  | [] => None
  end.

(** A stand-in for [JSON.parse(errorText)?.detail]: no text parses. *)
Definition no_detail (errorText : string) : App.Settled (option string) :=
  App.Rejects "Unexpected token".

Definition tick (n : nat) : Z := Z.of_nat n.

(** A render after every record, a hundred ticks later; and none. *)
Definition every_record (n : nat) : option Z := Some (100 + Z.of_nat n)%Z.

Definition no_render (n : nat) : option Z := None.

Definition syntax_error (segment : js_string) : string := "Unexpected token".

(** A body with a thinking record, a segment that does not parse and a text
    record, in two fragments. *)
Definition body_malformed : list js_string :=
  [ units "tab" ++ RS ++ units "oo"; units "ps" ++ RS ++ units "xcd" ]%list.

(** A model-run backend that refuses every request. *)
Definition model_run_refused (model : string)
  (messages : list GameScreen.ApiMessage) (user_id : string)
  : ModelRun.Fetched :=
  ModelRun.NotOk 500 "Internal Server Error".

Definition model_run_malformed (model : string)
  (messages : list GameScreen.ApiMessage) (user_id : string)
  : ModelRun.Fetched :=
  ModelRun.Body body_malformed.

Definition reads_malformed' : list js_string :=
  [ units "{a}"; RS; units "oops"; RS; units "{c}" ]%list.

End Samples.

(* ========================================================================= *)
(** * Properties *)

(* ------------------------------------------------------------------------- *)
(** ** Splitting and chunking *)

Section SplitFacts.
Import JS.

Variable sep : code_unit.

Lemma split_not_nil (s : js_string) : split sep s <> [].
Proof.
  destruct s as [|c s]; simpl; [discriminate|].
  destruct (c =? sep)%N; [discriminate|].
  destruct (split sep s); discriminate.
Qed.

(** Splitting a concatenation: all parts of the left text but the last are
    final; the last one is continued by the right text. *)
Lemma split_app (x y : js_string) :
  split sep (x ++ y) =
  removelast (split sep x) ++ split sep (last (split sep x) [] ++ y).
Proof.
  induction x as [|c x IH]; simpl; [reflexivity|].
  pose proof (split_not_nil x) as Hne.
  destruct (c =? sep)%N eqn:Hc.
  - destruct (split sep x) as [|p ps] eqn:Hs; [congruence|].
    rewrite IH. reflexivity.
  - rewrite IH.
    destruct (split sep x) as [|p [|q ps]] eqn:Hs; [congruence| |].
    + simpl. rewrite Hc. reflexivity.
    + reflexivity.
Qed.

(** The last part contains no separator. *)
Lemma split_last_whole (x : js_string) :
  split sep (last (split sep x) []) = [last (split sep x) []].
Proof.
  induction x as [|c x IH]; simpl; [reflexivity|].
  pose proof (split_not_nil x) as Hne.
  destruct (c =? sep)%N eqn:Hc.
  - destruct (split sep x) as [|p ps] eqn:Hs; [congruence|]. exact IH.
  - destruct (split sep x) as [|p [|q ps]] eqn:Hs; [congruence| |].
    + simpl in *. rewrite Hc, IH. reflexivity.
    + exact IH.
Qed.

End SplitFacts.

(* ------------------------------------------------------------------------- *)
(** ** The decoder reads segments of the whole text *)

Section DecoderFacts.
Import JS StreamDecoder.

Variable Rec : Type.
Variable JSON_parse : js_string -> option Rec.

Local Abbreviation for_parts := (for_parts JSON_parse).
Local Abbreviation read_loop := (read_loop JSON_parse).
Local Abbreviation decode := (decode JSON_parse).
Local Abbreviation decode_segments := (decode_segments JSON_parse).
Local Abbreviation parses_to := (parses_to JSON_parse).

Lemma for_parts_app (a b : list js_string) :
  for_parts (a ++ b) =
  match for_parts a with
  | (ys, Some seg) => (ys, Some seg)
  | (ys, None) => let (ys', e) := for_parts b in (ys ++ ys', e)
  end.
Proof.
  induction a as [|part a IH]; simpl.
  - destruct (for_parts b); reflexivity.
  - destruct (truthy (trim part)); [|exact IH].
    destruct (JSON_parse (trim part)); [|reflexivity].
    rewrite IH. destruct (for_parts a) as [ys [seg|]]; [reflexivity|].
    destruct (for_parts b); reflexivity.
Qed.

Lemma for_parts_parses_to (segs : list js_string) (records : list Rec) :
  parses_to segs records -> for_parts segs = (records, None).
Proof.
  unfold parses_to, non_blank. revert records.
  induction segs as [|seg segs IH]; simpl; intros records H.
  - destruct records; [reflexivity|discriminate].
  - destruct (truthy (trim seg)); [|auto].
    simpl in H. destruct records as [|r records]; [discriminate|].
    injection H as Hr Hrest. rewrite Hr, (IH _ Hrest). reflexivity.
Qed.

Lemma for_parts_first_failure (pre post : list js_string) (bad : js_string)
  (records : list Rec) :
  parses_to pre records ->
  non_blank bad = true ->
  JSON_parse (trim bad) = None ->
  for_parts (pre ++ bad :: post) = (records, Some (trim bad)).
Proof.
  intros Hpre Hnb Hbad. rewrite for_parts_app, (for_parts_parses_to Hpre).
  simpl. unfold non_blank in Hnb. rewrite Hnb, Hbad, app_nil_r. reflexivity.
Qed.

(** A failure of the loop comes from a first non-blank segment that does not
    parse, after segments that all do. *)
Lemma for_parts_failure_inv (segs : list js_string) (ys : list Rec)
  (seg : js_string) :
  for_parts segs = (ys, Some seg) ->
  exists pre bad post,
    segs = pre ++ bad :: post /\ parses_to pre ys /\
    non_blank bad = true /\ JSON_parse (trim bad) = None /\ seg = trim bad.
Proof.
  revert ys. induction segs as [|s segs IH]; simpl; intros ys H; [discriminate|].
  destruct (truthy (trim s)) eqn:Hnb.
  - destruct (JSON_parse (trim s)) as [r|] eqn:Hp.
    + destruct (for_parts segs) as [ys' e] eqn:Hf.
      injection H as <- ->.
      destruct (IH ys' eq_refl) as (pre & bad & post & -> & Hpre & Hb & Hn & ->).
      exists (s :: pre), bad, post. repeat split; auto.
      unfold parses_to, non_blank in *. simpl. rewrite Hnb. simpl.
      rewrite Hp, Hpre. reflexivity.
    + injection H as <- <-. exists [], s, segs. repeat split; auto.
  - destruct (IH ys H) as (pre & bad & post & -> & Hpre & Hb & Hn & ->).
    exists (s :: pre), bad, post. repeat split; auto.
    unfold parses_to, non_blank in *. simpl. rewrite Hnb. exact Hpre.
Qed.

(** If some non-blank segment does not parse, the loop fails. *)
Lemma for_parts_fails (segs : list js_string) (bad : js_string) :
  In bad segs -> non_blank bad = true -> JSON_parse (trim bad) = None ->
  exists ys seg, for_parts segs = (ys, Some seg).
Proof.
  unfold non_blank.
  induction segs as [|s segs IH]; simpl; intros Hin Hnb Hbad; [contradiction|].
  destruct Hin as [->|Hin].
  - rewrite Hnb, Hbad. eauto.
  - destruct (IH Hin Hnb Hbad) as (ys & seg & Hf). rewrite Hf.
    destruct (truthy (trim s)); [|eauto].
    destruct (JSON_parse (trim s)); eauto.
Qed.

(** The loop invariant: the buffer holds no delimiter, and what remains to
    be produced is the decoding of the buffer followed by the unread text. *)
Lemma read_loop_segments (reads : list js_string) :
  forall buffer,
    split STREAM_CHUNK_DELIMITER buffer = [buffer] ->
    read_loop buffer reads =
    decode_segments (segments (buffer ++ List.concat reads)).
Proof.
  unfold decode_segments, segments.
  induction reads as [|value reads IH]; intros buffer Hbuf.
  - simpl. rewrite app_nil_r, Hbuf. simpl.
    destruct (truthy (trim buffer)); [|reflexivity].
    destruct (JSON_parse (trim buffer)); reflexivity.
  - cbn [StreamDecoder.read_loop List.concat]. unfold pop_or_empty.
    rewrite (app_assoc buffer value).
    rewrite (split_app _ (buffer ++ value) (List.concat reads)), for_parts_app.
    destruct (for_parts (removelast (split _ (buffer ++ value))))
      as [ys [seg|]]; [reflexivity|].
    rewrite (IH _ (split_last_whole _ _)).
    destruct (for_parts _) as [ys' [seg|]]; reflexivity.
Qed.

(** Whatever the fragments, the generator produces the decoding of the
    segments of their concatenation. *)
Lemma decode_segments_of_concat (reads : list js_string) :
  decode reads = decode_segments (segments (List.concat reads)).
Proof. apply (@read_loop_segments reads []). reflexivity. Qed.

Lemma decode_chunking_irrelevant (reads reads' : list js_string) :
  List.concat reads' = List.concat reads -> decode reads' = decode reads.
Proof.
  intros H. rewrite !decode_segments_of_concat, H. reflexivity.
Qed.

Lemma parses_to_snoc (segs : list js_string) (final : js_string)
  (records : list Rec) (r : Rec) :
  parses_to segs records -> non_blank final = true ->
  JSON_parse (trim final) = Some r ->
  parses_to (segs ++ [final]) (records ++ [r]).
Proof.
  unfold parses_to. intros H Hnb Hp.
  rewrite filter_app, !map_app, H. simpl. rewrite Hnb. simpl.
  rewrite Hp. reflexivity.
Qed.

Lemma parses_to_snoc_blank (segs : list js_string) (final : js_string)
  (records : list Rec) :
  parses_to segs records -> non_blank final = false ->
  parses_to (segs ++ [final]) records.
Proof.
  unfold parses_to. intros H Hnb.
  rewrite filter_app, map_app, H. simpl. rewrite Hnb. apply app_nil_r.
Qed.

Lemma decode_parses_to (reads : list js_string) (records : list Rec) :
  parses_to (segments (List.concat reads)) records ->
  decode reads = (records, Returned).
Proof.
  intros H. rewrite decode_segments_of_concat. unfold decode_segments.
  rewrite (for_parts_parses_to H). reflexivity.
Qed.

(** C1 (decoder framing and trailing flush).  Let the concatenation of the
    arriving fragments split on U+001E into segments of which every
    non-blank one parses, [records] being the parsed values in segment
    order.  Then the generator yields exactly [records] and returns, and so
    does it for every other partition of the same text into fragments.  A
    non-blank well-formed text after the last delimiter is the last record;
    a blank one adds nothing. *)
Theorem decoder_framing (reads : list js_string) :
  (forall records,
      parses_to (segments (List.concat reads)) records ->
      forall reads', List.concat reads' = List.concat reads ->
                     decode reads' = (records, Returned))
  /\ (forall segs final records r,
         segments (List.concat reads) = segs ++ [final] ->
         parses_to segs records ->
         non_blank final = true ->
         JSON_parse (trim final) = Some r ->
         decode reads = (records ++ [r], Returned))
  /\ (forall segs final records,
         segments (List.concat reads) = segs ++ [final] ->
         parses_to segs records ->
         non_blank final = false ->
         decode reads = (records, Returned)).
Proof.
  repeat split.
  - intros records H reads' Hc.
    rewrite (@decode_chunking_irrelevant reads reads' Hc). now apply decode_parses_to.
  - intros segs final records r Hs Hp Hnb Hr.
    apply decode_parses_to. rewrite Hs. now apply parses_to_snoc.
  - intros segs final records Hs Hp Hnb.
    apply decode_parses_to. rewrite Hs. now apply parses_to_snoc_blank.
Qed.

(** C7 (decoder fatal on malformed JSON).  A segment is parsed when it is
    not blank after trimming.  If the segments of the whole text are [pre],
    then [bad], then [post], where the non-blank segments of [pre] parse to
    [records] and [bad] is non-blank and does not parse, the generator
    yields [records] and then throws on [bad]: nothing of [post] is yielded,
    for any partition into fragments.  And every text that contains a
    non-blank segment that does not parse has such a first one. *)
Theorem decoder_fatal_on_malformed (reads : list js_string) :
  (forall pre bad post records,
      segments (List.concat reads) = pre ++ bad :: post ->
      parses_to pre records ->
      non_blank bad = true ->
      JSON_parse (trim bad) = None ->
      forall reads', List.concat reads' = List.concat reads ->
                     decode reads' = (records, Threw (trim bad)))
  /\ (forall seg,
         In seg (segments (List.concat reads)) ->
         non_blank seg = true ->
         JSON_parse (trim seg) = None ->
         exists pre bad post records,
           segments (List.concat reads) = pre ++ bad :: post /\
           parses_to pre records /\
           non_blank bad = true /\ JSON_parse (trim bad) = None /\
           decode reads = (records, Threw (trim bad))).
Proof.
  split.
  - intros pre bad post records Hs Hp Hnb Hbad reads' Hc.
    rewrite (@decode_chunking_irrelevant reads reads' Hc), decode_segments_of_concat.
    unfold decode_segments.
    rewrite Hs, (@for_parts_first_failure pre post bad records Hp Hnb Hbad).
    reflexivity.
  - intros seg Hin Hnb Hbad.
    destruct (@for_parts_fails _ seg Hin Hnb Hbad) as (ys & s & Hf).
    destruct (@for_parts_failure_inv _ ys s Hf)
      as (pre & bad & post & Hs & Hp & Hb & Hn & ->).
    exists pre, bad, post, ys. repeat split; auto.
    rewrite decode_segments_of_concat. unfold decode_segments.
    rewrite Hf. reflexivity.
Qed.

End DecoderFacts.

(** C1 at two partitions of one text with a blank tail, and at a text whose
    last record has no delimiter after it. *)
Lemma decoder_framing_witness :
  StreamDecoder.decode Samples.brace_parse Samples.reads_blank_tail'
  = ([Samples.units "{a}"; Samples.units "{b}"], StreamDecoder.Returned)
  /\ StreamDecoder.decode Samples.brace_parse Samples.reads_open_tail
     = ([Samples.units "{a}"; Samples.units "{b}"], StreamDecoder.Returned)
  /\ StreamDecoder.decode Samples.brace_parse Samples.reads_blank_tail
     = ([Samples.units "{a}"; Samples.units "{b}"], StreamDecoder.Returned).
Proof.
  split; [|split].
  - apply (proj1 (decoder_framing Samples.brace_parse
                    Samples.reads_blank_tail)); reflexivity.
  - apply (proj1 (proj2 (decoder_framing Samples.brace_parse
                           Samples.reads_open_tail))
             [Samples.units "{a}"] (Samples.units "{b}")
             [Samples.units "{a}"] (Samples.units "{b}")); reflexivity.
  - apply (proj2 (proj2 (decoder_framing Samples.brace_parse
                           Samples.reads_blank_tail))
             [Samples.units "{a} "; Samples.units " {b}"]
             (Samples.units "  ")); reflexivity.
Defined.

(** C7 at a text whose second segment is no record, in two partitions. *)
Lemma decoder_fatal_on_malformed_witness :
  StreamDecoder.decode Samples.brace_parse Samples.reads_malformed'
  = ([Samples.units "{a}"], StreamDecoder.Threw (Samples.units "oops"))
  /\ exists pre bad post records,
       StreamDecoder.segments (List.concat Samples.reads_malformed)
       = pre ++ bad :: post
       /\ StreamDecoder.parses_to Samples.brace_parse pre records
       /\ StreamDecoder.non_blank bad = true
       /\ Samples.brace_parse (JS.trim bad) = None
       /\ StreamDecoder.decode Samples.brace_parse Samples.reads_malformed
          = (records, StreamDecoder.Threw (JS.trim bad)).
Proof.
  split.
  - apply (proj1 (decoder_fatal_on_malformed Samples.brace_parse
                    Samples.reads_malformed)
             [Samples.units "{a}"] (Samples.units "oops")
             [Samples.units "{c}"]); reflexivity.
  - apply (proj2 (decoder_fatal_on_malformed Samples.brace_parse
                    Samples.reads_malformed) (Samples.units "oops")).
    + simpl. auto.
    + reflexivity.
    + reflexivity.
Defined.

(* ------------------------------------------------------------------------- *)
(** ** The assembler *)

Section AssemblerFacts.
Import Types Text GameScreen.
Open Scope string_scope.

(** Reduce the handler on a concrete event list: the clock readings stay
    symbolic, the id comparisons are settled by their prefixes. *)
Ltac run_turn :=
  unfold transcript_after, handleSendMessageToModel, consume, newUserMessage;
  repeat progress
    (cbn -[Number_toString];
     unfold on_thinking, on_text, on_error, on_finally, on_catch,
       seal_open_thinking, put_assistant_text, seal, append_thinking,
       extend_thinking, append_error, append_chat_error, render, run_pending,
       same_id, id_truthy;
     rewrite ?String.eqb_refl).

(** C2, as the code behaves at the claim's records.  From an empty
    transcript, a non-blank message is sent and thinking "a", thinking "b",
    text "X", text "Y" arrive, with or without a render after each.  The
    seal queued by the first text record runs after [thinkingMessageId] has
    been set to null, so in no case is there a sealed thinking entry: if a
    render followed the second record the transcript is the user entry, the
    thinking entry "ab" still provisional, the assistant entry "XY"; if a
    render followed only the first record the thinking entry holds "a" and
    is still provisional; if no render came before the text the thinking
    entry is stored without id and removed again, leaving the user entry
    and the assistant entry "XY". *)
Theorem assembler_coalescing_by_schedule
  (t_user t_assistant t1 t2 t3 t4 r1 r2 r3 r4 t_settled : Z)
  (rendered1 rendered2 rendered3 rendered4 : bool) :
  let user :=
    {| ChatMessage.id := Some ("user-" ++ Number_toString t_user);
       ChatMessage.role := Role.user;
       ChatMessage.content := "hi";
       ChatMessage.isThinking := None |} in
  let thinking text :=
    {| ChatMessage.id := Some ("thinking-" ++ Number_toString t1);
       ChatMessage.role := Role.thinking;
       ChatMessage.content := text;
       ChatMessage.isThinking := Some true |} in
  let assistant :=
    {| ChatMessage.id := Some ("assistant-" ++ Number_toString t_assistant);
       ChatMessage.role := Role.assistant;
       ChatMessage.content := "XY";
       ChatMessage.isThinking := None |} in
  transcript_after
    {| events :=
         (Arrives t1 (thinking_record "a") :: maybe_renders rendered1 r1
            ++ Arrives t2 (thinking_record "b") :: maybe_renders rendered2 r2
            ++ Arrives t3 (text_record "X") :: maybe_renders rendered3 r3
            ++ Arrives t4 (text_record "Y") :: maybe_renders rendered4 r4)%list;
       ending := EndOfStream |}
    t_user t_assistant t_settled "hi"
  = if rendered2 then [ user; thinking "ab"; assistant ]
    else if rendered1 then [ user; thinking "a"; assistant ]
    else [ user; assistant ].
Proof.
  destruct rendered1, rendered2, rendered3, rendered4;
    run_turn; reflexivity.
Qed.

(** C6, as the code behaves at the claim's records.  From an empty
    transcript, a non-blank message is sent and thinking "a" and then an
    error record carrying the message "boom" arrive, with or without a
    render between them.  Nothing that follows the error record is
    processed.  The transcript ends with an assistant entry whose text is
    "Error from AI: [object Object]": the message is not in it.  The seal
    queued by the error branch runs after [thinkingMessageId] has been set
    to null: when a render came between the two records the thinking entry
    stays provisional; when none did it is stored without id and is the one
    the seal finds. *)
Theorem assembler_error_by_schedule
  (t_user t_assistant t1 t2 r1 t_settled : Z) (rendered1 : bool)
  (rest : list Event) (ending : StreamEnd) :
  transcript_after
    {| events :=
         (Arrives t1 (thinking_record "a") :: maybe_renders rendered1 r1
            ++ Arrives t2 (error_record "boom") :: rest)%list;
       ending := ending |}
    t_user t_assistant t_settled "hi"
  = [ {| ChatMessage.id := Some ("user-" ++ Number_toString t_user);
         ChatMessage.role := Role.user;
         ChatMessage.content := "hi";
         ChatMessage.isThinking := None |};
      (if rendered1 then
         {| ChatMessage.id := Some ("thinking-" ++ Number_toString t1);
            ChatMessage.role := Role.thinking;
            ChatMessage.content := "a";
            ChatMessage.isThinking := Some true |}
       else
         {| ChatMessage.id := None;
            ChatMessage.role := Role.thinking;
            ChatMessage.content := "a";
            ChatMessage.isThinking := Some false |});
      {| ChatMessage.id := Some ("error-" ++ Number_toString t_settled);
         ChatMessage.role := Role.assistant;
         ChatMessage.content := "Error from AI: [object Object]";
         ChatMessage.isThinking := None |} ].
Proof.
  destruct rendered1; run_turn; reflexivity.
Qed.

(** The two wire forms of an error record carrying "boom". *)
Example error_text_object :
  error_text {| type := Some "error"; delta := None;
                error := Some (ErrorObject "boom") |} = "[object Object]".
Proof. reflexivity. Qed.

Example error_text_delta :
  error_text {| type := Some "error"; delta := Some "boom"; error := None |}
  = "boom".
Proof. reflexivity. Qed.

(** C5, as the code has it.  A record of the legacy shape, tagged "delta" or
    not tagged at all, matches none of the three branches of the loop: the
    transcript, the queued updaters, the assistant text gathered so far and
    the open thinking entry are left as they are, and the loop goes on. *)
Theorem legacy_delta_ignored
  (assistantResponseId : string) (now : Z) (fragment : string) (st : Turn) :
  on_chunk assistantResponseId now (delta_record fragment) st = (st, false)
  /\ on_chunk assistantResponseId now (untagged_record fragment) st
     = (st, false).
Proof. split; reflexivity. Qed.

(** C5 as stated fails: a "text" record starts the assistant entry, the
    same fragment under the tag "delta" leaves the transcript with the
    user's message only. *)
Lemma legacy_delta_not_text :
  transcript_after
    {| events := [ Arrives 1 (text_record "X") ]; ending := EndOfStream |}
    0 0 2 "hi"
  = [ newUserMessage 0 "hi";
      {| ChatMessage.id := Some "assistant-0";
         ChatMessage.role := Role.assistant;
         ChatMessage.content := "X"; ChatMessage.isThinking := None |} ]
  /\ transcript_after
       {| events := [ Arrives 1 (delta_record "X") ]; ending := EndOfStream |}
       0 0 2 "hi"
     = [ newUserMessage 0 "hi" ].
Proof. split; reflexivity. Qed.





End AssemblerFacts.


(* ------------------------------------------------------------------------- *)
(** ** The session controller *)

Section SessionFacts.
Import Types Text App.
Open Scope string_scope.
Open Scope Z_scope.

Variable fetch_attempt : string -> string -> Response AttemptResponse.t.

(** C3 (stage progression).  For a submission made with a held user and
    puzzle and answered by the backend with [data]: if [data] is correct and
    not a victory, the held user's stage is one more than before, the held
    puzzle is the returned question and the view is Playing; if [data] is
    not correct, the held user, stage included, and the view are unchanged,
    and the held puzzle changes only when [data] carries a question, to that
    question. *)
Theorem stage_progression
  (answer : string) (s : State) (u : User.t) (q : Question.t)
  (data : AttemptResponse.t) :
  currentUser s = Some u ->
  currentQuestion s = Some q ->
  fetch_attempt (User.id u) answer = HttpOk data ->
  let s' := fst (handleSubmitAttempt fetch_attempt answer s) in
  (AttemptResponse.correct data = true ->
   AttemptResponse.victory data = false ->
   currentUser s'
   = Some {| User.id := User.id u; User.name := User.name u;
             User.current_stage := User.current_stage u + 1 |}
   /\ currentQuestion s' = AttemptResponse.question data
   /\ currentView s' = GameView.playing)
  /\ (AttemptResponse.correct data = false ->
      currentUser s' = Some u
      /\ currentView s' = currentView s
      /\ currentQuestion s'
         = match AttemptResponse.question data with
           | Some q' => Some q'
           | None => Some q
           end).
Proof.
  intros Hu Hq Hfetch s'. subst s'. unfold handleSubmitAttempt.
  rewrite Hu, Hq, Hfetch. unfold apply_attempt. split.
  - intros Hc Hv. rewrite Hc, Hv. simpl. rewrite Hu. auto.
  - intros Hc. rewrite Hc.
    destruct (AttemptResponse.question data); simpl; auto.
Qed.

(** C4, as the code has it.  For a submission answered with a correct
    victory, whatever the prior stage: the held puzzle becomes null, the view
    becomes Victory, and the held stage is one more than before, so that it
    exceeds MAX_STAGES exactly when the prior stage was at least MAX_STAGES. *)
Theorem victory_transition
  (answer : string) (s : State) (u : User.t) (q : Question.t)
  (data : AttemptResponse.t) :
  currentUser s = Some u ->
  currentQuestion s = Some q ->
  fetch_attempt (User.id u) answer = HttpOk data ->
  AttemptResponse.correct data = true ->
  AttemptResponse.victory data = true ->
  let s' := fst (handleSubmitAttempt fetch_attempt answer s) in
  currentQuestion s' = None
  /\ currentView s' = GameView.victory
  /\ exists u', currentUser s' = Some u'
                /\ User.current_stage u' = User.current_stage u + 1
                /\ (User.current_stage u' > MAX_STAGES
                    <-> User.current_stage u >= MAX_STAGES).
Proof.
  intros Hu Hq Hfetch Hc Hv s'. subst s'. unfold handleSubmitAttempt.
  rewrite Hu, Hq, Hfetch. unfold apply_attempt. rewrite Hc, Hv. simpl.
  rewrite Hu. repeat split; auto.
  eexists. split; [reflexivity|]. simpl. unfold MAX_STAGES. lia.
Qed.

End SessionFacts.

Lemma stage_progression_witness :
  (let s' := fst (App.handleSubmitAttempt
                    (fun _ _ => App.HttpOk Samples.correct_next) "42"
                    Samples.playing_q1) in
   App.currentUser s'
   = Some {| Types.User.id := "u1"; Types.User.name := "Ada";
             Types.User.current_stage := 2 |}
   /\ App.currentQuestion s' = Some Samples.q2
   /\ App.currentView s' = Types.GameView.playing)
  /\ (let s' := fst (App.handleSubmitAttempt
                       (fun _ _ => App.HttpOk Samples.incorrect_retry) "41"
                       Samples.playing_q1) in
      App.currentUser s' = Some Samples.ada
      /\ App.currentView s' = Types.GameView.playing
      /\ App.currentQuestion s' = Some Samples.q2).
Proof.
  split.
  - apply (stage_progression (fun _ _ => App.HttpOk Samples.correct_next)
             "42" Samples.playing_q1 (u:=Samples.ada) (q:=Samples.q1)
             (data:=Samples.correct_next)); reflexivity.
  - apply (stage_progression (fun _ _ => App.HttpOk Samples.incorrect_retry)
             "41" Samples.playing_q1 (u:=Samples.ada) (q:=Samples.q1)
             (data:=Samples.incorrect_retry)); reflexivity.
Defined.

Lemma victory_transition_witness :
  let s' := fst (App.handleSubmitAttempt
                   (fun _ _ => App.HttpOk Samples.correct_victory) "42"
                   (App.setCurrentUser
                      (Some {| Types.User.id := "u1"; Types.User.name := "Ada";
                               Types.User.current_stage := 3 |})
                      Samples.playing_q1)) in
  App.currentQuestion s' = None
  /\ App.currentView s' = Types.GameView.victory
  /\ exists u', App.currentUser s' = Some u'
                /\ Types.User.current_stage u' = (3 + 1)%Z
                /\ ((Types.User.current_stage u' > Types.MAX_STAGES)%Z
                    <-> (3 >= Types.MAX_STAGES)%Z).
Proof.
  apply (victory_transition (fun _ _ => App.HttpOk Samples.correct_victory)
           "42"
           (App.setCurrentUser
              (Some {| Types.User.id := "u1"; Types.User.name := "Ada";
                       Types.User.current_stage := 3 |})
              Samples.playing_q1)
           (u:={| Types.User.id := "u1"; Types.User.name := "Ada";
                  Types.User.current_stage := 3 |})
           (q:=Samples.q1) (data:=Samples.correct_victory)); reflexivity.
Defined.

(** C4 as stated fails: a correct victory answered to a user at stage 1
    leaves the held stage at 2, which does not exceed MAX_STAGES. *)
Lemma victory_stage_may_not_exceed_max :
  let s' := fst (App.handleSubmitAttempt
                   (fun _ _ => App.HttpOk Samples.correct_victory) "42"
                   Samples.playing_q1) in
  App.currentQuestion s' = None
  /\ App.currentView s' = Types.GameView.victory
  /\ option_map Types.User.current_stage (App.currentUser s') = Some 2%Z
  /\ ~ (2 > Types.MAX_STAGES)%Z.
Proof.
  repeat split. unfold Types.MAX_STAGES. lia.
Qed.

(* ------------------------------------------------------------------------- *)
(** ** Initialization and the silent rejoin *)

Section RejoinFacts.
Import Types Text App.
Open Scope string_scope.

Lemma not_blank_truthy (name : string) :
  blank name = false -> truthy_string name = true.
Proof. destruct name; [discriminate|reflexivity]. Qed.

Variable fetch_join : string -> bool -> Response JoinResponse.t.

(** The auto attempt that fails: the stored name is removed and nothing is
    sent to the snackbar. *)
Lemma handleJoinGame_auto_failure (savedName : string) (s : State) :
  blank savedName = false ->
  failed (fetch_join (trim_string savedName) (isNewGameMode s)) = true ->
  exists errorMessage,
    handleJoinGame fetch_join savedName
      (Some {| startNew := Some false; isAutoAttempt := Some true |}) s
    = (setPersistedUserName None
         (localStorage_write None
            (setError (Some errorMessage) (setError None s))),
       false).
Proof.
  intros Hblank Hfail. unfold handleJoinGame. rewrite Hblank. simpl.
  destruct (fetch_join (trim_string savedName) (isNewGameMode s));
    [ | |discriminate]; eexists; reflexivity.
Qed.

(** C8 (auto-rejoin fallback).  Models loaded, a name is stored and is not
    blank, so that the join call is made for it, and that call fails.  Then
    the stored name is removed, the view is Joining with the join dialog
    open and on screen, and the snackbar is as it was: the failure message
    is kept in the [error] state only, which the Joining view does not
    render. *)
Theorem auto_rejoin_fallback
  (modelsData : ModelInfo.t) (savedName : string) (s : State) :
  localStorage_userName s = Some savedName ->
  blank savedName = false ->
  failed (fetch_join (trim_string savedName) (isNewGameMode s)) = true ->
  let s' := initializeApp (HttpOk modelsData) fetch_join s in
  localStorage_userName s' = None
  /\ persistedUserName s' = None
  /\ currentView s' = GameView.joining
  /\ isJoinDialogOpen s' = true
  /\ render s' = MainTree true
  /\ snackbarOpen s' = snackbarOpen s
  /\ snackbarMessage s' = snackbarMessage s
  /\ snackbar s' = snackbar s.
Proof.
  intros Hstored Hblank Hfail s'. subst s'. unfold initializeApp.
  cbn [localStorage_userName setModels setCurrentView setCurrentUser setError
       setIsAttemptingAutoJoin setIsLoading].
  rewrite Hstored, (not_blank_truthy _ Hblank).
  match goal with
  | |- context [handleJoinGame fetch_join savedName ?o ?s2] =>
      destruct (@handleJoinGame_auto_failure savedName s2 Hblank)
        as (errorMessage & Hjoin); [exact Hfail|rewrite Hjoin]
  end.
  cbn. unfold snackbar. cbn. repeat split; reflexivity.
Qed.

(** A stored name that is blank is not tried: no join call depends on it and
    it stays in storage. *)
Lemma blank_stored_name_kept
  (modelsData : ModelInfo.t) (savedName : string) (s : State) :
  localStorage_userName s = Some savedName ->
  blank savedName = true ->
  let s' := initializeApp (HttpOk modelsData) fetch_join s in
  localStorage_userName s' = Some savedName
  /\ currentView s' = GameView.joining
  /\ isJoinDialogOpen s' = true.
Proof.
  intros Hstored Hblank s'. subst s'. unfold initializeApp.
  cbn [localStorage_userName setModels setCurrentView setCurrentUser setError
       setIsAttemptingAutoJoin setIsLoading].
  rewrite Hstored. destruct (truthy_string savedName); [|cbn; auto].
  unfold handleJoinGame. rewrite Hblank. cbn. auto.
Qed.

End RejoinFacts.

Lemma auto_rejoin_fallback_witness :
  let s' := App.initializeApp (App.HttpOk Samples.some_models)
              Samples.join_refused (App.initial (Some "Ada"%string)) in
  App.localStorage_userName s' = None
  /\ App.persistedUserName s' = None
  /\ App.currentView s' = Types.GameView.joining
  /\ App.isJoinDialogOpen s' = true
  /\ App.render s' = App.MainTree true
  /\ App.snackbarOpen s' = false
  /\ App.snackbarMessage s' = ""%string
  /\ App.snackbar s' = None.
Proof.
  apply (auto_rejoin_fallback Samples.join_refused Samples.some_models
           (savedName:="Ada"%string) (App.initial (Some "Ada"%string))); reflexivity.
Defined.

(* ------------------------------------------------------------------------- *)
(** ** One chat turn at a time *)

Section ChatTurnFacts.
Import Text ChatInputArea.
Open Scope string_scope.

(** While the flag is set every control is disabled. *)
Lemma nothing_deliverable_while_sending (userInput : string) (e : Event) :
  deliverable true userInput e = false.
Proof. destruct e; reflexivity. Qed.

Lemma step_flag_counts (a : Action) (c c' : Chat) :
  flag_counts c -> step a c = Some c' -> flag_counts c'.
Proof.
  unfold flag_counts. destruct c as [flag input n]. simpl. intros Hinv.
  destruct a as [e|]; simpl.
  - destruct flag.
    + rewrite nothing_deliverable_while_sending. discriminate.
    + destruct (deliverable false input e); [|discriminate].
      destruct e as [value|key shiftKey|]; simpl.
      * intros [= <-]. exact Hinv.
      * destruct ((key =? "Enter") && negb shiftKey && true); simpl;
          unfold handleSend;
          [destruct (blank input) eqn:Hb; simpl|];
          intros [= <-]; simpl; unfold onSendMessage; simpl;
          rewrite ?Hb; simpl; subst; reflexivity.
      * unfold handleSend. destruct (blank input) eqn:Hb; simpl;
          intros [= <-]; unfold onSendMessage; simpl;
          rewrite ?Hb; simpl; subst; reflexivity.
  - destruct n as [|n]; [discriminate|]. intros [= <-]. simpl.
    destruct flag; [congruence|discriminate].
Qed.

Lemma run_flag_counts (actions : list Action) :
  forall c c', flag_counts c -> run actions c = Some c' -> flag_counts c'.
Proof.
  induction actions as [|a rest IH]; simpl; intros c c' Hinv Hrun.
  - injection Hrun as <-. exact Hinv.
  - destruct (step a c) as [c1|] eqn:Hstep; [|discriminate].
    eapply IH; [|exact Hrun]. eapply step_flag_counts; eauto.
Qed.

(** C9 (one turn per transcript).  In every state the chat surface reaches
    from its initial one, at most one model-run call is outstanding, and one
    is outstanding exactly when the streaming flag is set; while it is set,
    no user event can be delivered (the text field and the send button are
    disabled), so every action that is possible leaves the number of
    outstanding calls no larger. *)
Theorem one_turn_at_a_time (actions : list Action) (c : Chat) :
  run actions initial = Some c ->
  outstanding c <= 1
  /\ (isModelStreaming c = true <-> outstanding c = 1)
  /\ (isModelStreaming c = true ->
      (forall e, step (UserEvent e) c = None)
      /\ (forall a c', step a c = Some c' -> outstanding c' <= outstanding c)).
Proof.
  intros Hrun.
  assert (Hinv : flag_counts c)
    by (eapply run_flag_counts; [|exact Hrun]; reflexivity).
  unfold flag_counts in Hinv. split; [|split].
  - destruct (isModelStreaming c); lia.
  - destruct (isModelStreaming c); split; intros; try lia; congruence.
  - intros Hflag. split.
    + intros e. simpl. rewrite Hflag, nothing_deliverable_while_sending.
      reflexivity.
    + intros [e|] c' Hstep.
      * simpl in Hstep.
        rewrite Hflag, nothing_deliverable_while_sending in Hstep.
        discriminate.
      * simpl in Hstep. destruct (outstanding c); [discriminate|].
        injection Hstep as <-. simpl. lia.
Qed.

End ChatTurnFacts.

Lemma one_turn_at_a_time_witness :
  let c := {| ChatInputArea.isModelStreaming := true;
              ChatInputArea.userInput := "hi";
              ChatInputArea.outstanding := 1 |} in
  ChatInputArea.run
    [ ChatInputArea.UserEvent (ChatInputArea.Change "hi");
      ChatInputArea.UserEvent ChatInputArea.Submit ] ChatInputArea.initial
  = Some c
  /\ ChatInputArea.outstanding c <= 1
  /\ (ChatInputArea.isModelStreaming c = true
      <-> ChatInputArea.outstanding c = 1)
  /\ (ChatInputArea.isModelStreaming c = true ->
      (forall e, ChatInputArea.step (ChatInputArea.UserEvent e) c = None)
      /\ (forall a c', ChatInputArea.step a c = Some c' ->
                       ChatInputArea.outstanding c'
                       <= ChatInputArea.outstanding c)).
Proof.
  intros c. split; [reflexivity|].
  apply (one_turn_at_a_time
           [ ChatInputArea.UserEvent (ChatInputArea.Change "hi");
             ChatInputArea.UserEvent ChatInputArea.Submit ]).
  reflexivity.
Defined.

(* ========================================================================= *)
(** * Further properties of the code *)

(* ------------------------------------------------------------------------- *)
(** ** The decoder on arbitrary input *)

Section DecoderOutcome.
Import JS StreamDecoder.

Variable Rec : Type.
Variable JSON_parse : js_string -> option Rec.


(** X1.  What the generator produces depends on the text only: two fragment
    lists with the same concatenation give the same records and the same
    ending, whether the text is well formed or not. *)
Theorem decoder_depends_on_text_only (reads reads' : list js_string) :
  List.concat reads = List.concat reads' ->
  decode JSON_parse reads = decode JSON_parse reads'.
Proof.
  intros H. rewrite !decode_segments_of_concat, H. reflexivity.
Qed.


End DecoderOutcome.

Lemma decoder_depends_on_text_only_witness :
  List.concat Samples.reads_malformed = List.concat Samples.reads_malformed'
  /\ StreamDecoder.decode Samples.brace_parse Samples.reads_malformed
     = StreamDecoder.decode Samples.brace_parse Samples.reads_malformed'.
Proof.
  split; [reflexivity|].
  apply (decoder_depends_on_text_only Samples.brace_parse
           Samples.reads_malformed Samples.reads_malformed').
  reflexivity.
Defined.

(* ------------------------------------------------------------------------- *)
(** ** Trimming *)

Section TrimFacts.
Import JS Trimmed.

Lemma trimStart_clean (s : js_string) : clean_start (trimStart s) = true.
Proof.
  induction s as [|c s IH]; simpl; [reflexivity|].
  destruct (is_white_space c) eqn:Hc; [exact IH|]. simpl. now rewrite Hc.
Qed.

Lemma trimStart_fixed (s : js_string) :
  clean_start s = true -> trimStart s = s.
Proof.
  destruct s as [|c s]; simpl; [reflexivity|].
  destruct (is_white_space c); [discriminate|reflexivity].
Qed.

(** [trimStart] removes a prefix. *)
Lemma trimStart_suffix (s : js_string) :
  exists ws, s = ws ++ trimStart s.
Proof.
  induction s as [|c s [ws IH]]; simpl.
  - exists []. reflexivity.
  - destruct (is_white_space c).
    + exists (c :: ws). simpl. now rewrite <- IH.
    + exists []. reflexivity.
Qed.

(** [trimEnd] removes a suffix. *)
Lemma trimEnd_prefix (s : js_string) :
  exists ws, s = trimEnd s ++ ws.
Proof.
  unfold trimEnd. destruct (trimStart_suffix (rev s)) as [ws H].
  exists (rev ws). rewrite <- rev_app_distr, <- H. symmetry. apply rev_involutive.
Qed.

Lemma trimEnd_clean_start (s : js_string) :
  clean_start s = true -> clean_start (trimEnd s) = true.
Proof.
  intros Hs. destruct (trimEnd_prefix s) as [ws H].
  destruct (trimEnd s) as [|c t]; [reflexivity|].
  rewrite H in Hs. exact Hs.
Qed.

Lemma trim_clean_start (s : js_string) : clean_start (trim s) = true.
Proof. apply trimEnd_clean_start, trimStart_clean. Qed.

Lemma trim_clean_end (s : js_string) : clean_start (rev (trim s)) = true.
Proof.
  unfold trim, trimEnd. rewrite rev_involutive. apply trimStart_clean.
Qed.

Lemma trim_idempotent (s : js_string) : trim (trim s) = trim s.
Proof.
  unfold trim at 1. rewrite (trimStart_fixed _ (trim_clean_start s)).
  unfold trimEnd. rewrite (trimStart_fixed _ (trim_clean_end s)).
  apply rev_involutive.
Qed.

Lemma trim_length (s : js_string) :
  (List.length (trim s) <= List.length s)%nat.
Proof.
  unfold trim.
  destruct (trimEnd_prefix (trimStart s)) as [ws1 H1].
  destruct (trimStart_suffix s) as [ws2 H2].
  rewrite H2 at 2. rewrite H1 at 2. rewrite !length_app. lia.
Qed.

Lemma trim_Forall (P : code_unit -> Prop) (s : js_string) :
  Forall P s -> Forall P (trim s).
Proof.
  intros H. unfold trim.
  destruct (trimEnd_prefix (trimStart s)) as [ws1 H1].
  destruct (trimStart_suffix s) as [ws2 H2].
  rewrite H2 in H. apply Forall_app in H as [_ H].
  rewrite H1 in H. apply Forall_app in H as [H _]. exact H.
Qed.

End TrimFacts.

Section TrimStringFacts.
Import JS Text.
Open Scope string_scope.

Lemma code_units_bounded (s : string) :
  Forall (fun n => (n < 256)%N) (code_units s).
Proof.
  unfold code_units. apply Forall_forall. intros n Hin.
  apply in_map_iff in Hin as (a & <- & _). apply N_ascii_bounded.
Qed.

Lemma code_units_of_bounded (l : js_string) :
  Forall (fun n => (n < 256)%N) l ->
  code_units (string_of_list_ascii (map ascii_of_N l)) = l.
Proof.
  intros H. unfold code_units.
  rewrite list_ascii_of_string_of_list_ascii, map_map.
  induction H as [|n l Hn _ IH]; simpl; [reflexivity|].
  now rewrite (N_ascii_embedding _ Hn), IH.
Qed.

(** [trim_string] is [trim] on the code units. *)
Lemma code_units_trim_string (s : string) :
  code_units (trim_string s) = trim (code_units s).
Proof.
  unfold trim_string. apply code_units_of_bounded, trim_Forall,
    code_units_bounded.
Qed.

Lemma trim_string_idempotent (s : string) :
  trim_string (trim_string s) = trim_string s.
Proof.
  unfold trim_string at 1.
  rewrite code_units_trim_string, trim_idempotent. reflexivity.
Qed.

Lemma blank_trim_string (s : string) : blank (trim_string s) = blank s.
Proof.
  unfold blank. rewrite code_units_trim_string, trim_idempotent. reflexivity.
Qed.

Lemma length_code_units (s : string) :
  List.length (code_units s) = String.length s.
Proof.
  unfold code_units. rewrite length_map.
  induction s as [|a s IH]; simpl; [reflexivity|]. now rewrite IH.
Qed.

Lemma trim_string_length (s : string) :
  (String.length (trim_string s) <= String.length s)%nat.
Proof.
  rewrite <- !length_code_units, code_units_trim_string. apply trim_length.
Qed.

End TrimStringFacts.

(* ------------------------------------------------------------------------- *)
(** ** Joining *)

Section JoinFacts.
Import Types Text App AppProps.
Open Scope string_scope.

Variable fetch_join : string -> bool -> Response JoinResponse.t.

(** The handler asks the backend nothing but its request. *)
Lemma handleJoinGame_depends_on_request
  (g : string -> bool -> Response JoinResponse.t)
  (name : string) (options : option JoinOptions) (s : State) :
  (forall n b, join_request name options s = Some (n, b) ->
               fetch_join n b = g n b) ->
  handleJoinGame fetch_join name options s = handleJoinGame g name options s.
Proof.
  unfold join_request, handleJoinGame. intros H.
  destruct (blank name); [reflexivity|].
  cbn [isNewGameMode setError setActionLoading] in *.
  assert (Hs : forall s1 : State,
             isNewGameMode (if negb (option_flag options isAutoAttempt)
                            then setActionLoading true s1 else s1)
             = isNewGameMode s1)
    by (intros s1; destruct (negb _); reflexivity).
  rewrite (H _ _ eq_refl). reflexivity.
Qed.

(** A call to [onJoin] means the field passed both checks. *)
Lemma handleSubmit_passes (st : JoinDialog.State) (n : string) :
  snd (JoinDialog.handleSubmit st) = Some n ->
  n = trim_string (JoinDialog.name st) /\ blank (JoinDialog.name st) = false.
Proof.
  unfold JoinDialog.handleSubmit.
  destruct (blank (JoinDialog.name st)); [discriminate|].
  destruct (30 <? _)%nat; [discriminate|]. simpl. intros [= <-]. auto.
Qed.

(** X3.  What [handleSubmit] of the join dialog lets through: the name it
    hands to [onJoin] is the trimmed field, is not blank, has no white space
    at either end and at most 30 code units, and the dialog shows no error.
    A blank field, or a field of more than 30 code units (counted before
    trimming), makes no call and shows the matching error. *)
Theorem join_dialog_validation (st : JoinDialog.State) :
  (forall n, snd (JoinDialog.handleSubmit st) = Some n ->
             n = trim_string (JoinDialog.name st)
             /\ blank n = false
             /\ (String.length n <= 30)%nat
             /\ Trimmed.clean (code_units n) = true
             /\ JoinDialog.inputError (fst (JoinDialog.handleSubmit st)) = None)
  /\ (blank (JoinDialog.name st) = true ->
      JoinDialog.handleSubmit st
      = ({| JoinDialog.name := JoinDialog.name st;
            JoinDialog.inputError := Some "Please enter your name to join." |},
         None))
  /\ (blank (JoinDialog.name st) = false ->
      (30 < String.length (JoinDialog.name st))%nat ->
      JoinDialog.handleSubmit st
      = ({| JoinDialog.name := JoinDialog.name st;
            JoinDialog.inputError := Some "Name cannot exceed 30 characters." |},
         None)).
Proof.
  unfold JoinDialog.handleSubmit. repeat split.
  - destruct (blank (JoinDialog.name st)); [discriminate|].
    destruct (30 <? _)%nat; [discriminate|]. simpl in H. congruence.
  - destruct (blank (JoinDialog.name st)) eqn:Hb; [discriminate|].
    destruct (30 <? _)%nat; [discriminate|]. simpl in H.
    injection H as <-. now rewrite blank_trim_string.
  - destruct (blank (JoinDialog.name st)); [discriminate|].
    destruct (30 <? _)%nat eqn:Hl; [discriminate|]. simpl in H.
    injection H as <-. apply Nat.ltb_ge in Hl.
    pose proof (trim_string_length (JoinDialog.name st)). lia.
  - destruct (blank (JoinDialog.name st)); [discriminate|].
    destruct (30 <? _)%nat; [discriminate|]. simpl in H.
    injection H as <-. unfold Trimmed.clean.
    rewrite code_units_trim_string, trim_clean_start, trim_clean_end.
    reflexivity.
  - destruct (blank (JoinDialog.name st)); [discriminate|].
    destruct (30 <? _)%nat; [discriminate|]. reflexivity.
  - intros ->. reflexivity.
  - intros -> Hl. apply Nat.ltb_lt in Hl. now rewrite Hl.
Qed.

(** X4.  From the dialog to the wire: for a name the dialog lets through,
    the POST to [/join] carries exactly that name (trimming it again changes
    nothing) with [start_new] equal to the new-game flag, and the outcome of
    the join depends on the backend's answer to that one request only. *)
Theorem join_dialog_request
  (g : string -> bool -> Response JoinResponse.t)
  (st : JoinDialog.State) (s : State) (n : string) :
  snd (JoinDialog.handleSubmit st) = Some n ->
  join_request n
    (Some {| startNew := Some (isNewGameMode s); isAutoAttempt := None |}) s
  = Some (n, isNewGameMode s)
  /\ (fetch_join n (isNewGameMode s) = g n (isNewGameMode s) ->
      onJoin fetch_join n s = onJoin g n s).
Proof.
  intros Hn.
  destruct (handleSubmit_passes st Hn) as (Heq & Hb).
  rewrite <- blank_trim_string, <- Heq in Hb.
  assert (Hreq : join_request n
            (Some {| startNew := Some (isNewGameMode s);
                     isAutoAttempt := None |}) s
          = Some (n, isNewGameMode s)).
  { unfold join_request. rewrite Hb. simpl. rewrite orb_diag.
    rewrite Heq at 1. rewrite trim_string_idempotent, <- Heq. reflexivity. }
  split; [exact Hreq|].
  intros Hfg. unfold onJoin. apply handleJoinGame_depends_on_request.
  intros n' b Hr. rewrite Hreq in Hr. injection Hr as <- <-. exact Hfg.
Qed.

(** X5.  A join that succeeds: the returned user and question are held,
    the returned name is stored for the next visit, the dialog is closed,
    the new-game flag and the error are reset, nothing is sent to the
    snackbar, and the view is Victory exactly when the returned stage
    exceeds MAX_STAGES or no question came back, Playing otherwise. *)
Theorem join_success
  (name : string) (options : option JoinOptions) (s : State)
  (data : JoinResponse.t) :
  blank name = false ->
  fetch_join (trim_string name)
    (option_flag options startNew || isNewGameMode s) = HttpOk data ->
  let s' := fst (handleJoinGame fetch_join name options s) in
  snd (handleJoinGame fetch_join name options s) = true
  /\ currentUser s' = Some (JoinResponse.user data)
  /\ currentQuestion s' = JoinResponse.question data
  /\ localStorage_userName s' = Some (User.name (JoinResponse.user data))
  /\ persistedUserName s' = Some (User.name (JoinResponse.user data))
  /\ isJoinDialogOpen s' = false
  /\ isNewGameMode s' = false
  /\ error s' = None
  /\ snackbar s' = snackbar s
  /\ currentView s' = view_after_join data
  /\ (view_after_join data = GameView.victory
      <-> (User.current_stage (JoinResponse.user data) > MAX_STAGES)%Z
          \/ JoinResponse.question data = None)
  /\ (view_after_join data = GameView.playing
      <-> (User.current_stage (JoinResponse.user data) <= MAX_STAGES)%Z
          /\ JoinResponse.question data <> None).
Proof.
  intros Hblank Hfetch s'. subst s'. unfold handleJoinGame.
  rewrite Hblank, Hfetch. unfold view_after_join, join_finally, snackbar.
  destruct (Z.gtb_spec (User.current_stage (JoinResponse.user data))
              MAX_STAGES) as [Hstage|Hstage];
    destruct (JoinResponse.question data) eqn:Hq;
    destruct (negb (option_flag options isAutoAttempt));
    cbn; repeat split; try reflexivity; try discriminate; try lia;
    intros; intuition (try discriminate; try lia).
Qed.

(** X6.  A join asked by the user that fails: the call reports failure, the
    message is kept in [error] and shown in the snackbar after "Failed to
    join: ", the pending flag is cleared, and user, question, view, dialog,
    the stored name and the new-game flag are as before. *)
Theorem explicit_join_failure
  (name : string) (options : option JoinOptions) (s : State) :
  option_flag options isAutoAttempt = false ->
  blank name = false ->
  failed (fetch_join (trim_string name)
            (option_flag options startNew || isNewGameMode s)) = true ->
  let s' := fst (handleJoinGame fetch_join name options s) in
  snd (handleJoinGame fetch_join name options s) = false
  /\ (exists errorMessage,
         error s' = Some errorMessage
         /\ snackbar s' = Some ("Failed to join: " ++ errorMessage))
  /\ actionLoading s' = false
  /\ currentUser s' = currentUser s
  /\ currentQuestion s' = currentQuestion s
  /\ currentView s' = currentView s
  /\ isJoinDialogOpen s' = isJoinDialogOpen s
  /\ localStorage_userName s' = localStorage_userName s
  /\ persistedUserName s' = persistedUserName s
  /\ isNewGameMode s' = isNewGameMode s.
Proof.
  intros Hauto Hblank Hfail s'. subst s'. unfold handleJoinGame.
  rewrite Hblank, Hauto. cbn [negb isNewGameMode setError setActionLoading].
  destruct (fetch_join _ _); [| |discriminate];
    cbn; unfold snackbar; cbn; repeat split; eauto.
Qed.

End JoinFacts.

(* ------------------------------------------------------------------------- *)
(** ** Initialization *)

Section InitFacts.
Import Types Text App AppProps.
Open Scope string_scope.

Variable fetch_join : string -> bool -> Response JoinResponse.t.

(** X7.  Resuming: models loaded, a non-blank name is stored and the join
    made for it succeeds.  Then the returned user and question are held, the
    returned name is stored, no dialog is open, nothing is loading, the
    snackbar is as it was, and the main layout is on screen with the game
    or the victory screen according to the response. *)
Theorem auto_rejoin_resumes
  (modelsData : ModelInfo.t) (savedName : string) (s : State)
  (data : JoinResponse.t) :
  localStorage_userName s = Some savedName ->
  blank savedName = false ->
  fetch_join (trim_string savedName) (isNewGameMode s) = HttpOk data ->
  let s' := initializeApp (HttpOk modelsData) fetch_join s in
  currentUser s' = Some (JoinResponse.user data)
  /\ currentQuestion s' = JoinResponse.question data
  /\ models s' = Some modelsData
  /\ currentView s' = view_after_join data
  /\ localStorage_userName s' = Some (User.name (JoinResponse.user data))
  /\ isJoinDialogOpen s' = false
  /\ isLoading s' = false
  /\ snackbar s' = snackbar s
  /\ MainLayout.mounted s'
     = Some (MainLayout.renderCurrentView (view_after_join data)
               (JoinResponse.question data) (JoinResponse.user data)).
Proof.
  intros Hstored Hblank Hfetch s'. subst s'. unfold initializeApp.
  cbn [localStorage_userName setModels setCurrentView setCurrentUser setError
       setIsAttemptingAutoJoin setIsLoading].
  rewrite Hstored, (not_blank_truthy _ Hblank).
  unfold handleJoinGame. rewrite Hblank.
  cbn [option_flag startNew isAutoAttempt orb negb isNewGameMode
       setCurrentView setIsAttemptingAutoJoin setPersistedUserName setModels
       setCurrentUser setError setIsLoading].
  rewrite Hfetch. unfold view_after_join, MainLayout.mounted, snackbar.
  destruct (User.current_stage (JoinResponse.user data) >? MAX_STAGES)%Z;
    destruct (JoinResponse.question data); cbn; repeat split; reflexivity.
Qed.

(** X8.  The models cannot be loaded: the view is Error, the message is
    kept and shown in the snackbar after "App Error: ", nothing is loading,
    no user is held, the stored name is untouched and no join is made,
    whatever is stored.  When the failure is an HTTP error the message is
    not empty and the error screen shows it. *)
Theorem model_load_failure
  (fetch_models : Response ModelInfo.t) (s : State) :
  failed fetch_models = true ->
  let s' := initializeApp fetch_models fetch_join s in
  (exists errorMessage,
      error s' = Some errorMessage
      /\ snackbar s' = Some ("App Error: " ++ errorMessage)
      /\ (truthy_string errorMessage = true ->
          render s' = ErrorAlert errorMessage)
      /\ (forall status body, fetch_models = HttpError status body ->
                              truthy_string errorMessage = true))
  /\ currentView s' = GameView.error
  /\ isLoading s' = false
  /\ currentUser s' = None
  /\ localStorage_userName s' = localStorage_userName s
  /\ (forall g, initializeApp fetch_models g s = s').
Proof.
  intros Hfail s'. subst s'. unfold initializeApp.
  destruct fetch_models as [message|status body|data]; [| |discriminate].
  - split; [|cbn; auto].
    exists message. unfold snackbar, render. cbn. repeat split.
    + intros ->. reflexivity.
    + discriminate.
  - split; [|cbn; auto].
    eexists. unfold snackbar, render. cbn. repeat split.
    + intros ->. reflexivity.
    + intros _ _ _. destruct body as [[d|]|]; cbn; try reflexivity.
      destruct (truthy_string d) eqn:Hd; [exact Hd|reflexivity].
Qed.

(** X9.  Nothing to resume: when no name is stored, or the stored name is
    blank, no join is made, the stored value is left as it is, and the
    join dialog is open and on screen with the snackbar as it was. *)
Theorem nothing_to_resume
  (modelsData : ModelInfo.t) (s : State) :
  match localStorage_userName s with
  | Some savedName => blank savedName = true
  | None => True
  end ->
  let s' := initializeApp (HttpOk modelsData) fetch_join s in
  currentView s' = GameView.joining
  /\ isJoinDialogOpen s' = true
  /\ render s' = MainTree true
  /\ currentUser s' = None
  /\ localStorage_userName s' = localStorage_userName s
  /\ snackbar s' = snackbar s
  /\ (forall g, initializeApp (HttpOk modelsData) g s = s').
Proof.
  intros Hstored s'. subst s'. unfold initializeApp.
  cbn [localStorage_userName setModels setCurrentView setCurrentUser setError
       setIsAttemptingAutoJoin setIsLoading].
  destruct (localStorage_userName s) as [savedName|] eqn:Hs;
    [|unfold snackbar, render; cbn; rewrite ?Hs; repeat split; reflexivity].
  destruct (truthy_string savedName);
    [|unfold snackbar, render; cbn; rewrite ?Hs; repeat split; reflexivity].
  unfold handleJoinGame. rewrite Hstored.
  unfold snackbar, render; cbn; rewrite ?Hs; repeat split; reflexivity.
Qed.

(** X10.  Play again: user and question are dropped, the stored name is
    removed, the view is Joining with the dialog open, and the name shown
    in the dialog ([persistedUserName]) is kept.  The next join made from
    the dialog asks for a new session, and once it succeeds the new-game
    flag is reset. *)
Theorem play_again_starts_new (s : State) :
  let s1 := handlePlayAgain s in
  currentUser s1 = None
  /\ currentQuestion s1 = None
  /\ localStorage_userName s1 = None
  /\ currentView s1 = GameView.joining
  /\ isJoinDialogOpen s1 = true
  /\ persistedUserName s1 = persistedUserName s
  /\ (forall name,
         blank name = false ->
         join_request name
           (Some {| startNew := Some (isNewGameMode s1);
                    isAutoAttempt := None |}) s1
         = Some (trim_string name, true))
  /\ (forall name data,
         blank name = false ->
         fetch_join (trim_string name) true = HttpOk data ->
         isNewGameMode (fst (onJoin fetch_join name s1)) = false
         /\ currentUser (fst (onJoin fetch_join name s1))
            = Some (JoinResponse.user data)).
Proof.
  cbn. repeat split.
  - intros name Hb. unfold join_request. rewrite Hb. reflexivity.
  - unfold onJoin, handleJoinGame. rewrite H. cbn. rewrite H0.
    destruct (_ >? _)%Z; destruct (JoinResponse.question data); reflexivity.
  - unfold onJoin, handleJoinGame. rewrite H. cbn. rewrite H0.
    destruct (_ >? _)%Z; destruct (JoinResponse.question data); reflexivity.
Qed.

End InitFacts.

(* ------------------------------------------------------------------------- *)
(** ** Submitting an answer *)

Section AttemptFacts.
Import Types Text App.
Open Scope string_scope.
Open Scope Z_scope.

Variable fetch_attempt : string -> string -> Response AttemptResponse.t.

(** X11.  The stage only moves forward, one step at most: whatever the
    backend answers and however the call ends, a held user keeps id and
    name, and the stage after the call is the stage before or one more; no
    user is held after the call if none was before. *)
Theorem stage_never_decreases (answer : string) (s : State) :
  let s' := fst (handleSubmitAttempt fetch_attempt answer s) in
  match currentUser s with
  | Some u =>
      exists u', currentUser s' = Some u'
                 /\ User.id u' = User.id u
                 /\ User.name u' = User.name u
                 /\ User.current_stage u <= User.current_stage u'
                    <= User.current_stage u + 1
  | None => currentUser s' = None
  end.
Proof.
  unfold handleSubmitAttempt.
  destruct (currentUser s) as [u|] eqn:Hu; [|cbn; exact Hu].
  destruct (currentQuestion s) as [q|];
    [|exists u; cbn; rewrite Hu; repeat split; lia].
  destruct (fetch_attempt (User.id u) answer) as [m|st b|data];
    try (exists u; cbn; rewrite Hu; repeat split; lia).
  unfold apply_attempt.
  destruct (AttemptResponse.correct data).
  - destruct (AttemptResponse.victory data); cbn; rewrite Hu; cbn;
      eexists; (split; [reflexivity|]); cbn; repeat split; lia.
  - exists u. destruct (AttemptResponse.question data); cbn; rewrite Hu;
      repeat split; lia.
Qed.

(** X12.  A submission that fails in transport: the promise rejects with
    the message, which is kept in [error] and shown in the snackbar after
    "Error submitting answer: "; the pending flag is cleared and user,
    puzzle, view and the stored name are as before. *)
Theorem attempt_failure_keeps_state
  (answer : string) (s : State) (u : User.t) (q : Question.t) :
  currentUser s = Some u ->
  currentQuestion s = Some q ->
  failed (fetch_attempt (User.id u) answer) = true ->
  let s' := fst (handleSubmitAttempt fetch_attempt answer s) in
  (exists errorMessage,
      snd (handleSubmitAttempt fetch_attempt answer s) = Rejects errorMessage
      /\ error s' = Some errorMessage
      /\ snackbar s' = Some ("Error submitting answer: " ++ errorMessage)%string)
  /\ actionLoading s' = false
  /\ currentUser s' = Some u
  /\ currentQuestion s' = Some q
  /\ currentView s' = currentView s
  /\ localStorage_userName s' = localStorage_userName s.
Proof.
  intros Hu Hq Hfail s'. subst s'. unfold handleSubmitAttempt.
  rewrite Hu, Hq.
  destruct (fetch_attempt (User.id u) answer); [| |discriminate];
    unfold snackbar; cbn; repeat split; eauto.
Qed.

(** X13.  Without a held user or a held puzzle nothing is sent: the promise
    rejects with a fixed message whatever the backend would answer, the
    message is shown in the snackbar, and user, puzzle and view are as
    before. *)
Theorem attempt_needs_user_and_puzzle (answer : string) (s : State) :
  currentUser s = None \/ currentQuestion s = None ->
  let s' := fst (handleSubmitAttempt fetch_attempt answer s) in
  snd (handleSubmitAttempt fetch_attempt answer s)
  = Rejects "User or question not available for submission."
  /\ snackbar s'
     = Some "Error: User or question not available for submission."%string
  /\ currentUser s' = currentUser s
  /\ currentQuestion s' = currentQuestion s
  /\ currentView s' = currentView s
  /\ (forall g, handleSubmitAttempt g answer s
                = handleSubmitAttempt fetch_attempt answer s).
Proof.
  intros H s'. subst s'. unfold handleSubmitAttempt.
  destruct (currentUser s) as [u|] eqn:Hu,
           (currentQuestion s) as [q|] eqn:Hq;
    try (destruct H; discriminate);
    unfold snackbar; cbn; rewrite ?Hu, ?Hq; repeat split; reflexivity.
Qed.

(** X14.  The answer dialog over App's handler.  A blank answer is not
    sent: the field error is set and App's state is untouched.  Otherwise
    the answer goes out as typed, the dialog stops submitting and holds a
    result: the backend's response when there is one, and when the call
    fails a result marked incorrect that carries the failure message, which
    the dialog shows in its red alert as if the answer had been wrong. *)
Theorem answer_dialog_submit
  (st : AnswerSubmissionDialog.State) (s : State) :
  let st' := fst (AnswerSubmissionDialog.submit fetch_attempt st s) in
  let s' := snd (AnswerSubmissionDialog.submit fetch_attempt st s) in
  (blank (AnswerSubmissionDialog.answer st) = true ->
   s' = s
   /\ AnswerSubmissionDialog.submissionResult st' = None
   /\ AnswerSubmissionDialog.fieldError st'
      = Some "Please enter your answer."%string)
  /\ (blank (AnswerSubmissionDialog.answer st) = false ->
      s' = fst (handleSubmitAttempt fetch_attempt
                  (AnswerSubmissionDialog.answer st) s)
      /\ AnswerSubmissionDialog.isSubmitting st' = false
      /\ AnswerSubmissionDialog.fieldError st' = None
      /\ match snd (handleSubmitAttempt fetch_attempt
                      (AnswerSubmissionDialog.answer st) s) with
         | Resolves data =>
             AnswerSubmissionDialog.submissionResult st' = Some data
         | Rejects errorMessage =>
             AnswerSubmissionDialog.submissionResult st'
             = Some (AnswerSubmissionDialog.rejected_result errorMessage)
             /\ AnswerSubmissionDialog.alert st'
                = AnswerSubmissionDialog.ErrorAlert
                    (or_string (Some errorMessage) "Incorrect Answer")
         end).
Proof.
  unfold AnswerSubmissionDialog.submit, AnswerSubmissionDialog.handleSubmit.
  split; intros Hb; rewrite Hb; cbn; [auto|].
  repeat split.
  destruct (snd (handleSubmitAttempt fetch_attempt
                   (AnswerSubmissionDialog.answer st) s)); cbn; auto.
Qed.

(** X15.  What the main layout shows after an answered submission made from
    the game screen: the victory screen after a correct victory; after a
    correct answer that is no victory the game on the returned puzzle, or
    the "loading next challenge" placeholder when none was returned; after
    an incorrect answer the game on the returned puzzle, or on the same
    puzzle when none was returned. *)
Theorem screen_after_attempt
  (answer : string) (s : State) (u : User.t) (q : Question.t)
  (m : ModelInfo.t) (data : AttemptResponse.t) :
  currentUser s = Some u ->
  currentQuestion s = Some q ->
  models s = Some m ->
  currentView s = GameView.playing ->
  isJoinDialogOpen s = false ->
  isLoading s = false ->
  fetch_attempt (User.id u) answer = HttpOk data ->
  MainLayout.mounted (fst (handleSubmitAttempt fetch_attempt answer s))
  = Some (if AttemptResponse.correct data then
            if AttemptResponse.victory data
            then MainLayout.Victory (User.name u)
            else match AttemptResponse.question data with
                 | Some q' => MainLayout.Game q'
                 | None => MainLayout.LoadingNextChallenge
                 end
          else match AttemptResponse.question data with
               | Some q' => MainLayout.Game q'
               | None => MainLayout.Game q
               end).
Proof.
  intros Hu Hq Hm Hv Hd Hl Hfetch. unfold handleSubmitAttempt.
  rewrite Hu, Hq, Hfetch. unfold apply_attempt, MainLayout.mounted, render.
  destruct (AttemptResponse.correct data);
    [destruct (AttemptResponse.victory data)|];
    destruct (AttemptResponse.question data);
    cbn; rewrite ?Hu, ?Hq, ?Hm, ?Hv, ?Hd, ?Hl; cbn; rewrite ?Hq; reflexivity.
Qed.

End AttemptFacts.

(* ------------------------------------------------------------------------- *)
(** ** The assembler on arbitrary streams *)

Section StringFacts.
Open Scope string_scope.

Lemma append_assoc (a b c : string) : (a ++ b) ++ c = a ++ (b ++ c).
Proof. induction a as [|ch a IH]; simpl; [reflexivity|now rewrite IH]. Qed.

Lemma append_empty_r (a : string) : a ++ "" = a.
Proof. induction a as [|ch a IH]; simpl; [reflexivity|now rewrite IH]. Qed.

End StringFacts.

Section ScheduleFacts.
Import Types Text GameScreen Transcript.
Open Scope string_scope.

Lemma or_string_fragment (d : string) : or_string (Some d) "" = d.
Proof.
  unfold or_string, truthy_string. destruct (String.eqb_spec d ""); simpl;
    congruence.
Qed.

Lemma last_map_snoc (A : Type) (l : list A) (a : A) :
  last (map Some (l ++ [a])%list) None = Some a.
Proof. rewrite map_app. simpl. apply last_last. Qed.

Lemma run_pending_snoc (env : Env) (queue : list Updater) (f : Updater)
  (prev : list ChatMessage.t) :
  run_pending env (queue ++ [f])%list prev = f env (run_pending env queue prev).
Proof. unfold run_pending. now rewrite fold_left_app. Qed.

Lemma for_await_app (aid : string) (es1 es2 : list Event) (st : Turn) :
  for_await aid (es1 ++ es2)%list st
  = match for_await aid es1 st with
    | (st', true) => (st', true)
    | (st', false) => for_await aid es2 st'
    end.
Proof.
  revert st. induction es1 as [|[now c|now] es1 IH]; intros st; simpl.
  - reflexivity.
  - destruct (on_chunk aid now c st) as [st' [|]]; [reflexivity|apply IH].
  - apply IH.
Qed.

(** *** Updaters on entries they do not name *)

Lemma map_fresh (i : string) (g : ChatMessage.t -> ChatMessage.t)
  (l : list ChatMessage.t) :
  fresh i l ->
  map (fun m => if same_id (ChatMessage.id m) (Some i) then g m else m) l = l.
Proof.
  unfold fresh. induction 1 as [|m l Hm _ IH]; simpl; [reflexivity|].
  now rewrite Hm, IH.
Qed.

Lemma fresh_app (i : string) (a b : list ChatMessage.t) :
  fresh i a -> fresh i b -> fresh i (a ++ b)%list.
Proof. unfold fresh. intros; apply Forall_app; now split. Qed.

Lemma fresh_with_id (i : string) (l : list ChatMessage.t) :
  fresh i l -> fresh i (with_id l).
Proof.
  unfold fresh, with_id. intros H. apply Forall_forall. intros m Hin.
  apply filter_In in Hin. destruct Hin as [Hin _].
  revert m Hin. now apply Forall_forall.
Qed.

Lemma with_id_app (a b : list ChatMessage.t) :
  with_id (a ++ b)%list = (with_id a ++ with_id b)%list.
Proof. unfold with_id. apply filter_app. Qed.

(** With no thinking entry open the seal touches only entries without id,
    and those the text branch then removes. *)
Lemma with_id_seal (text : string) (now : Z) (l : list ChatMessage.t) :
  filter (fun m => negb (same_id (ChatMessage.id m) None))
    (seal {| locals := {| currentAssistantMessage := text;
                          thinkingMessageId := None |};
             clock := now |} l)
  = with_id l.
Proof.
  unfold with_id, seal. cbn [locals thinkingMessageId].
  induction l as [|m l IH]; simpl; [reflexivity|].
  destruct (ChatMessage.id m) eqn:Hid; simpl; rewrite ?Hid; simpl;
    now rewrite IH.
Qed.

Lemma seal_last_id (env : Env) (l : list ChatMessage.t) (m : ChatMessage.t) :
  exists m',
    seal env (l ++ [m])%list = (seal env l ++ [m'])%list
    /\ ChatMessage.id m' = ChatMessage.id m
    /\ ChatMessage.role m' = ChatMessage.role m
    /\ ChatMessage.content m' = ChatMessage.content m.
Proof.
  unfold seal. rewrite map_app. simpl.
  destruct (same_id _ _); eexists; split; try reflexivity; simpl; auto.
Qed.

(** *** The text branch's updater *)

Lemma put_extends (t_assistant : Z) (env : Env) (base : list ChatMessage.t)
  (text : string) :
  fresh ("assistant-" ++ Number_toString t_assistant) base ->
  put_assistant_text ("assistant-" ++ Number_toString t_assistant) env
    (base ++ [assistant_entry t_assistant text])%list
  = (base ++ [assistant_entry t_assistant
                (currentAssistantMessage (locals env))])%list.
Proof.
  intros Hfresh. unfold put_assistant_text.
  rewrite last_map_snoc. unfold assistant_entry at 1.
  cbn [ChatMessage.id ChatMessage.role same_id Role.eqb].
  rewrite String.eqb_refl. cbn [andb].
  rewrite map_app, (map_fresh _ Hfresh). cbn [map].
  unfold assistant_entry.
  cbn [ChatMessage.id ChatMessage.role ChatMessage.isThinking same_id].
  now rewrite String.eqb_refl.
Qed.

Lemma put_starts (aid : string) (env : Env) (l : list ChatMessage.t)
  (m : ChatMessage.t) :
  same_id (ChatMessage.id m) (Some aid)
  && Role.eqb (ChatMessage.role m) Role.assistant = false ->
  put_assistant_text aid env (l ++ [m])%list
  = (filter (fun x => negb (same_id (ChatMessage.id x)
                              (thinkingMessageId (locals env))))
       (l ++ [m])
       ++ [ {| ChatMessage.id := Some aid;
               ChatMessage.role := Role.assistant;
               ChatMessage.content := currentAssistantMessage (locals env);
               ChatMessage.isThinking := None |} ])%list.
Proof.
  intros Hm. unfold put_assistant_text. rewrite last_map_snoc, Hm.
  reflexivity.
Qed.

(** *** Before the first record *)

Lemma render_settled (base : list ChatMessage.t) (now : Z) (st : Turn) :
  settled_on base st -> settled_on base (render now st).
Proof.
  intros H l now'. unfold would_show, render. cbn [pending chatMessages].
  cbn [run_pending fold_left]. apply (H (vars st) now).
Qed.

Lemma idle_until_first (aid : string) (es : list Event) (t : Z) (c : Chunk)
  (run : list (Z * Chunk)) (base : list ChatMessage.t) :
  arrivals es = (t, c) :: run ->
  forall st, settled_on base st ->
  exists st1 rest,
    arrivals rest = run
    /\ settled_on base st1
    /\ vars st1 = vars st
    /\ for_await aid es st
       = match on_chunk aid t c st1 with
         | (st', true) => (st', true)
         | (st', false) => for_await aid rest st'
         end.
Proof.
  induction es as [|[now c'|now] es IH]; simpl; intros Hrun st Hst.
  - discriminate.
  - injection Hrun as -> -> Hrest. exists st, es. auto.
  - destruct (IH Hrun (render now st) (render_settled now Hst))
      as (st1 & rest & Hrest & Hst1 & Hvars & Hloop).
    exists st1, rest. repeat split; assumption.
Qed.

(** *** A run of thinking fragments *)

Lemma thinking_first (aid : string) (t1 : Z) (d1 : string)
  (base : list ChatMessage.t) (st : Turn) :
  settled_on base st ->
  vars st = {| currentAssistantMessage := "";
               thinkingMessageId := None |} ->
  exists st',
    on_chunk aid t1 (thinking_record d1) st = (st', false)
    /\ thinking_open t1 base d1 st'.
Proof.
  intros Hst Hvars. eexists. split.
  - unfold on_chunk, thinking_record. cbn [type_is type String.eqb].
    reflexivity.
  - unfold on_thinking. rewrite Hvars. cbn [thinkingMessageId id_truthy negb].
    cbn [delta]. rewrite or_string_fragment. split.
    + cbn. rewrite Hvars. reflexivity.
    + intros now. unfold would_show, setChatMessages, set_thinkingMessageId.
      cbn [pending chatMessages vars]. rewrite run_pending_snoc.
      unfold append_thinking. cbn [locals thinkingMessageId].
      fold (would_show
              {| currentAssistantMessage := currentAssistantMessage (vars st);
                 thinkingMessageId :=
                   Some ("thinking-" ++ Number_toString t1) |} now st).
      rewrite Hst. reflexivity.
Qed.

Lemma thinking_next (aid : string) (t1 t : Z) (d acc : string)
  (base : list ChatMessage.t) (st : Turn) :
  fresh ("thinking-" ++ Number_toString t1) base ->
  thinking_open t1 base acc st ->
  exists st',
    on_chunk aid t (thinking_record d) st = (st', false)
    /\ thinking_open t1 base (acc ++ d) st'.
Proof.
  intros Hfresh [Hvars Hshow]. eexists. split.
  - unfold on_chunk, thinking_record. cbn [type_is type String.eqb].
    reflexivity.
  - unfold on_thinking. rewrite Hvars.
    cbn [thinkingMessageId id_truthy negb delta].
    rewrite or_string_fragment.
    replace (negb (truthy_string ("thinking-" ++ Number_toString t1)))
      with false by reflexivity.
    split; [exact Hvars|].
    intros now. unfold would_show, setChatMessages.
    cbn [pending chatMessages vars]. rewrite run_pending_snoc.
    fold (would_show (vars st) now st). rewrite Hshow, Hvars.
    unfold extend_thinking. cbn [locals thinkingMessageId].
    rewrite map_app, (map_fresh _ Hfresh). cbn [map].
    unfold thinking_entry. cbn [ChatMessage.id ChatMessage.role
      ChatMessage.content same_id].
    now rewrite String.eqb_refl.
Qed.

Lemma render_thinking_open (t1 now : Z) (acc : string)
  (base : list ChatMessage.t) (st : Turn) :
  thinking_open t1 base acc st ->
  thinking_open t1 base acc (render now st)
  /\ pending (render now st) = []
  /\ chatMessages (render now st)
     = (base ++ [thinking_entry t1 acc true])%list.
Proof.
  intros [Hvars Hshow]. unfold thinking_open, would_show, render.
  cbn [pending chatMessages vars run_pending fold_left].
  repeat split; try assumption; intros; apply (Hshow now).
Qed.

Lemma thinking_run_loop (aid : string) (t1 : Z) (base : list ChatMessage.t) :
  fresh ("thinking-" ++ Number_toString t1) base ->
  forall (es : list Event) (dts : list (Z * string)) (acc : string)
    (st : Turn),
    arrivals es = thinking_run dts ->
    thinking_open t1 base acc st ->
    exists st',
      for_await aid es st = (st', false)
      /\ thinking_open t1 base (acc ++ joined (map snd dts)) st'.
Proof.
  intros Hfresh.
  induction es as [|[now c|now] es IH]; simpl; intros dts acc st Hrun Hst.
  - destruct dts; [|discriminate]. simpl. rewrite append_empty_r. eauto.
  - destruct dts as [|[t d] dts]; [discriminate|]. simpl in Hrun.
    injection Hrun as -> -> Hrest.
    destruct (thinking_next aid t d Hfresh Hst) as (st1 & -> & Hst1).
    destruct (IH dts (acc ++ d) st1 Hrest Hst1) as (st' & -> & Hst').
    exists st'. split; [reflexivity|]. simpl. now rewrite <- append_assoc.
  - apply IH; [assumption|]. now apply render_thinking_open.
Qed.

Lemma consume_no_break (aid : string) (es : list Event) (ending : StreamEnd)
  (st st' : Turn) :
  for_await aid es st = (st', false) ->
  consume aid {| events := es; ending := ending |} st = finish ending st'.
Proof. intros H. unfold consume. cbn [events GameScreen.ending]. now rewrite H. Qed.

Lemma thinking_finish (t1 t_settled : Z) (acc : string) (ending : StreamEnd)
  (base : list ChatMessage.t) (st : Turn) :
  fresh ("thinking-" ++ Number_toString t1) base ->
  thinking_open t1 base acc st ->
  chatMessages (render t_settled (finish ending st))
  = ((base ++ [thinking_entry t1 acc false])
       ++ thrown_entry t_settled ending)%list
  /\ isModelStreaming (render t_settled (finish ending st)) = false.
Proof.
  intros Hfresh [Hvars Hshow]. specialize (Hshow t_settled).
  unfold would_show in Hshow.
  assert (Hseal :
            forall now,
              seal {| locals := vars st; clock := now |}
                (base ++ [thinking_entry t1 acc true])%list
              = (base ++ [thinking_entry t1 acc false])%list).
  { intros now. unfold seal. rewrite Hvars. cbn [locals thinkingMessageId].
    rewrite map_app, (map_fresh _ Hfresh). cbn [map].
    unfold thinking_entry. cbn [ChatMessage.id same_id].
    now rewrite String.eqb_refl. }
  destruct ending as [|message];
    unfold finish, on_finally, on_catch, setIsModelStreaming, setChatMessages;
    cbn [vars pending chatMessages isModelStreaming];
    rewrite Hvars; cbn [thinkingMessageId id_truthy];
    replace (truthy_string ("thinking-" ++ Number_toString t1))
      with true by reflexivity;
    unfold render; cbn [vars pending chatMessages isModelStreaming];
    (split; [|reflexivity]); rewrite <- Hvars.
  - rewrite run_pending_snoc, Hshow, Hseal. cbn [thrown_entry].
    now rewrite app_nil_r.
  - rewrite !run_pending_snoc, Hshow. unfold append_chat_error.
    cbn [clock]. unfold seal. rewrite Hvars.
    cbn [locals thinkingMessageId].
    rewrite map_app, map_app, (map_fresh _ Hfresh). cbn [map].
    unfold thinking_entry. cbn [ChatMessage.id same_id thrown_entry].
    rewrite String.eqb_refl. reflexivity.
Qed.

(** *** A run of text fragments *)

Lemma text_first (t_assistant tx : Z) (x : string) (l : list ChatMessage.t)
  (m : ChatMessage.t) (st : Turn) :
  settled_on (l ++ [m])%list st ->
  vars st = {| currentAssistantMessage := "";
               thinkingMessageId := None |} ->
  same_id (ChatMessage.id m)
    (Some ("assistant-" ++ Number_toString t_assistant))
  && Role.eqb (ChatMessage.role m) Role.assistant = false ->
  exists st',
    on_chunk ("assistant-" ++ Number_toString t_assistant) tx
      (text_record x) st = (st', false)
    /\ answering t_assistant (with_id (l ++ [m])) st'
    /\ currentAssistantMessage (vars st') = x.
Proof.
  intros Hst Hvars Hm. eexists. split; [|split].
  - unfold on_chunk, text_record. cbn [type_is type String.eqb].
    reflexivity.
  - unfold on_text, seal_open_thinking, set_currentAssistantMessage.
    cbn [vars]. rewrite Hvars. cbn [thinkingMessageId id_truthy].
    split; [reflexivity|]. right. intros now text.
    unfold would_show, setChatMessages. cbn [pending chatMessages].
    rewrite run_pending_snoc.
    fold (would_show {| currentAssistantMessage := text;
                        thinkingMessageId := None |} now st).
    rewrite Hst, (@put_starts _ _ _ _ Hm). reflexivity.
  - unfold on_text, seal_open_thinking, set_currentAssistantMessage.
    cbn [vars]. rewrite Hvars. cbn [thinkingMessageId id_truthy delta].
    rewrite or_string_fragment. reflexivity.
Qed.

Lemma text_first_after_thinking (t_assistant tx t1 : Z) (x : string)
  (l : list ChatMessage.t) (m : ChatMessage.t) (st : Turn) :
  settled_on (l ++ [m])%list st ->
  vars st = {| currentAssistantMessage := "";
               thinkingMessageId :=
                 Some ("thinking-" ++ Number_toString t1) |} ->
  same_id (ChatMessage.id m)
    (Some ("assistant-" ++ Number_toString t_assistant))
  && Role.eqb (ChatMessage.role m) Role.assistant = false ->
  exists st',
    on_chunk ("assistant-" ++ Number_toString t_assistant) tx
      (text_record x) st = (st', false)
    /\ answering t_assistant (with_id (l ++ [m])) st'
    /\ currentAssistantMessage (vars st') = x.
Proof.
  intros Hst Hvars Hm. eexists. split; [|split].
  - unfold on_chunk, text_record. cbn [type_is type String.eqb].
    reflexivity.
  - unfold on_text, seal_open_thinking, set_currentAssistantMessage.
    cbn [vars]. rewrite Hvars. cbn [thinkingMessageId id_truthy].
    replace (truthy_string ("thinking-" ++ Number_toString t1))
      with true by reflexivity.
    split; [reflexivity|]. right. intros now text.
    unfold would_show, setChatMessages, set_thinkingMessageId.
    cbn [pending chatMessages]. rewrite !run_pending_snoc.
    fold (would_show {| currentAssistantMessage := text;
                        thinkingMessageId := None |} now st).
    rewrite Hst.
    destruct (seal_last_id
                {| locals := {| currentAssistantMessage := text;
                                thinkingMessageId := None |};
                   clock := now |} l m)
      as (m' & Hseal & Hid & Hrole & _).
    rewrite Hseal, put_starts by (now rewrite Hid, Hrole).
    rewrite <- Hseal. cbn [locals thinkingMessageId].
    rewrite with_id_seal. reflexivity.
  - unfold on_text, seal_open_thinking, set_currentAssistantMessage.
    cbn [vars]. rewrite Hvars. cbn [thinkingMessageId id_truthy delta].
    rewrite or_string_fragment.
    replace (truthy_string ("thinking-" ++ Number_toString t1))
      with true by reflexivity.
    reflexivity.
Qed.

Lemma text_next (t_assistant t : Z) (d : string) (base : list ChatMessage.t)
  (st : Turn) :
  fresh ("assistant-" ++ Number_toString t_assistant) base ->
  answering t_assistant base st ->
  exists st',
    on_chunk ("assistant-" ++ Number_toString t_assistant) t
      (text_record d) st = (st', false)
    /\ answering t_assistant base st'
    /\ currentAssistantMessage (vars st')
       = currentAssistantMessage (vars st) ++ d.
Proof.
  intros Hfresh [Hnone Hshow]. eexists. split; [|split].
  - unfold on_chunk, text_record. cbn [type_is type String.eqb].
    reflexivity.
  - unfold on_text, seal_open_thinking, set_currentAssistantMessage.
    cbn [vars thinkingMessageId]. rewrite Hnone. cbn [id_truthy].
    split; [reflexivity|]. right. intros now text.
    unfold would_show, setChatMessages. cbn [pending chatMessages].
    rewrite run_pending_snoc.
    destruct Hshow as [[Hpending Hshown]|Hshow].
    + rewrite Hpending, Hshown. cbn [run_pending fold_left].
      now rewrite put_extends.
    + fold (would_show {| currentAssistantMessage := text;
                          thinkingMessageId := None |} now st).
      rewrite Hshow. now rewrite put_extends.
  - unfold on_text, seal_open_thinking, set_currentAssistantMessage.
    cbn [vars thinkingMessageId]. rewrite Hnone. cbn [id_truthy delta].
    rewrite or_string_fragment. reflexivity.
Qed.

Lemma render_answering (t_assistant now : Z) (base : list ChatMessage.t)
  (st : Turn) :
  answering t_assistant base st ->
  answering t_assistant base (render now st)
  /\ vars (render now st) = vars st.
Proof.
  intros [Hnone Hshow]. split; [|reflexivity]. split; [exact Hnone|].
  left. split; [reflexivity|]. unfold render. cbn [chatMessages vars].
  destruct Hshow as [[Hpending Hshown]|Hshow].
  - now rewrite Hpending, Hshown.
  - specialize (Hshow now (currentAssistantMessage (vars st))).
    unfold would_show in Hshow. rewrite <- Hshow.
    destruct (vars st) as [text open]. cbn in Hnone. now subst open.
Qed.

Lemma text_run_loop (t_assistant : Z) (base : list ChatMessage.t) :
  fresh ("assistant-" ++ Number_toString t_assistant) base ->
  forall (es : list Event) (xs : list (Z * string)) (st : Turn),
    arrivals es = text_run xs ->
    answering t_assistant base st ->
    exists st',
      for_await ("assistant-" ++ Number_toString t_assistant) es st
      = (st', false)
      /\ answering t_assistant base st'
      /\ currentAssistantMessage (vars st')
         = currentAssistantMessage (vars st) ++ joined (map snd xs).
Proof.
  intros Hfresh.
  induction es as [|[now c|now] es IH]; cbn [for_await arrivals];
    intros xs st Hrun Hst.
  - destruct xs; [|discriminate]. cbn [map joined fold_right].
    rewrite append_empty_r. eauto.
  - destruct xs as [|[t d] xs]; [discriminate|]. simpl in Hrun.
    injection Hrun as -> -> Hrest.
    destruct (text_next t d Hfresh Hst) as (st1 & -> & Hst1 & Htext1).
    destruct (IH xs st1 Hrest Hst1) as (st' & -> & Hst' & Htext).
    exists st'. split; [reflexivity|]. split; [assumption|].
    cbn [map snd joined fold_right]. now rewrite Htext, Htext1, append_assoc.
  - destruct (render_answering now Hst) as [Hst1 Hvars].
    destruct (IH xs _ Hrun Hst1) as (st' & -> & Hst' & Htext).
    exists st'. split; [reflexivity|]. split; [assumption|].
    now rewrite Htext, Hvars.
Qed.

Lemma text_finish (t_assistant t_settled : Z) (ending : StreamEnd)
  (base : list ChatMessage.t) (st : Turn) :
  answering t_assistant base st ->
  chatMessages (render t_settled (finish ending st))
  = ((base ++ [assistant_entry t_assistant
                 (currentAssistantMessage (vars st))])
       ++ thrown_entry t_settled ending)%list
  /\ isModelStreaming (render t_settled (finish ending st)) = false.
Proof.
  intros [Hnone Hshow].
  assert (Hnow :
            run_pending {| locals := vars st; clock := t_settled |}
              (pending st) (chatMessages st)
            = (base ++ [assistant_entry t_assistant
                          (currentAssistantMessage (vars st))])%list).
  { destruct Hshow as [[Hpending Hshown]|Hshow].
    - now rewrite Hpending, Hshown.
    - specialize (Hshow t_settled (currentAssistantMessage (vars st))).
      unfold would_show in Hshow. rewrite <- Hshow.
      destruct (vars st) as [text open]. cbn in Hnone. now subst open. }
  destruct ending as [|message];
    unfold finish, on_finally, on_catch, setIsModelStreaming, setChatMessages;
    cbn [vars pending chatMessages isModelStreaming];
    rewrite Hnone; cbn [id_truthy];
    unfold render; cbn [vars pending chatMessages isModelStreaming];
    (split; [|reflexivity]).
  - rewrite Hnow. cbn [thrown_entry]. now rewrite app_nil_r.
  - rewrite run_pending_snoc, Hnow. reflexivity.
Qed.

Lemma nothing_pending_settled (st : Turn) :
  pending st = [] -> settled_on (chatMessages st) st.
Proof. intros H l now. unfold would_show. now rewrite H. Qed.

(** *** Whole turns *)

(** X18.  A stream of thinking fragments only.  Whenever React renders
    between the records and however the stream ends, the turn leaves, after
    the entries that were there and the message just sent, one thinking
    entry holding the fragments joined in order; the seal of the [finally]
    block finds it, so it is no longer provisional; a throwing iteration
    adds its "Chat Error: " entry last.  The id the entry gets must not be
    in the transcript already. *)
Theorem thinking_run_coalesces
  (selectedModel : string) (chatMessages0 : list ChatMessage.t)
  (isModelStreaming0 : bool) (t_user t_assistant t_settled : Z)
  (userInput : string) (es : list Event) (ending : StreamEnd)
  (t1 : Z) (d1 : string) (dts : list (Z * string)) :
  blank userInput = false ->
  arrivals es = thinking_run ((t1, d1) :: dts) ->
  fresh ("thinking-" ++ Number_toString t1) chatMessages0 ->
  fst (handleSendMessageToModel
         (fun _ _ => {| events := es; ending := ending |})
         selectedModel chatMessages0 isModelStreaming0
         t_user t_assistant t_settled userInput)
  = (((chatMessages0 ++ [newUserMessage t_user userInput])
        ++ [thinking_entry t1 (joined (map snd ((t1, d1) :: dts))) false])
       ++ thrown_entry t_settled ending,
     false)%list.
Proof.
  intros Hblank Hrun Hfresh0. unfold handleSendMessageToModel.
  rewrite Hblank. cbn [fst snd].
  set (aid := "assistant-" ++ Number_toString t_assistant).
  set (st0 := {| chatMessages := chatMessages0 |}).
  assert (H0 : settled_on (chatMessages0 ++ [newUserMessage t_user userInput])
                 st0) by (intros l now; reflexivity).
  assert (Hfresh : fresh ("thinking-" ++ Number_toString t1)
                     (chatMessages0 ++ [newUserMessage t_user userInput])).
  { apply fresh_app; [assumption|]. repeat constructor. }
  destruct (@idle_until_first aid es t1 (thinking_record d1)
              (thinking_run dts) _ Hrun st0 H0)
    as (st1 & rest & Hrest & Hst1 & Hvars & Hloop).
  destruct (thinking_first aid t1 d1 Hst1 Hvars) as (st2 & Hchunk & Hst2).
  rewrite Hchunk in Hloop.
  destruct (thinking_run_loop aid Hfresh rest dts Hrest Hst2)
    as (st3 & Hloop3 & Hst3).
  rewrite Hloop3 in Hloop. rewrite (@consume_no_break _ _ ending _ _ Hloop).
  destruct (thinking_finish t_settled ending Hfresh Hst3) as [-> ->].
  reflexivity.
Qed.

(** X19.  A stream of text fragments only.  Whenever React renders between
    the records and however the stream ends, the turn leaves one assistant
    entry holding the fragments joined in order, after the message just
    sent and before the "Chat Error: " entry of a throwing iteration.  The
    entries that were there stay in front, except those stored without an
    id, which the text branch removes.  The id of the assistant entry must
    not be in the transcript already. *)
Theorem text_run_coalesces
  (selectedModel : string) (chatMessages0 : list ChatMessage.t)
  (isModelStreaming0 : bool) (t_user t_assistant t_settled : Z)
  (userInput : string) (es : list Event) (ending : StreamEnd)
  (tx : Z) (x : string) (xs : list (Z * string)) :
  blank userInput = false ->
  arrivals es = text_run ((tx, x) :: xs) ->
  fresh ("assistant-" ++ Number_toString t_assistant) chatMessages0 ->
  fst (handleSendMessageToModel
         (fun _ _ => {| events := es; ending := ending |})
         selectedModel chatMessages0 isModelStreaming0
         t_user t_assistant t_settled userInput)
  = (((with_id chatMessages0 ++ [newUserMessage t_user userInput])
        ++ [assistant_entry t_assistant (joined (map snd ((tx, x) :: xs)))])
       ++ thrown_entry t_settled ending,
     false)%list.
Proof.
  intros Hblank Hrun Hfresh0. unfold handleSendMessageToModel.
  rewrite Hblank. cbn [fst snd].
  set (st0 := {| chatMessages := chatMessages0 |}).
  assert (H0 : settled_on (chatMessages0 ++ [newUserMessage t_user userInput])
                 st0) by (intros l now; reflexivity).
  destruct (@idle_until_first
              ("assistant-" ++ Number_toString t_assistant) es tx
              (text_record x) (text_run xs) _ Hrun st0 H0)
    as (st1 & rest & Hrest & Hst1 & Hvars & Hloop).
  destruct (@text_first t_assistant tx x _ _ _ Hst1 Hvars eq_refl)
    as (st2 & Hchunk & Hst2 & Htext2).
  rewrite Hchunk in Hloop.
  assert (Hbase : with_id (chatMessages0 ++ [newUserMessage t_user userInput])
                  = (with_id chatMessages0
                       ++ [newUserMessage t_user userInput])%list)
    by (now rewrite with_id_app).
  rewrite Hbase in Hst2.
  assert (Hfresh : fresh ("assistant-" ++ Number_toString t_assistant)
                     (with_id chatMessages0
                        ++ [newUserMessage t_user userInput])).
  { apply fresh_app; [now apply fresh_with_id|]. repeat constructor. }
  destruct (text_run_loop Hfresh rest xs Hrest Hst2)
    as (st3 & Hloop3 & Hst3 & Htext3).
  rewrite Hloop3 in Hloop. rewrite (@consume_no_break _ _ ending _ _ Hloop).
  destruct (text_finish t_settled ending Hst3) as [-> ->].
  now rewrite Htext3, Htext2.
Qed.

(** X16.  A thinking entry that has been rendered stays provisional.  When
    thinking fragments arrive, React renders, and text fragments follow,
    the first text record queues the seal and sets [thinkingMessageId] to
    null before the seal runs, so the seal does not find the entry: the
    turn leaves the message just sent, the thinking entry with its
    fragments joined and [isThinking] still true, then the assistant entry
    with the text fragments joined (and the "Chat Error: " entry of a
    throwing iteration).  Entries stored without an id are removed from
    what was there before. *)
Theorem rendered_thinking_stays_provisional
  (selectedModel : string) (chatMessages0 : list ChatMessage.t)
  (isModelStreaming0 : bool) (t_user t_assistant t_settled : Z)
  (userInput : string) (thinking_events text_events : list Event)
  (r : Z) (ending : StreamEnd)
  (t1 : Z) (d1 : string) (dts : list (Z * string))
  (tx : Z) (x : string) (xs : list (Z * string)) :
  blank userInput = false ->
  arrivals thinking_events = thinking_run ((t1, d1) :: dts) ->
  arrivals text_events = text_run ((tx, x) :: xs) ->
  fresh ("thinking-" ++ Number_toString t1) chatMessages0 ->
  fresh ("assistant-" ++ Number_toString t_assistant) chatMessages0 ->
  fst (handleSendMessageToModel
         (fun _ _ =>
            {| events := (thinking_events ++ Renders r :: text_events)%list;
               ending := ending |})
         selectedModel chatMessages0 isModelStreaming0
         t_user t_assistant t_settled userInput)
  = (((with_id chatMessages0
         ++ [ newUserMessage t_user userInput;
              thinking_entry t1 (joined (map snd ((t1, d1) :: dts))) true ])
        ++ [assistant_entry t_assistant (joined (map snd ((tx, x) :: xs)))])
       ++ thrown_entry t_settled ending,
     false)%list.
Proof.
  intros Hblank Hthinking Htexts Hfresh1 Hfresh2.
  unfold handleSendMessageToModel. rewrite Hblank. cbn [fst snd].
  set (st0 := {| chatMessages := chatMessages0 |}).
  set (aid := "assistant-" ++ Number_toString t_assistant).
  assert (H0 : settled_on (chatMessages0 ++ [newUserMessage t_user userInput])
                 st0) by (intros l now; reflexivity).
  assert (Hfresh : fresh ("thinking-" ++ Number_toString t1)
                     (chatMessages0 ++ [newUserMessage t_user userInput])).
  { apply fresh_app; [assumption|]. repeat constructor. }
  destruct (@idle_until_first aid thinking_events t1 (thinking_record d1)
              (thinking_run dts) _ Hthinking st0 H0)
    as (st1 & rest & Hrest & Hst1 & Hvars & Hloop).
  destruct (thinking_first aid t1 d1 Hst1 Hvars) as (st2 & Hchunk & Hst2).
  rewrite Hchunk in Hloop.
  destruct (thinking_run_loop aid Hfresh rest dts Hrest Hst2)
    as (st3 & Hloop3 & Hst3).
  rewrite Hloop3 in Hloop.
  destruct (render_thinking_open r Hst3) as ([Hvars3 _] & Hpending & Hshown).
  pose proof (nothing_pending_settled _ Hpending) as Hsettled.
  rewrite Hshown in Hsettled.
  destruct (@idle_until_first aid text_events tx (text_record x)
              (text_run xs) _ Htexts _ Hsettled)
    as (st4 & rest' & Hrest' & Hst4 & Hvars4 & Hloop4).
  rewrite Hvars3 in Hvars4.
  destruct (@text_first_after_thinking t_assistant tx t1 x _ _ _ Hst4 Hvars4
              eq_refl)
    as (st5 & Hchunk5 & Hst5 & Htext5).
  fold aid in Hchunk5. rewrite Hchunk5 in Hloop4.
  assert (Hbase :
            with_id ((chatMessages0 ++ [newUserMessage t_user userInput])
                       ++ [thinking_entry t1 (d1 ++ joined (map snd dts))
                             true])
            = (with_id chatMessages0
                 ++ [ newUserMessage t_user userInput;
                      thinking_entry t1 (d1 ++ joined (map snd dts))
                        true ])%list)
    by (now rewrite !with_id_app, <- app_assoc).
  rewrite Hbase in Hst5.
  assert (Hfresh' :
            fresh ("assistant-" ++ Number_toString t_assistant)
              (with_id chatMessages0
                 ++ [ newUserMessage t_user userInput;
                      thinking_entry t1 (d1 ++ joined (map snd dts)) true ])).
  { apply fresh_app; [now apply fresh_with_id|]. repeat constructor. }
  destruct (text_run_loop Hfresh' rest' xs Hrest' Hst5)
    as (st6 & Hloop6 & Hst6 & Htext6).
  fold aid in Hloop6. rewrite Hloop6 in Hloop4.
  assert (Hall : for_await aid (thinking_events ++ Renders r :: text_events)
                   st0 = (st6, false)).
  { rewrite for_await_app, Hloop. cbn [for_await]. exact Hloop4. }
  rewrite (@consume_no_break _ _ ending _ _ Hall).
  destruct (text_finish t_settled ending Hst6) as [-> ->].
  now rewrite Htext6, Htext5.
Qed.

(** X20.  Thinking that arrives after the answer has begun.  From an empty
    transcript, a text fragment, then a thinking fragment, then a text
    fragment arrive, with or without a render after the first and after the
    second.  In every case the turn leaves two assistant entries under the
    same id.  If React rendered after the thinking fragment, the first
    holds the first text fragment, the thinking entry follows, still
    provisional, and the second holds both text fragments joined.  If it
    rendered only after the first text fragment the thinking entry is
    absent.  If it rendered after neither, the thinking entry is absent and
    both assistant entries hold both fragments joined. *)
Theorem thinking_after_text_by_schedule
  (t_user t_assistant t1 t2 t3 r1 r2 t_settled : Z) (x a y : string)
  (rendered1 rendered2 : bool) :
  let user :=
    {| ChatMessage.id := Some ("user-" ++ Number_toString t_user);
       ChatMessage.role := Role.user;
       ChatMessage.content := "hi";
       ChatMessage.isThinking := None |} in
  let assistant text :=
    {| ChatMessage.id := Some ("assistant-" ++ Number_toString t_assistant);
       ChatMessage.role := Role.assistant;
       ChatMessage.content := text;
       ChatMessage.isThinking := None |} in
  let thinking :=
    {| ChatMessage.id := Some ("thinking-" ++ Number_toString t2);
       ChatMessage.role := Role.thinking;
       ChatMessage.content := a;
       ChatMessage.isThinking := Some true |} in
  transcript_after
    {| events :=
         (Arrives t1 (text_record x) :: maybe_renders rendered1 r1
            ++ Arrives t2 (thinking_record a) :: maybe_renders rendered2 r2
            ++ [Arrives t3 (text_record y)])%list;
       ending := EndOfStream |}
    t_user t_assistant t_settled "hi"
  = if rendered2 then [ user; assistant x; thinking; assistant (x ++ y) ]
    else if rendered1 then [ user; assistant x; assistant (x ++ y) ]
    else [ user; assistant (x ++ y); assistant (x ++ y) ].
Proof.
  destruct rendered1, rendered2;
    unfold transcript_after, handleSendMessageToModel, consume,
      newUserMessage, thinking_record, text_record;
    repeat progress
      (cbn -[Number_toString or_string];
       unfold on_thinking, on_text, on_error, on_finally, on_catch,
         seal_open_thinking, put_assistant_text, seal, append_thinking,
         extend_thinking, render, run_pending, same_id, id_truthy;
       rewrite ?String.eqb_refl, ?or_string_fragment);
    reflexivity.
Qed.

(** *** A turn only appends *)

Lemma map_unnamed (o : option string) (g : ChatMessage.t -> ChatMessage.t)
  (l : list ChatMessage.t) :
  unnamed_by o l ->
  map (fun m => if same_id (ChatMessage.id m) o then g m else m) l = l.
Proof.
  unfold unnamed_by. induction 1 as [|m l Hm _ IH]; simpl; [reflexivity|].
  now rewrite Hm, IH.
Qed.

Lemma filter_unnamed (o : option string) (l : list ChatMessage.t) :
  unnamed_by o l ->
  filter (fun m => negb (same_id (ChatMessage.id m) o)) l = l.
Proof.
  unfold unnamed_by. induction 1 as [|m l Hm _ IH]; simpl; [reflexivity|].
  now rewrite Hm, IH.
Qed.

Lemma keeps_seal (base : list ChatMessage.t) : keeps base seal.
Proof.
  intros env tail Hbase. unfold seal. rewrite map_app, (map_unnamed _ Hbase).
  eauto.
Qed.

Lemma keeps_extend_thinking (base : list ChatMessage.t) (d : string) :
  keeps base (extend_thinking d).
Proof.
  intros env tail Hbase. unfold extend_thinking.
  rewrite map_app, (map_unnamed _ Hbase). eauto.
Qed.

Lemma keeps_append_thinking (base : list ChatMessage.t) (d : string) :
  keeps base (append_thinking d).
Proof.
  intros env tail _. unfold append_thinking. rewrite <- app_assoc. eauto.
Qed.

Lemma keeps_append_error (base : list ChatMessage.t) (o : StreamObject) :
  keeps base (append_error o).
Proof.
  intros env tail _. unfold append_error. rewrite <- app_assoc. eauto.
Qed.

Lemma keeps_append_chat_error (base : list ChatMessage.t) (message : string) :
  keeps base (append_chat_error message).
Proof.
  intros env tail _. unfold append_chat_error. rewrite <- app_assoc. eauto.
Qed.

Lemma keeps_put_assistant_text (base : list ChatMessage.t) (aid : string) :
  fresh aid base -> keeps base (put_assistant_text aid).
Proof.
  intros Hfresh env tail Hbase. unfold put_assistant_text.
  destruct (match last (map Some (base ++ tail)%list) None with
            | Some lastMsg => _
            | None => false
            end).
  - rewrite map_app, (map_unnamed _ Hfresh). eauto.
  - rewrite filter_app, (filter_unnamed Hbase), <- app_assoc. eauto.
Qed.

Lemma appending_queue (base : list ChatMessage.t) (f : Updater) (st : Turn) :
  keeps base f -> appending base st -> appending base (setChatMessages f st).
Proof.
  intros Hf [Hopen Hshow]. split; [exact Hopen|]. intros l now Hl.
  destruct (Hshow l now Hl) as [tail Htail].
  unfold would_show, setChatMessages in *. cbn [pending chatMessages] in *.
  rewrite run_pending_snoc, Htail. now apply Hf.
Qed.

Lemma appending_render (base : list ChatMessage.t) (now : Z) (st : Turn) :
  appending base st -> appending base (render now st).
Proof.
  intros [Hopen Hshow]. split; [exact Hopen|]. intros l now' _.
  unfold would_show, render. cbn [pending chatMessages run_pending fold_left].
  now apply Hshow.
Qed.

Lemma appending_text (base : list ChatMessage.t) (text : string) (st : Turn) :
  appending base st -> appending base (set_currentAssistantMessage text st).
Proof. intros H. exact H. Qed.

Lemma appending_open (base : list ChatMessage.t) (o : option string)
  (st : Turn) :
  unnamed_by o base -> appending base st ->
  appending base (set_thinkingMessageId o st).
Proof. intros Ho [_ Hshow]. split; [exact Ho|exact Hshow]. Qed.

Lemma appending_flag (base : list ChatMessage.t) (b : bool) (st : Turn) :
  appending base st -> appending base (setIsModelStreaming b st).
Proof. intros H. exact H. Qed.

Lemma appending_seal_open_thinking (base : list ChatMessage.t) (st : Turn) :
  unnamed_by None base -> appending base st ->
  appending base (seal_open_thinking st).
Proof.
  intros Hnone Hst. unfold seal_open_thinking.
  destruct (id_truthy _); [|assumption].
  apply appending_open; [assumption|].
  apply appending_queue; [apply keeps_seal|assumption].
Qed.

Lemma appending_on_chunk (base : list ChatMessage.t) (aid : string) (now : Z)
  (c : Chunk) (st : Turn) :
  unnamed_by None base ->
  fresh aid base ->
  fresh ("thinking-" ++ Number_toString now) base ->
  appending base st ->
  appending base (fst (on_chunk aid now c st)).
Proof.
  intros Hnone Haid Hthinking Hst. unfold on_chunk.
  destruct c as [o|]; [|assumption].
  destruct (type_is o "thinking"); [|destruct (type_is o "text");
    [|destruct (type_is o "error"); [|assumption]]]; cbn [fst].
  - unfold on_thinking. destruct (negb _).
    + apply appending_queue; [apply keeps_append_thinking|].
      now apply appending_open.
    + apply appending_queue; [apply keeps_extend_thinking|assumption].
  - unfold on_text.
    apply appending_queue; [now apply keeps_put_assistant_text|].
    apply appending_seal_open_thinking; [assumption|].
    now apply appending_text.
  - unfold on_error. apply appending_seal_open_thinking; [assumption|].
    apply appending_queue; [apply keeps_append_error|assumption].
Qed.

Lemma appending_for_await (base : list ChatMessage.t) (aid : string) :
  unnamed_by None base ->
  fresh aid base ->
  forall (es : list Event) (st : Turn),
    thinking_ids_fresh es base ->
    appending base st ->
    appending base (fst (for_await aid es st)).
Proof.
  intros Hnone Haid. unfold thinking_ids_fresh.
  induction es as [|[now c|now] es IH]; cbn [for_await arrivals];
    intros st Hes Hst.
  - assumption.
  - inversion Hes as [|tc cs Hnow Hrest]; subst. cbn [fst] in Hnow.
    pose proof (appending_on_chunk now c Hnone Haid Hnow Hst) as Hstep.
    destruct (on_chunk aid now c st) as [st' [|]]; cbn [fst] in *.
    + assumption.
    + now apply IH.
  - apply IH; [assumption|]. now apply appending_render.
Qed.

Lemma appending_on_finally (base : list ChatMessage.t) (st : Turn) :
  appending base st ->
  appending base (on_finally st) /\ isModelStreaming (on_finally st) = false.
Proof.
  intros Hst. unfold on_finally.
  destruct (id_truthy _); split; try reflexivity.
  - apply appending_queue; [apply keeps_seal|]. now apply appending_flag.
  - now apply appending_flag.
Qed.

Lemma appending_consume (base : list ChatMessage.t) (aid : string)
  (stream : Stream) (st : Turn) :
  unnamed_by None base ->
  fresh aid base ->
  thinking_ids_fresh (events stream) base ->
  appending base st ->
  appending base (consume aid stream st)
  /\ isModelStreaming (consume aid stream st) = false.
Proof.
  intros Hnone Haid Hes Hst. unfold consume.
  pose proof (@appending_for_await _ _ Hnone Haid _ _ Hes Hst) as Hloop.
  destruct (for_await aid (events stream) st) as [st' [|]]; cbn [fst] in Hloop.
  - now apply appending_on_finally.
  - destruct (ending stream) as [|message].
    + now apply appending_on_finally.
    + apply appending_on_finally.
      apply appending_queue; [apply keeps_append_chat_error|assumption].
Qed.

Lemma thinking_ids_fresh_app (es : list Event) (a b : list ChatMessage.t) :
  thinking_ids_fresh es a ->
  (forall t, fresh ("thinking-" ++ Number_toString t) b) ->
  thinking_ids_fresh es (a ++ b)%list.
Proof.
  unfold thinking_ids_fresh. intros Ha Hb.
  induction Ha as [|tc cs Htc _ IH]; constructor; [|assumption].
  now apply fresh_app.
Qed.

(** X17.  A turn only appends, renders permitting.  Take a transcript in
    which every entry has an id, none of them the id of this turn's
    assistant entry or an id a thinking record of this stream can open.
    Then, whatever the stream holds, whenever React renders and however
    the stream ends, the transcript after the turn starts with the entries
    that were there, unchanged and in order, followed by the message just
    sent; and the streaming flag is cleared. *)
Theorem turn_only_appends
  (onModelRun : string -> list ApiMessage -> Stream)
  (selectedModel : string) (chatMessages0 : list ChatMessage.t)
  (isModelStreaming0 : bool) (t_user t_assistant t_settled : Z)
  (userInput : string) :
  blank userInput = false ->
  unnamed_by None chatMessages0 ->
  fresh ("assistant-" ++ Number_toString t_assistant) chatMessages0 ->
  thinking_ids_fresh
    (events (onModelRun selectedModel
               (messagesForApi chatMessages0
                  (newUserMessage t_user userInput))))
    chatMessages0 ->
  let result :=
    handleSendMessageToModel onModelRun selectedModel chatMessages0
      isModelStreaming0 t_user t_assistant t_settled userInput in
  (exists added,
     fst (fst result)
     = ((chatMessages0 ++ [newUserMessage t_user userInput]) ++ added)%list)
  /\ snd (fst result) = false.
Proof.
  intros Hblank Hnone Haid Hthinking result. subst result.
  unfold handleSendMessageToModel. rewrite Hblank. cbn [fst snd].
  set (base := (chatMessages0 ++ [newUserMessage t_user userInput])%list).
  set (st0 := {| chatMessages := chatMessages0 |}).
  assert (H0 : appending base st0).
  { split; [|intros l now _; exists []; now rewrite app_nil_r].
    apply Forall_app. split; [exact Hnone|]. repeat constructor. }
  assert (Hnone' : unnamed_by None base).
  { apply Forall_app. split; [exact Hnone|]. repeat constructor. }
  assert (Haid' : fresh ("assistant-" ++ Number_toString t_assistant) base).
  { apply fresh_app; [assumption|]. repeat constructor. }
  assert (Hthinking' :
            thinking_ids_fresh
              (events (onModelRun selectedModel
                         (messagesForApi chatMessages0
                            (newUserMessage t_user userInput))))
              base).
  { apply thinking_ids_fresh_app; [assumption|]. intros t.
    repeat constructor. }
  destruct (@appending_consume _ _ _ _ Hnone' Haid' Hthinking' H0)
    as [[Hopen Hshow] Hflag].
  split; [|exact Hflag].
  destruct (Hshow _ t_settled Hopen) as [added Hadded].
  exists added. exact Hadded.
Qed.

End ScheduleFacts.

(** ** A chat turn end to end *)

Section ChatTurnEndToEnd.
Import JS Types Text App GameScreen Transcript ModelRun.
Open Scope string_scope.

Variable JSON_parse : js_string -> option Chunk.
Variable JSON_parse_detail : string -> Settled (option string).
Variable arrival : nat -> Z.
Variable rendered : nat -> option Z.
Variable SyntaxError_message : js_string -> string.
Variable fetch_model_run : string -> list ApiMessage -> string -> Fetched.

Local Abbreviation chat_turn :=
  (chat_turn JSON_parse JSON_parse_detail arrival rendered
     SyntaxError_message).

Lemma for_await_no_error (aid : string) (es : list Event) :
  no_error_record (arrivals es) ->
  forall st, snd (for_await aid es st) = false.
Proof.
  unfold no_error_record.
  induction es as [|[now c|now] es IH]; simpl; intros Hes st.
  - reflexivity.
  - inversion Hes as [|tc cs Hc Hrest]; subst. simpl in Hc.
    unfold on_chunk. destruct c as [o|]; [|now apply IH].
    destruct (type_is o "thinking"); [now apply IH|].
    destruct (type_is o "text"); [now apply IH|].
    rewrite Hc. now apply IH.
  - now apply IH.
Qed.

(** X21.  A model run that produces no stream (no user is held, the request
    is rejected or refused, or the response has no body) never makes the
    chat handler fail: the turn ends with the flag cleared and exactly one
    entry after the user's message, the assistant entry
    "Error from AI: [object Object]", named after the clock at the render
    that shows it; the failure message itself is kept in App's [error]
    state and shown in the snackbar only. *)
Theorem failed_model_run_in_chat
  (selectedModel : string) (chatMessages0 : list ChatMessage.t)
  (t_user t_assistant t_settled : Z) (userInput : string) (s : State) :
  blank userInput = false ->
  match currentUser s with
  | None => True
  | Some user =>
      has_body (fetch_model_run selectedModel
                  (messagesForApi chatMessages0
                     (newUserMessage t_user userInput))
                  (User.id user)) = false
  end ->
  let result :=
    chat_turn fetch_model_run selectedModel chatMessages0
      t_user t_assistant t_settled userInput s in
  fst result
  = ((chatMessages0
        ++ [ newUserMessage t_user userInput;
             {| ChatMessage.id :=
                  Some ("error-" ++ Number_toString t_settled)%string;
                ChatMessage.role := Role.assistant;
                ChatMessage.content := "Error from AI: [object Object]";
                ChatMessage.isThinking := None |} ])%list,
     false)
  /\ exists errorMessage,
       App.error (snd result) = Some errorMessage
       /\ (snackbar (snd result) = Some ("AI Chat Error: " ++ errorMessage)
           \/ snackbar (snd result) = Some ("Error: " ++ errorMessage)).
Proof.
  intros Hblank Hfail result. subst result.
  unfold ModelRun.chat_turn, handleSendMessageToModel. rewrite Hblank.
  unfold handleModelRun.
  destruct (currentUser s) as [user|].
  - destruct (fetch_model_run selectedModel _ (User.id user))
      as [message|status errorText| |reads]; [| | |discriminate].
    + cbn -[Number_toString]. rewrite <- app_assoc. unfold snackbar. cbn.
      eauto.
    + destruct (JSON_parse_detail errorText);
        cbn -[Number_toString or_string]; rewrite <- app_assoc;
        unfold snackbar; cbn -[or_string]; eauto.
    + cbn -[Number_toString]. rewrite <- app_assoc. unfold snackbar. cbn.
      eauto.
  - cbn -[Number_toString]. rewrite <- app_assoc. unfold snackbar. cbn.
    eauto.
Qed.

(** X23.  A body that stops parsing.  When a user is held, the response has
    a body, the generator throws on a segment and no record before it was an
    error record, the turn ends with the flag cleared and its last entry is
    the assistant entry "Chat Error: " followed by the message of the
    thrown SyntaxError. *)
Theorem malformed_body_in_chat
  (selectedModel : string) (chatMessages0 : list ChatMessage.t)
  (t_user t_assistant t_settled : Z) (userInput : string) (s : State)
  (user : User.t) (reads : list js_string) (segment : js_string) :
  blank userInput = false ->
  currentUser s = Some user ->
  fetch_model_run selectedModel
    (messagesForApi chatMessages0 (newUserMessage t_user userInput))
    (User.id user) = Body reads ->
  snd (StreamDecoder.decode JSON_parse reads) = StreamDecoder.Threw segment ->
  no_error_record
    (arrivals
       (events (as_stream arrival rendered SyntaxError_message
                  (StreamDecoder.decode JSON_parse reads)))) ->
  let result :=
    chat_turn fetch_model_run selectedModel chatMessages0
      t_user t_assistant t_settled userInput s in
  snd (fst result) = false
  /\ exists before e,
       fst (fst result) = (before ++ [e])%list
       /\ ChatMessage.role e = Role.assistant
       /\ ChatMessage.content e
          = "Chat Error: " ++ SyntaxError_message segment.
Proof.
  intros Hblank Hu Hfetch Hthrow Hrecords result. subst result.
  unfold ModelRun.chat_turn, handleSendMessageToModel. rewrite Hblank.
  unfold handleModelRun. rewrite Hu, Hfetch. cbn [fst snd].
  unfold consume.
  set (st0 := {| chatMessages := _ |}).
  pose proof (for_await_no_error
                ("assistant-" ++ Number_toString t_assistant) _ Hrecords st0)
    as Hloop.
  destruct (for_await _ _ st0) as [st' b]. simpl in Hloop. subst b.
  assert (Hend : ending (as_stream arrival rendered SyntaxError_message
                           (StreamDecoder.decode JSON_parse reads))
                 = StreamThrows (SyntaxError_message segment))
    by (unfold as_stream; cbn [ending]; now rewrite Hthrow).
  rewrite Hend. unfold on_finally, on_catch, setIsModelStreaming,
    setChatMessages, render.
  cbn [vars pending chatMessages isModelStreaming].
  destruct (id_truthy (thinkingMessageId (vars st')));
    cbn [vars pending chatMessages isModelStreaming]; split;
    try reflexivity.
  - rewrite !run_pending_snoc. unfold append_chat_error.
    match goal with
    | |- context [seal ?env (?l ++ [?m])%list] =>
        destruct (seal_last_id env l m) as (m' & -> & _ & Hrole & Hcontent)
    end.
    eexists _, m'. split; [reflexivity|]. now rewrite Hrole, Hcontent.
  - rewrite run_pending_snoc. unfold append_chat_error.
    eexists _, _. split; [reflexivity|]. cbn. auto.
Qed.

End ChatTurnEndToEnd.

(* ------------------------------------------------------------------------- *)
(** ** Sending from the input area *)

Section ChatInputFacts.
Import Text ChatInputArea.
Open Scope string_scope.

(** X24.  What makes the input area send: a message goes to
    [onSendMessage] exactly when the field is not blank and the event is the
    form's submit, or Enter without Shift while nothing is being sent; the
    message is the field's text as typed. *)
Theorem send_needs_submit_or_enter
  (isSending : bool) (userInput : string) (e : Event) (message : string) :
  snd (dispatch isSending userInput e) = Some message
  <-> message = userInput
      /\ blank userInput = false
      /\ (e = Submit \/ (e = KeyDown "Enter" false /\ isSending = false)).
Proof.
  unfold dispatch, handleSend. split.
  - destruct e as [value|key shiftKey|]; simpl.
    + discriminate.
    + destruct (key =? "Enter") eqn:Hk; simpl; [|discriminate].
      apply String.eqb_eq in Hk. subst key.
      destruct shiftKey, isSending; simpl; try discriminate.
      destruct (blank userInput); [discriminate|].
      intros [= <-]. auto.
    + destruct (blank userInput); [discriminate|]. intros [= <-]. auto.
  - intros (-> & Hb & [->|[-> ->]]); simpl; now rewrite Hb.
Qed.

End ChatInputFacts.

(* ------------------------------------------------------------------------- *)
(** ** The further properties at sample inputs *)

Lemma join_dialog_validation_witness :
  snd (JoinDialog.handleSubmit
         {| JoinDialog.name := "  Ada "; JoinDialog.inputError := None |})
  = Some "Ada"%string
  /\ Text.blank "Ada" = false
  /\ (String.length "Ada" <= 30)%nat.
Proof.
  split; [reflexivity|].
  destruct (proj1 (join_dialog_validation
                     {| JoinDialog.name := "  Ada ";
                        JoinDialog.inputError := None |})
              "Ada"%string eq_refl) as (_ & Hb & Hl & _).
  split; assumption.
Defined.

Lemma join_dialog_request_witness :
  AppProps.join_request "Ada"
    (Some {| App.startNew := Some false; App.isAutoAttempt := None |})
    (App.initial None)
  = Some ("Ada"%string, false).
Proof.
  exact (proj1 (join_dialog_request Samples.join_accepted
                  Samples.join_accepted
                  {| JoinDialog.name := "  Ada ";
                     JoinDialog.inputError := None |}
                  (App.initial None) (n:="Ada"%string) eq_refl)).
Defined.

Lemma join_success_witness :
  let s' := fst (App.handleJoinGame Samples.join_accepted "Ada" None
                   (App.initial None)) in
  App.currentQuestion s' = Some Samples.q1
  /\ App.localStorage_userName s' = Some "Ada"%string
  /\ App.currentView s' = Types.GameView.playing.
Proof.
  pose proof (join_success Samples.join_accepted "Ada" None
                (App.initial None) eq_refl eq_refl) as H.
  cbv zeta in H. destruct H as (_ & _ & Hq & Hs & _ & _ & _ & _ & _ & Hv & _).
  repeat split; assumption.
Defined.

Lemma explicit_join_failure_witness :
  let s' := fst (App.handleJoinGame Samples.join_refused "Ada" None
                   (App.initial None)) in
  App.snackbar s' = Some "Failed to join: User not found."%string
  /\ App.currentView s' = Types.GameView.loading
  /\ App.localStorage_userName s' = None.
Proof.
  pose proof (explicit_join_failure Samples.join_refused "Ada" None
                (App.initial None) eq_refl eq_refl eq_refl) as H.
  cbv zeta in H.
  destruct H as (_ & _ & _ & _ & _ & Hv & _ & Hs & _).
  repeat split; assumption.
Defined.

Lemma auto_rejoin_resumes_witness :
  let s' := App.initializeApp (App.HttpOk Samples.some_models)
              Samples.join_accepted (App.initial (Some "Ada"%string)) in
  App.currentUser s' = Some Samples.ada
  /\ MainLayout.mounted s' = Some (MainLayout.Game Samples.q1).
Proof.
  pose proof (auto_rejoin_resumes Samples.join_accepted Samples.some_models
                (savedName:="Ada"%string) (App.initial (Some "Ada"%string))
                eq_refl eq_refl eq_refl) as H.
  cbv zeta in H. destruct H as (Hu & _ & _ & _ & _ & _ & _ & _ & Hm).
  split; assumption.
Defined.

Lemma model_load_failure_witness :
  let s' := App.initializeApp (App.HttpError 503 None)
              Samples.join_accepted (App.initial (Some "Ada"%string)) in
  App.currentView s' = Types.GameView.error
  /\ App.localStorage_userName s' = Some "Ada"%string.
Proof.
  pose proof (model_load_failure Samples.join_accepted
                (App.HttpError 503 None) (App.initial (Some "Ada"%string))
                eq_refl) as H.
  cbv zeta in H. destruct H as (_ & Hv & _ & _ & Hs & _).
  split; assumption.
Defined.

Lemma nothing_to_resume_witness :
  let s' := App.initializeApp (App.HttpOk Samples.some_models)
              Samples.join_accepted (App.initial (Some "  "%string)) in
  App.render s' = App.MainTree true
  /\ App.localStorage_userName s' = Some "  "%string.
Proof.
  pose proof (nothing_to_resume Samples.join_accepted Samples.some_models
                (App.initial (Some "  "%string)) eq_refl) as H.
  cbv zeta in H. destruct H as (_ & _ & Hr & _ & Hs & _).
  split; assumption.
Defined.

Lemma play_again_starts_new_witness :
  AppProps.join_request "Ada"
    (Some {| App.startNew :=
               Some (App.isNewGameMode (App.handlePlayAgain Samples.playing_q1));
             App.isAutoAttempt := None |})
    (App.handlePlayAgain Samples.playing_q1)
  = Some ("Ada"%string, true).
Proof.
  pose proof (play_again_starts_new Samples.join_accepted Samples.playing_q1)
    as H.
  cbv zeta in H. destruct H as (_ & _ & _ & _ & _ & _ & Hreq & _).
  exact (Hreq "Ada"%string eq_refl).
Defined.

Lemma attempt_failure_keeps_state_witness :
  let s' := fst (App.handleSubmitAttempt Samples.attempt_unreachable "42"
                   Samples.playing_q1) in
  App.currentUser s' = Some Samples.ada
  /\ App.currentQuestion s' = Some Samples.q1
  /\ App.currentView s' = Types.GameView.playing.
Proof.
  pose proof (attempt_failure_keeps_state Samples.attempt_unreachable "42"
                Samples.playing_q1 (u:=Samples.ada) (q:=Samples.q1)
                eq_refl eq_refl eq_refl) as H.
  cbv zeta in H. destruct H as (_ & _ & Hu & Hq & Hv & _).
  repeat split; assumption.
Defined.

Lemma attempt_needs_user_and_puzzle_witness :
  snd (App.handleSubmitAttempt Samples.attempt_unreachable "42"
         (App.initial None))
  = App.Rejects "User or question not available for submission.".
Proof.
  pose proof (attempt_needs_user_and_puzzle Samples.attempt_unreachable "42"
                (App.initial None) (or_introl eq_refl)) as H.
  cbv zeta in H. exact (proj1 H).
Defined.

Lemma answer_dialog_submit_witness :
  let st := {| AnswerSubmissionDialog.answer := "42";
               AnswerSubmissionDialog.submissionResult := None;
               AnswerSubmissionDialog.fieldError := None;
               AnswerSubmissionDialog.isSubmitting := false |} in
  AnswerSubmissionDialog.alert
    (fst (AnswerSubmissionDialog.submit Samples.attempt_unreachable st
            Samples.playing_q1))
  = AnswerSubmissionDialog.ErrorAlert "Failed to fetch".
Proof.
  intros st.
  pose proof (answer_dialog_submit Samples.attempt_unreachable st
                Samples.playing_q1) as H.
  cbv zeta in H. destruct H as (_ & H). specialize (H eq_refl).
  destruct H as (_ & _ & _ & H). exact (proj2 H).
Defined.

Lemma screen_after_attempt_witness :
  MainLayout.mounted
    (fst (App.handleSubmitAttempt
            (fun _ _ => App.HttpOk Samples.correct_next) "42"
            Samples.playing_q1))
  = Some (MainLayout.Game Samples.q2).
Proof.
  exact (screen_after_attempt (fun _ _ => App.HttpOk Samples.correct_next)
           "42" Samples.playing_q1 (u:=Samples.ada) (q:=Samples.q1)
           (m:=Samples.some_models) (data:=Samples.correct_next)
           eq_refl eq_refl eq_refl eq_refl eq_refl eq_refl eq_refl).
Defined.

Lemma rendered_thinking_stays_provisional_witness :
  fst (GameScreen.handleSendMessageToModel
         (fun _ _ =>
            {| GameScreen.events :=
                 ([ GameScreen.Arrives 5 (GameScreen.thinking_record "a");
                    GameScreen.Arrives 6 (GameScreen.thinking_record "b") ]
                    ++ GameScreen.Renders 7
                    :: [ GameScreen.Arrives 8 (GameScreen.text_record "X");
                         GameScreen.Arrives 9
                           (GameScreen.text_record "Y") ])%list;
               GameScreen.ending := GameScreen.EndOfStream |})
         "m1" Samples.one_turn false 4 4 10 "more")
  = ((Samples.one_turn
        ++ [ GameScreen.newUserMessage 4 "more";
             {| Types.ChatMessage.id := Some "thinking-5"%string;
                Types.ChatMessage.role := Types.Role.thinking;
                Types.ChatMessage.content := "ab";
                Types.ChatMessage.isThinking := Some true |};
             {| Types.ChatMessage.id := Some "assistant-4"%string;
                Types.ChatMessage.role := Types.Role.assistant;
                Types.ChatMessage.content := "XY";
                Types.ChatMessage.isThinking := None |} ])%list,
     false).
Proof.
  refine (@rendered_thinking_stays_provisional "m1" Samples.one_turn false
            4 4 10 "more"
            [ GameScreen.Arrives 5 (GameScreen.thinking_record "a");
              GameScreen.Arrives 6 (GameScreen.thinking_record "b") ]
            [ GameScreen.Arrives 8 (GameScreen.text_record "X");
              GameScreen.Arrives 9 (GameScreen.text_record "Y") ]
            7 GameScreen.EndOfStream 5 "a" [ (6%Z, "b"%string) ]
            8 "X" [ (9%Z, "Y"%string) ] eq_refl eq_refl eq_refl _ _);
    repeat constructor.
Defined.

Lemma turn_only_appends_witness :
  let result :=
    GameScreen.handleSendMessageToModel
      (fun _ _ =>
         {| GameScreen.events :=
              [ GameScreen.Arrives 5 (GameScreen.text_record "X");
                GameScreen.Arrives 6 (GameScreen.thinking_record "a");
                GameScreen.Renders 7;
                GameScreen.Arrives 8 (GameScreen.text_record "Y") ];
            GameScreen.ending := GameScreen.StreamThrows "reset" |})
      "m1" Samples.one_turn false 4 4 9 "more" in
  (exists added,
     fst (fst result)
     = ((Samples.one_turn ++ [ GameScreen.newUserMessage 4 "more" ])
          ++ added)%list)
  /\ snd (fst result) = false.
Proof.
  refine (@turn_only_appends
            (fun _ _ =>
               {| GameScreen.events :=
                    [ GameScreen.Arrives 5 (GameScreen.text_record "X");
                      GameScreen.Arrives 6 (GameScreen.thinking_record "a");
                      GameScreen.Renders 7;
                      GameScreen.Arrives 8 (GameScreen.text_record "Y") ];
                  GameScreen.ending := GameScreen.StreamThrows "reset" |})
            "m1" Samples.one_turn false 4 4 9 "more" eq_refl _ _ _);
    repeat constructor.
Defined.

Lemma thinking_run_coalesces_witness :
  fst (GameScreen.handleSendMessageToModel
         (fun _ _ =>
            {| GameScreen.events :=
                 [ GameScreen.Arrives 5 (GameScreen.thinking_record "a");
                   GameScreen.Renders 6;
                   GameScreen.Arrives 7 (GameScreen.thinking_record "b") ];
               GameScreen.ending := GameScreen.StreamThrows "reset" |})
         "m1" Samples.one_turn false 4 4 9 "more")
  = ((Samples.one_turn
        ++ [ GameScreen.newUserMessage 4 "more";
             {| Types.ChatMessage.id := Some "thinking-5"%string;
                Types.ChatMessage.role := Types.Role.thinking;
                Types.ChatMessage.content := "ab";
                Types.ChatMessage.isThinking := Some false |};
             {| Types.ChatMessage.id := Some "error-9"%string;
                Types.ChatMessage.role := Types.Role.assistant;
                Types.ChatMessage.content := "Chat Error: reset";
                Types.ChatMessage.isThinking := None |} ])%list,
     false).
Proof.
  refine (@thinking_run_coalesces "m1" Samples.one_turn false 4 4 9 "more"
            [ GameScreen.Arrives 5 (GameScreen.thinking_record "a");
              GameScreen.Renders 6;
              GameScreen.Arrives 7 (GameScreen.thinking_record "b") ]
            (GameScreen.StreamThrows "reset") 5 "a" [ (7%Z, "b"%string) ]
            eq_refl eq_refl _);
    repeat constructor.
Defined.

Lemma text_run_coalesces_witness :
  fst (GameScreen.handleSendMessageToModel
         (fun _ _ =>
            {| GameScreen.events :=
                 [ GameScreen.Arrives 5 (GameScreen.text_record "X");
                   GameScreen.Renders 6;
                   GameScreen.Arrives 7 (GameScreen.text_record "Y") ];
               GameScreen.ending := GameScreen.EndOfStream |})
         "m1" Samples.one_turn false 4 4 9 "more")
  = ((Samples.one_turn
        ++ [ GameScreen.newUserMessage 4 "more";
             {| Types.ChatMessage.id := Some "assistant-4"%string;
                Types.ChatMessage.role := Types.Role.assistant;
                Types.ChatMessage.content := "XY";
                Types.ChatMessage.isThinking := None |} ])%list,
     false).
Proof.
  refine (@text_run_coalesces "m1" Samples.one_turn false 4 4 9 "more"
            [ GameScreen.Arrives 5 (GameScreen.text_record "X");
              GameScreen.Renders 6;
              GameScreen.Arrives 7 (GameScreen.text_record "Y") ]
            GameScreen.EndOfStream 5 "X" [ (7%Z, "Y"%string) ]
            eq_refl eq_refl _);
    repeat constructor.
Defined.

Lemma failed_model_run_in_chat_witness :
  fst (ModelRun.chat_turn Samples.tagged_parse Samples.no_detail Samples.tick
         Samples.every_record Samples.syntax_error Samples.model_run_refused
         "m1" [] 4 4 9 "hint?" Samples.playing_q1)
  = ([ GameScreen.newUserMessage 4 "hint?";
       {| Types.ChatMessage.id := Some "error-9"%string;
          Types.ChatMessage.role := Types.Role.assistant;
          Types.ChatMessage.content := "Error from AI: [object Object]";
          Types.ChatMessage.isThinking := None |} ],
     false).
Proof.
  exact (proj1 (@failed_model_run_in_chat Samples.tagged_parse
                  Samples.no_detail Samples.tick Samples.every_record
                  Samples.syntax_error Samples.model_run_refused "m1" [] 4 4
                  9 "hint?" Samples.playing_q1 eq_refl eq_refl)).
Defined.

Lemma malformed_body_in_chat_witness :
  let result :=
    ModelRun.chat_turn Samples.tagged_parse Samples.no_detail Samples.tick
      Samples.every_record Samples.syntax_error Samples.model_run_malformed
      "m1" [] 4 4 9 "hint?" Samples.playing_q1 in
  snd (fst result) = false
  /\ exists before e,
       fst (fst result) = (before ++ [e])%list
       /\ Types.ChatMessage.role e = Types.Role.assistant
       /\ Types.ChatMessage.content e = "Chat Error: Unexpected token"%string.
Proof.
  refine (@malformed_body_in_chat Samples.tagged_parse Samples.no_detail
            Samples.tick Samples.every_record Samples.syntax_error
            Samples.model_run_malformed "m1" [] 4 4 9 "hint?"
            Samples.playing_q1 Samples.ada Samples.body_malformed
            (Samples.units "oops") eq_refl eq_refl eq_refl eq_refl _).
  repeat constructor.
Defined.
